(** * fraud_catcher: a shallow embedding of the Python package

    The development follows [packages/python/src/fraud_catcher]: the data
    model of [models.py], the signals of [algorithms/] and the orchestrator
    of [fraud_detector.py].

    Conventions of the embedding.
    - A Python [float] is an exact rational ([Q]); [>=], [>] and [<] are the
      boolean comparisons on [Q].  Rounding is not modelled.
    - A Python exception is a value: every function that can raise returns a
      [result]; true division raises [ZeroDivisionError] on a zero divisor.
    - A [dict] is a [gmap], a [set] a [gset]; a [dict] whose iteration order
      matters (the rule registry) is an association list in insertion order.
    - Readings of the wall clock ([time.time()], [datetime.now()]) are
      explicit arguments of the function that takes them.
    - [async def] is read as [def]: no signal suspends. *)

From Stdlib Require Import QArith Qminmax Qabs Qround ZArith Lia Lqa List.
From stdpp Require Import gmap strings list fin_maps pretty.
Import ListNotations.

Local Open Scope Q_scope.

(** ** Python values *)

Inductive exn : Type :=
| ZeroDivisionError
| TypeError
| ValueError
| SignalError (msg : string).

Inductive result (A : Type) : Type :=
| Ok (a : A)
| Raise (e : exn).
Arguments Ok {A} a.
Arguments Raise {A} e.

(** Sequencing: an exception skips the rest ([x ← r; k] below). *)
#[global] Instance result_ret : MRet result := fun _ a => Ok a.
#[global] Instance result_bind : MBind result := fun _ _ k r =>
  match r with
  | Ok a => k a
  | Raise e => Raise e
  end.

(** [x / y] on floats. *)
Definition fdiv (x y : Q) : result Q :=
  if Qeq_bool y 0 then Raise ZeroDivisionError else Ok (x / y).

(** [x >= y], [x > y] and [x < y] on floats. *)
Definition Qgeb (x y : Q) : bool := Qle_bool y x.
Definition Qgtb (x y : Q) : bool := negb (Qle_bool x y).
Definition Qltb (x y : Q) : bool := negb (Qle_bool y x).

(** Truthiness of an optional string: [None] and [''] are falsy. *)
Definition truthy (s : option string) : bool :=
  match s with
  | Some s => negb (String.eqb s "")
  | None => false
  end.

(** [s or d] for an optional string. *)
Definition str_or (s : option string) (d : string) : string :=
  match s with
  | Some s => if String.eqb s "" then d else s
  | None => d
  end.

(** A [datetime], seen through what the package reads from it:
    [strftime('%Y-%m-%d')], [.hour], [.weekday()] (Monday is 0), its
    position on the time line in microseconds (for [-] and
    [.timestamp()]) and whether it is aware, that is, carries a time zone.
    A reading of [datetime.now()] is naive; the timestamp of a transaction
    is aware when [Transaction.__post_init__] parses it from a string with
    an offset (or with [Z]), or when the caller passes an aware one. *)
Record datetime : Type := {
  dt_date : string;
  dt_hour : Z;
  dt_weekday : Z;
  dt_micros : Z;
  dt_aware : bool
}.

(** [(a - b).total_seconds()] for two datetimes of one kind, as two readings
    of [datetime.now()] are. *)
Definition total_seconds (a b : datetime) : Q :=
  inject_Z (dt_micros a - dt_micros b) / 1000000.

(** [(a - b).total_seconds()] in general: [-] raises [TypeError] between an
    aware and a naive datetime. *)
Definition seconds_between (a b : datetime) : result Q :=
  if Bool.eqb (dt_aware a) (dt_aware b) then Ok (total_seconds a b)
  else Raise TypeError.

(** A list comprehension [[x for x in l if test(x)]] whose test can raise:
    the first element on which it raises ends the comprehension. *)
Fixpoint comprehension {A : Type} (test : A → result bool) (l : list A)
    : result (list A) :=
  match l with
  | [] => Ok []
  | x :: l =>
      match test x with
      | Raise e => Raise e
      | Ok keep =>
          rest ← comprehension test l;
          Ok (if keep : bool then x :: rest else rest)
      end
  end.

(** [d.timestamp()] *)
Definition posix (d : datetime) : Q := inject_Z (dt_micros d) / 1000000.

(** ** models.py *)

Record Location : Type := {
  lat : Q;
  lng : Q;
  country : option string;
  city : option string;
  state : option string
}.

(** [Transaction] after [__post_init__]: the timestamp is a [datetime]. *)
Record Transaction : Type := {
  tx_id : string;
  tx_user_id : string;
  tx_amount : Q;
  tx_currency : string;
  tx_timestamp : datetime;
  tx_location : option Location;
  tx_merchant_id : option string;
  tx_merchant_category : option string;
  tx_payment_method : option string;
  tx_device_id : option string;
  tx_ip_address : option string;
  tx_user_agent : option string;
  tx_metadata : option (gmap string string)
}.

(** A rule; its [config] is never read and is left out. *)
Record DetectionRule : Type := {
  rule_name : string;
  rule_weight : Q;
  rule_threshold : Q;
  rule_enabled : bool
}.

Record FraudDetectorConfig : Type := {
  cfg_rules : list string;
  cfg_thresholds : gmap string Q;
  cfg_global_threshold : Q;
  cfg_enable_logging : bool;
  cfg_custom_rules : option (list DetectionRule)
}.

(** The [details] dictionary of a [FraudResult]. *)
Record Details : Type := {
  details_algorithm : string;
  details_processing_time : Q;
  details_timestamp : datetime
}.

Record FraudResult : Type := {
  transaction_id : string;
  risk_score : Q;
  is_fraudulent : bool;
  confidence : Q;
  triggered_rules : list string;
  details : Details;
  recommendations : option (list string)
}.

(** [result.recommendations = r] *)
Definition set_recommendations (result : FraudResult) (r : list string)
    : FraudResult :=
  {| transaction_id := transaction_id result;
     risk_score := risk_score result;
     is_fraudulent := is_fraudulent result;
     confidence := confidence result;
     triggered_rules := triggered_rules result;
     details := details result;
     recommendations := Some r |}.

(** [transaction] as another user would send it. *)
Definition set_user_id (transaction : Transaction) (user_id : string)
    : Transaction :=
  {| tx_id := tx_id transaction;
     tx_user_id := user_id;
     tx_amount := tx_amount transaction;
     tx_currency := tx_currency transaction;
     tx_timestamp := tx_timestamp transaction;
     tx_location := tx_location transaction;
     tx_merchant_id := tx_merchant_id transaction;
     tx_merchant_category := tx_merchant_category transaction;
     tx_payment_method := tx_payment_method transaction;
     tx_device_id := tx_device_id transaction;
     tx_ip_address := tx_ip_address transaction;
     tx_user_agent := tx_user_agent transaction;
     tx_metadata := tx_metadata transaction |}.

(** [rule.threshold = x] and [rule.enabled = b] *)
Definition set_threshold (rule : DetectionRule) (x : Q) : DetectionRule :=
  {| rule_name := rule_name rule;
     rule_weight := rule_weight rule;
     rule_threshold := x;
     rule_enabled := rule_enabled rule |}.

Definition set_enabled (rule : DetectionRule) (b : bool) : DetectionRule :=
  {| rule_name := rule_name rule;
     rule_weight := rule_weight rule;
     rule_threshold := rule_threshold rule;
     rule_enabled := b |}.

(** ** Properties of a score curve

    A curve is given by the relation between an input and the score the
    code returns on it. *)

Definition non_decreasing (score : Q → Q → Prop) : Prop :=
  ∀ x y rx ry, x <= y → score x rx → score y ry → rx <= ry.

Definition continuous_at (score : Q → Q → Prop) (a : Q) : Prop :=
  ∀ ε, 0 < ε →
    ∃ δ, 0 < δ ∧
      ∀ x rx ra,
        Qabs (x - a) < δ → score x rx → score a ra → Qabs (rx - ra) < ε.

(** ** algorithms/amount.py *)

Module AmountAlgorithm.

Record AmountConfig : Type := {
  suspicious_threshold : Q;
  high_risk_threshold : Q;
  currency_multipliers : option (gmap string Q)
}.

(** The object after [__init__]: the multiplier table is filled in. *)
Record t : Type := {
  config_suspicious_threshold : Q;
  config_high_risk_threshold : Q;
  config_currency_multipliers : gmap string Q
}.

Definition default_multipliers : gmap string Q :=
  list_to_map [("USD", 1.0); ("EUR", 1.1); ("GBP", 1.3); ("JPY", 0.007)].

Definition init (config : AmountConfig) : t :=
  {| config_suspicious_threshold := suspicious_threshold config;
     config_high_risk_threshold := high_risk_threshold config;
     config_currency_multipliers :=
       match currency_multipliers config with
       | Some m => m
       | None => default_multipliers
       end |}.

(** [normalized_amount] of [analyze]. *)
Definition normalized_amount (self : t) (transaction : Transaction) : Q :=
  let amount := tx_amount transaction in
  let currency := str_or (Some (tx_currency transaction)) "USD" in
  let multiplier :=
    default 1.0 (config_currency_multipliers self !! currency) in
  amount * multiplier.

(** The threshold bands of [analyze], on the normalized amount. *)
Definition risk_of_normalized (self : t) (normalized_amount : Q) : result Q :=
  if Qgeb normalized_amount (config_high_risk_threshold self) then Ok 1.0
  else if Qgeb normalized_amount (config_suspicious_threshold self) then
    let range_val :=
      config_high_risk_threshold self - config_suspicious_threshold self in
    let position := normalized_amount - config_suspicious_threshold self in
    r ← fdiv position range_val ;
    Ok (0.5 + r * 0.5)
  else
    r ← fdiv normalized_amount (config_suspicious_threshold self) ;
    Ok (r * 0.5).

Definition analyze (self : t) (transaction : Transaction)
    (rule : DetectionRule) : result Q :=
  risk_of_normalized self (normalized_amount self transaction).

(** The curve of the signal: [r] is the score of the normalized amount
    [x]. *)
Definition score (self : t) (x r : Q) : Prop :=
  risk_of_normalized self x = Ok r.

(** The three bands between thresholds [s] and [h], as equations. *)
Inductive band (s h x r : Q) : Prop :=
| band_high : h <= x → r == 1 → band s h x r
| band_mid :
    s <= x → x < h → r == 0.5 + (x - s) / (h - s) * 0.5 → band s h x r
| band_low : x < s → r == x / s * 0.5 → band s h x r.

(** The three queries look [currency] up as it is given (no [or 'USD']). *)
Definition is_suspicious_amount (self : t) (amount : Q)
    (currency : string) : bool :=
  let multiplier :=
    default 1.0 (config_currency_multipliers self !! currency) in
  let normalized_amount := amount * multiplier in
  Qgeb normalized_amount (config_suspicious_threshold self).

Definition is_high_risk_amount (self : t) (amount : Q)
    (currency : string) : bool :=
  let multiplier :=
    default 1.0 (config_currency_multipliers self !! currency) in
  let normalized_amount := amount * multiplier in
  Qgeb normalized_amount (config_high_risk_threshold self).

Definition get_risk_level (self : t) (amount : Q) (currency : string)
    : string :=
  let multiplier :=
    default 1.0 (config_currency_multipliers self !! currency) in
  let normalized_amount := amount * multiplier in
  if Qgeb normalized_amount (config_high_risk_threshold self) then "high"
  else if Qgeb normalized_amount (config_suspicious_threshold self)
  then "medium"
  else "low".

End AmountAlgorithm.

(** ** algorithms/velocity.py *)

Module VelocityAlgorithm.

Record VelocityConfig : Type := {
  time_window : Z;
  max_transactions : Z;
  max_amount : Q
}.

Record t : Type := {
  config : VelocityConfig;
  transaction_history : gmap string (list Transaction)
}.

Definition init (config : VelocityConfig) : t :=
  {| config := config; transaction_history := ∅ |}.

(** [sum(tx.amount for tx in txs)] *)
Definition sum_amounts (txs : list Transaction) : Q :=
  fold_left Qplus (map tx_amount txs) 0.

(** The list comprehension of [analyze]: the stored events that pass
    [(now - tx.timestamp).total_seconds() * 1000 <= time_window_ms].  The
    subtraction raises on a stored event that is not of the kind of
    [now]. *)
Definition recent_transactions (self : t) (user_id : string)
    (now : datetime) : result (list Transaction) :=
  let time_window_ms := inject_Z (time_window (config self) * 60 * 1000) in
  let user_history := default [] (transaction_history self !! user_id) in
  comprehension
    (fun tx =>
       age ← seconds_between now (tx_timestamp tx);
       Ok (Qle_bool (age * 1000) time_window_ms))
    user_history.

(** [time_now] is the reading of [time.time()]. *)
Definition _add_transaction (self : t) (time_now : Q)
    (transaction : Transaction) : t :=
  let user_id := tx_user_id transaction in
  let history :=
    default [] (transaction_history self !! user_id) ++ [transaction] in
  let cutoff_time := time_now - inject_Z (time_window (config self) * 60) in
  {| config := config self;
     transaction_history :=
       <[user_id :=
           List.filter
             (fun tx => Qgtb (posix (tx_timestamp tx)) cutoff_time)
             history]> (transaction_history self) |}.

Definition analyze (self : t) (time_now : Q) (transaction : Transaction)
    (rule : DetectionRule) : result Q * t :=
  let user_id := tx_user_id transaction in
  let now := tx_timestamp transaction in
  match
    (recent ← recent_transactions self user_id now;
     let transaction_count := (Z.of_nat (length recent) + 1)%Z in
     let total_amount := sum_amounts recent + tx_amount transaction in
     c ← fdiv (inject_Z transaction_count)
              (inject_Z (max_transactions (config self)));
     a ← fdiv total_amount (max_amount (config self));
     Ok (Qmin c 1.0, Qmin a 1.0))
  with
  | Raise e => (Raise e, self)
  | Ok (count_risk, amount_risk) =>
      let velocity_score := (count_risk + amount_risk) / 2 in
      (Ok (Qmin velocity_score 1.0),
       _add_transaction self time_now transaction)
  end.

Definition get_transaction_count (self : t) (time_now : Q)
    (user_id : string) (time_window_minutes : Z) : Z :=
  let user_history := default [] (transaction_history self !! user_id) in
  let cutoff_time := time_now - inject_Z (time_window_minutes * 60) in
  Z.of_nat (length (List.filter
    (fun tx => Qgtb (posix (tx_timestamp tx)) cutoff_time) user_history)).

Definition get_total_amount (self : t) (time_now : Q)
    (user_id : string) (time_window_minutes : Z) : Q :=
  let user_history := default [] (transaction_history self !! user_id) in
  let cutoff_time := time_now - inject_Z (time_window_minutes * 60) in
  sum_amounts (List.filter
    (fun tx => Qgtb (posix (tx_timestamp tx)) cutoff_time) user_history).

(** The scenario of a burst: the user of [transaction] has ten stored
    transactions of $100, none older than the 60 minutes of the window and
    none later than [transaction], with timestamps of the kind of its
    timestamp, and [max_transactions] is 10. *)
Definition burst (self : t) (transaction : Transaction) : Prop :=
  time_window (config self) = 60%Z ∧
  max_transactions (config self) = 10%Z ∧
  ∃ history,
    transaction_history self !! tx_user_id transaction = Some history ∧
    length history = 10%nat ∧
    ∀ tx, In tx history →
      tx_amount tx == 100 ∧
      dt_aware (tx_timestamp tx) = dt_aware (tx_timestamp transaction) ∧
      0 <= total_seconds (tx_timestamp transaction) (tx_timestamp tx) ∧
      total_seconds (tx_timestamp transaction) (tx_timestamp tx) <= 3600.


End VelocityAlgorithm.

(** ** algorithms/time.py *)

Module TimeAlgorithm.

Record TimeConfig : Type := {
  suspicious_hours : list Z;
  weekend_risk_multiplier : Q;
  holiday_risk_multiplier : Q;
  timezone_threshold : Z;
  enable_holiday_detection : bool;
  custom_holidays : option (list datetime)
}.

Record TimePattern : Type := {
  hour : Z;
  day_of_week : Z;
  is_weekend : bool;
  is_holiday : bool;
  timezone : string;
  pattern_risk_score : Q
}.

Record t : Type := {
  config : TimeConfig;
  user_time_patterns : gmap string (list TimePattern);
  holidays : gset string
}.

(** [current_year] is [datetime.now().year] as the f-string prints it. *)
Definition _initialize_holidays (config : TimeConfig)
    (current_year : string) : gset string :=
  if enable_holiday_detection config then
    {[ current_year +:+ "-01-01";
       current_year +:+ "-12-25";
       current_year +:+ "-12-31" ]}
  else ∅.

Definition init (config : TimeConfig) (current_year : string) : t :=
  {| config := config;
     user_time_patterns := ∅;
     holidays := _initialize_holidays config current_year |}.

Definition Z_in (x : Z) (l : list Z) : bool := existsb (Z.eqb x) l.

Definition _is_holiday (self : t) (date : datetime) : bool :=
  if negb (enable_holiday_detection (config self)) then false
  else
    let date_str := dt_date date in
    if existsb (fun holiday => String.eqb (dt_date holiday) date_str)
         (default [] (custom_holidays (config self)))
    then true
    else bool_decide (date_str ∈ holidays self).

Definition _get_country_timezone (country : string) : string :=
  let timezone_map : gmap string string :=
    list_to_map
      [("US", "America/New_York"); ("GB", "Europe/London");
       ("DE", "Europe/Berlin"); ("FR", "Europe/Paris");
       ("JP", "Asia/Tokyo"); ("AU", "Australia/Sydney");
       ("CA", "America/Toronto"); ("BR", "America/Sao_Paulo");
       ("IN", "Asia/Kolkata"); ("CN", "Asia/Shanghai")] in
  default "UTC" (timezone_map !! country).

Definition _extract_timezone (transaction : Transaction) : string :=
  match tx_metadata transaction ≫= (.!! "timezone") with
  | Some tz => tz
  | None =>
      match tx_location transaction with
      | Some location =>
          if truthy (country location)
          then _get_country_timezone (default "" (country location))
          else "UTC"
      | None => "UTC"
      end
  end.

Definition _get_timezone_from_location (location : Location)
    : option string :=
  if truthy (country location)
  then Some (_get_country_timezone (default "" (country location)))
  else None.

(** [int(x)]: truncation towards zero. *)
Definition py_int (x : Q) : Z :=
  if Qle_bool 0 x then Qfloor x else Qceiling x.

Definition _calculate_timezone_difference (tz1 tz2 : string) : Z :=
  let timezone_offsets : gmap string Q :=
    list_to_map
      [("UTC", 0); ("America/New_York", -5); ("Europe/London", 0);
       ("Europe/Berlin", 1); ("Europe/Paris", 1); ("Asia/Tokyo", 9);
       ("Australia/Sydney", 10); ("America/Toronto", -5);
       ("America/Sao_Paulo", -3); ("Asia/Kolkata", 5.5);
       ("Asia/Shanghai", 8)] in
  let offset1 := default 0 (timezone_offsets !! tz1) in
  let offset2 := default 0 (timezone_offsets !! tz2) in
  Z.abs (py_int (offset1 - offset2)).

Definition _analyze_time_pattern (self : t) (transaction_time : datetime)
    (transaction : Transaction) : TimePattern :=
  let hour := dt_hour transaction_time in
  let day_of_week := (dt_weekday transaction_time + 1)%Z in
  {| hour := hour;
     day_of_week := day_of_week;
     is_weekend := Z_in day_of_week [6; 7]%Z;
     is_holiday := _is_holiday self transaction_time;
     timezone := _extract_timezone transaction;
     pattern_risk_score := 0.0 |}.

Definition _analyze_user_time_pattern (self : t) (user_id : string)
    (current_pattern : TimePattern) : Q :=
  let user_patterns := default [] (user_time_patterns self !! user_id) in
  match user_patterns with
  | [] => 0.1
  | _ =>
      let similar_patterns :=
        List.filter
          (fun pattern =>
             Z.eqb (hour pattern) (hour current_pattern) &&
             Z.eqb (day_of_week pattern) (day_of_week current_pattern))
          user_patterns in
      let total_patterns := Z.of_nat (length user_patterns) in
      let similar_count := Z.of_nat (length similar_patterns) in
      let frequency :=
        if (0 <? total_patterns)%Z
        then inject_Z similar_count / inject_Z total_patterns
        else 0 in
      if Qltb frequency 0.1 then 0.3
      else if Qltb frequency 0.3 then 0.1
      else 0.0
  end.

Definition _analyze_timezone_anomaly (self : t) (transaction : Transaction)
    (time_pattern : TimePattern) : Q :=
  match tx_location transaction with
  | None => 0.0
  | Some location =>
      let expected_timezone := _get_timezone_from_location location in
      let actual_timezone := timezone time_pattern in
      if truthy expected_timezone && truthy (Some actual_timezone) then
        let timezone_diff :=
          _calculate_timezone_difference
            (default "" expected_timezone) actual_timezone in
        if (timezone_diff >? timezone_threshold (config self))%Z
        then 0.4 else 0.0
      else 0.0
  end.

Definition _store_user_time_pattern (self : t) (user_id : string)
    (pattern : TimePattern) : t :=
  let patterns :=
    default [] (user_time_patterns self !! user_id) ++ [pattern] in
  let patterns :=
    if (100 <? length patterns)%nat
    then drop (length patterns - 100) patterns
    else patterns in
  {| config := config self;
     user_time_patterns := <[user_id := patterns]> (user_time_patterns self);
     holidays := holidays self |}.

Definition analyze (self : t) (transaction : Transaction)
    (rule : DetectionRule) : result Q * t :=
  let transaction_time := tx_timestamp transaction in
  let time_pattern :=
    _analyze_time_pattern self transaction_time transaction in
  let risk_score := 0.0 in
  let risk_score :=
    if Z_in (hour time_pattern) (suspicious_hours (config self))
    then risk_score + 0.4 else risk_score in
  let risk_score :=
    if is_weekend time_pattern
    then risk_score + 0.2 * weekend_risk_multiplier (config self)
    else risk_score in
  let risk_score :=
    if is_holiday time_pattern
    then risk_score + 0.3 * holiday_risk_multiplier (config self)
    else risk_score in
  let user_pattern_risk :=
    _analyze_user_time_pattern self (tx_user_id transaction) time_pattern in
  let risk_score := risk_score + user_pattern_risk in
  let timezone_risk :=
    _analyze_timezone_anomaly self transaction time_pattern in
  let risk_score := risk_score + timezone_risk in
  (Ok (Qmin risk_score 1.0),
   _store_user_time_pattern self (tx_user_id transaction) time_pattern).

Definition get_user_time_patterns (self : t) (user_id : string)
    : list TimePattern :=
  default [] (user_time_patterns self !! user_id).

Definition is_suspicious_time (self : t) (hour day_of_week : Z) : bool :=
  Z_in hour (suspicious_hours (config self)) || Z_in day_of_week [6; 7]%Z.

Definition get_time_risk_level (self : t) (hour day_of_week : Z)
    : string :=
  if Z_in hour (suspicious_hours (config self)) then "high"
  else if Z_in day_of_week [6; 7]%Z then "medium"
  else "low".

End TimeAlgorithm.

(** ** algorithms/location.py *)

Module LocationAlgorithm.

Record LocationConfig : Type := {
  max_distance_km : Q;
  suspicious_distance_km : Q;
  time_window_minutes : Z;
  enable_geo_fencing : bool;
  trusted_locations : option (list Location)
}.

(** An element of a user's history: a [Location] object together with
    its [timestamp] attribute, when it has one ([hasattr]). *)
Record StoredLocation : Type := {
  stored : Location;
  attr_timestamp : option datetime
}.

(** The object after [__init__]: [trusted_locations] is a list. *)
Record t : Type := {
  config : LocationConfig;
  config_trusted_locations : list Location;
  user_locations : gmap string (list StoredLocation)
}.

Definition init (config : LocationConfig) : t :=
  {| config := config;
     config_trusted_locations := default [] (trusted_locations config);
     user_locations := ∅ |}.

(** The fields of the dataclass [Location] of [models.py]. *)
Definition Location_fields : list string :=
  ["lat"; "lng"; "country"; "city"; "state"].

(** A dataclass constructor takes its fields as keywords and raises
    [TypeError] on any other keyword. *)
Definition accepts_keywords (fields keywords : list string) : bool :=
  forallb (fun k => existsb (String.eqb k) fields) keywords.

Section Distance.

(** [_calculate_distance]: the haversine formula is built from
    [math.sin], [math.cos], [math.atan2] and [math.sqrt], which are not
    rational functions; the distance in kilometres is a parameter. *)
Variable _calculate_distance : Location → Location → Q.

Definition _get_recent_locations (self : t) (user_id : string)
    (current_time : datetime) : result (list StoredLocation) :=
  let user_locations := default [] (user_locations self !! user_id) in
  let time_window_seconds :=
    inject_Z (time_window_minutes (config self) * 60) in
  comprehension
    (fun loc =>
       match attr_timestamp loc with
       | Some ts =>
           age ← seconds_between current_time ts;
           Ok (Qle_bool age time_window_seconds)
       | None => Ok false
       end)
    user_locations.

(** [now] is the reading of [datetime.now()], [time_now] that of
    [time.time()]. *)
Definition _add_location (self : t) (now : datetime) (time_now : Q)
    (user_id : string) (location : Location) : result unit * t :=
  let self :=
    match user_locations self !! user_id with
    | Some _ => self
    | None =>
        {| config := config self;
           config_trusted_locations := config_trusted_locations self;
           user_locations := <[user_id := []]> (user_locations self) |}
    end in
  if accepts_keywords Location_fields
       ["lat"; "lng"; "country"; "city"; "state"; "timestamp"]
  then
    let location_with_timestamp :=
      {| stored := {| lat := lat location; lng := lng location;
                      country := country location; city := city location;
                      state := state location |};
         attr_timestamp := Some now |} in
    let history :=
      default [] (user_locations self !! user_id)
      ++ [location_with_timestamp] in
    let cutoff_time :=
      time_now - inject_Z (time_window_minutes (config self) * 60) in
    (Ok tt,
     {| config := config self;
        config_trusted_locations := config_trusted_locations self;
        user_locations :=
          <[user_id :=
              List.filter
                (fun loc =>
                   match attr_timestamp loc with
                   | Some ts => Qgtb (posix ts) cutoff_time
                   | None => false
                   end)
                history]> (user_locations self) |})
  else (Raise TypeError, self).

(** [min(d for loc in locs)] on a non-empty list. *)
Definition min_distance (current_location : Location) (d0 : StoredLocation)
    (locs : list StoredLocation) : Q :=
  fold_left
    (fun m loc => Qmin m (_calculate_distance current_location (stored loc)))
    locs (_calculate_distance current_location (stored d0)).

(** The distance bands of [analyze]. *)
Definition distance_risk (self : t) (min_distance : Q) : result Q :=
  if Qgtb min_distance (max_distance_km (config self)) then Ok 1.0
  else if Qgtb min_distance (suspicious_distance_km (config self)) then
    let range_val :=
      max_distance_km (config self)
      - suspicious_distance_km (config self) in
    let position := min_distance - suspicious_distance_km (config self) in
    r ← fdiv position range_val ;
    Ok (0.5 + r * 0.5)
  else
    r ← fdiv min_distance (suspicious_distance_km (config self)) ;
    Ok (r * 0.5).

Definition analyze (self : t) (now : datetime) (time_now : Q)
    (transaction : Transaction) (rule : DetectionRule) : result Q * t :=
  match tx_location transaction with
  | None => (Ok 0.0, self)
  | Some current_location =>
      let user_id := tx_user_id transaction in
      let risk_score :=
        recent_locations ←
          _get_recent_locations self user_id (tx_timestamp transaction);
        match recent_locations with
        | [] => Ok 0.0
        | d0 :: locs =>
            distance_risk self (min_distance current_location d0 locs)
        end in
      match risk_score with
      | Raise e => (Raise e, self)
      | Ok risk_score =>
          let risk_score :=
            if enable_geo_fencing (config self)
               && negb (Nat.eqb (length (config_trusted_locations self)) 0)
            then
              let is_in_trusted_location :=
                existsb
                  (fun trusted_loc =>
                     Qle_bool
                       (_calculate_distance current_location trusted_loc)
                       1.0)
                  (config_trusted_locations self) in
              if is_in_trusted_location then Qmin risk_score 0.2
              else risk_score
            else risk_score in
          match _add_location self now time_now user_id current_location
          with
          | (Raise e, self) => (Raise e, self)
          | (Ok _, self) => (Ok (Qmin risk_score 1.0), self)
          end
      end
  end.

(** [time_diff_minutes] is an [int]; [/] is the true division. *)
Definition is_impossible_travel (self : t) (from_loc to_loc : Location)
    (time_diff_minutes : Z) : bool :=
  let distance := _calculate_distance from_loc to_loc in
  let max_possible_distance := (inject_Z time_diff_minutes / 60) * 1000 in
  Qgtb distance max_possible_distance.


End Distance.

End LocationAlgorithm.

(** ** algorithms/device.py *)

Module DeviceAlgorithm.

Record DeviceConfig : Type := {
  enable_fingerprinting : bool;
  suspicious_device_threshold : Z;
  new_device_risk_multiplier : Q;
  device_velocity_window : Z;
  max_devices_per_user : Z
}.

Record DeviceFingerprint : Type := {
  device_id : string;
  user_agent : string;
  ip_address : string;
  screen_resolution : option string;
  timezone : option string;
  language : option string;
  platform : option string;
  first_seen : option datetime;
  last_seen : option datetime;
  transaction_count : Z;
  total_amount : Q;
  is_trusted : bool
}.

Record t : Type := {
  config : DeviceConfig;
  device_fingerprints : gmap string DeviceFingerprint;
  user_devices : gmap string (gset string)
}.

Definition init (config : DeviceConfig) : t :=
  {| config := config; device_fingerprints := ∅; user_devices := ∅ |}.

(** The readings of [datetime.now()] during one [analyze]: in
    [_create_fingerprint], in [_update_device_fingerprint] (existing
    devices only) and in [_calculate_device_velocity]. *)
Record Clock : Type := {
  now_create : datetime;
  now_update : datetime;
  now_velocity : datetime
}.

(** [transaction.metadata.get(key) if transaction.metadata else d] *)
Definition metadata_get (transaction : Transaction) (key : string)
    (d : option string) : option string :=
  match tx_metadata transaction with
  | Some metadata =>
      if bool_decide (metadata = ∅) then d else metadata !! key
  | None => d
  end.

Section Hash.

(** The built-in [hash] of a string (salted per process). *)
Variable hash : string → Z.

Definition _generate_device_id (transaction : Transaction)
    : result string :=
  let components :=
    [Some (str_or (tx_user_agent transaction) "unknown");
     Some (str_or (tx_ip_address transaction) "unknown");
     metadata_get transaction "screen_resolution" (Some "unknown")] in
  match components with
  | [Some a; Some b; Some c] =>
      Ok ("device_" +:+
          pretty (hash (a +:+ "|" +:+ b +:+ "|" +:+ c) `mod` 1000000)%Z)
  | _ => Raise TypeError
  end.

Definition _create_fingerprint (now : datetime)
    (transaction : Transaction) (device_id : string)
    : DeviceFingerprint :=
  {| device_id := device_id;
     user_agent := str_or (tx_user_agent transaction) "";
     ip_address := str_or (tx_ip_address transaction) "";
     screen_resolution :=
       metadata_get transaction "screen_resolution" None;
     timezone := metadata_get transaction "timezone" None;
     language := metadata_get transaction "language" None;
     platform := metadata_get transaction "platform" None;
     first_seen := Some now;
     last_seen := Some now;
     transaction_count := 1;
     total_amount := tx_amount transaction;
     is_trusted := false |}.

Definition _calculate_device_risk (existing current : DeviceFingerprint)
    : Q :=
  let risk_score := 0.0 in
  let risk_score :=
    if bool_decide (user_agent existing ≠ user_agent current)
    then risk_score + 0.3 else risk_score in
  let risk_score :=
    if bool_decide (ip_address existing ≠ ip_address current)
    then risk_score + 0.2 else risk_score in
  let risk_score :=
    if bool_decide (screen_resolution existing ≠ screen_resolution current)
    then risk_score + 0.1 else risk_score in
  let risk_score :=
    if bool_decide (timezone existing ≠ timezone current)
    then risk_score + 0.1 else risk_score in
  let risk_score :=
    match last_seen existing, last_seen current with
    | Some e, Some c =>
        let time_diff := total_seconds c e in
        if Qltb time_diff 60 then risk_score + 0.2 else risk_score
    | _, _ => risk_score
    end in
  Qmin risk_score 0.8.

Definition _calculate_device_velocity (self : t) (now : datetime)
    (device_id : string) : result Q :=
  match device_fingerprints self !! device_id with
  | None => Ok 0.0
  | Some fingerprint =>
      let time_window_seconds :=
        inject_Z (device_velocity_window (config self) * 60) in
      match first_seen fingerprint with
      | Some fs =>
          let time_diff := total_seconds now fs in
          if Qltb time_diff time_window_seconds
          then fdiv (inject_Z (transaction_count fingerprint))
                    (time_diff / 60)
          else Ok 0.0
      | None => Ok 0.0
      end
  end.

Definition _get_device_users (self : t) (device_id : string)
    : gset string :=
  dom (filter (fun entry => device_id ∈ entry.2) (user_devices self)).

Definition _calculate_device_sharing_risk (self : t)
    (device_id user_id : string) : Q :=
  let device_users := _get_device_users self device_id in
  if (1 <? size device_users)%nat then 0.5 else 0.0.

Definition _get_user_device_count (self : t) (user_id : string) : Z :=
  Z.of_nat (size (default ∅ (user_devices self !! user_id))).

Definition _add_user_device (self : t) (user_id device_id : string) : t :=
  {| config := config self;
     device_fingerprints := device_fingerprints self;
     user_devices :=
       <[user_id :=
           default ∅ (user_devices self !! user_id) ∪ {[device_id]}]>
         (user_devices self) |}.

Definition _update_device_fingerprint (self : t) (now : datetime)
    (device_id : string) (transaction : Transaction) : t :=
  match device_fingerprints self !! device_id with
  | Some fingerprint =>
      {| config := config self;
         device_fingerprints :=
           <[device_id :=
               {| device_id := DeviceAlgorithm.device_id fingerprint;
                  user_agent := user_agent fingerprint;
                  ip_address := ip_address fingerprint;
                  screen_resolution := screen_resolution fingerprint;
                  timezone := timezone fingerprint;
                  language := language fingerprint;
                  platform := platform fingerprint;
                  first_seen := first_seen fingerprint;
                  last_seen := Some now;
                  transaction_count := transaction_count fingerprint + 1;
                  total_amount :=
                    total_amount fingerprint + tx_amount transaction;
                  is_trusted := is_trusted fingerprint |}]>
             (device_fingerprints self);
         user_devices := user_devices self |}
  | None => self
  end.

(** The first half of [analyze]: the risk of a new or of a known device,
    and the store after it. *)
Definition device_branch (self : t) (clock : Clock)
    (transaction : Transaction) (device_id : string) : Q * t :=
  let fingerprint :=
    _create_fingerprint (now_create clock) transaction device_id in
  let risk_score := 0.0 in
  match device_fingerprints self !! device_id with
  | None =>
      let user_device_count :=
        _get_user_device_count self (tx_user_id transaction) in
      let risk_score :=
        if (user_device_count >=? max_devices_per_user (config self))%Z
        then risk_score + 0.6 else risk_score + 0.3 in
      let self :=
        {| config := config self;
           device_fingerprints :=
             <[device_id := fingerprint]> (device_fingerprints self);
           user_devices := user_devices self |} in
      (risk_score,
       _add_user_device self (tx_user_id transaction) device_id)
  | Some existing_fingerprint =>
      let device_risk :=
        _calculate_device_risk existing_fingerprint fingerprint in
      (risk_score + device_risk,
       _update_device_fingerprint self (now_update clock) device_id
         transaction)
  end.

Definition analyze (self : t) (clock : Clock) (transaction : Transaction)
    (rule : DetectionRule) : result Q * t :=
  if negb (truthy (tx_device_id transaction))
     && negb (truthy (tx_user_agent transaction))
     && negb (truthy (tx_ip_address transaction))
  then (Ok 0.0, self)
  else
    match
      (if truthy (tx_device_id transaction)
       then Ok (default "" (tx_device_id transaction))
       else _generate_device_id transaction)
    with
    | Raise e => (Raise e, self)
    | Ok device_id =>
        let '(risk_score, self) :=
          device_branch self clock transaction device_id in
        match _calculate_device_velocity self (now_velocity clock)
                device_id with
        | Raise e => (Raise e, self)
        | Ok device_velocity =>
            let risk_score :=
              if Qgtb device_velocity
                   (inject_Z (suspicious_device_threshold (config self)))
              then risk_score + 0.4 else risk_score in
            let sharing_risk :=
              _calculate_device_sharing_risk self device_id
                (tx_user_id transaction) in
            let risk_score := risk_score + sharing_risk in
            (Ok (Qmin risk_score 1.0), self)
        end
    end.

Definition mark_device_as_trusted (self : t) (device_id : string) : t :=
  match device_fingerprints self !! device_id with
  | Some fingerprint =>
      {| config := config self;
         device_fingerprints :=
           <[device_id :=
               {| device_id := DeviceAlgorithm.device_id fingerprint;
                  user_agent := user_agent fingerprint;
                  ip_address := ip_address fingerprint;
                  screen_resolution := screen_resolution fingerprint;
                  timezone := timezone fingerprint;
                  language := language fingerprint;
                  platform := platform fingerprint;
                  first_seen := first_seen fingerprint;
                  last_seen := last_seen fingerprint;
                  transaction_count := transaction_count fingerprint;
                  total_amount := total_amount fingerprint;
                  is_trusted := true |}]>
             (device_fingerprints self);
         user_devices := user_devices self |}
  | None => self
  end.

Definition get_device_fingerprint (self : t) (device_id : string)
    : option DeviceFingerprint :=
  device_fingerprints self !! device_id.

(** [list(set)]: the order of the list is that of the set's iteration,
    which the language leaves open; [elements] stands for it. *)
Definition get_user_devices (self : t) (user_id : string) : list string :=
  elements (default ∅ (user_devices self !! user_id)).

(** The dictionary that [get_device_stats] returns. *)
Record DeviceStats : Type := {
  stats_transaction_count : Z;
  stats_total_amount : Q;
  stats_is_trusted : bool
}.

Definition get_device_stats (self : t) (device_id : string)
    : DeviceStats :=
  match device_fingerprints self !! device_id with
  | None =>
      {| stats_transaction_count := 0;
         stats_total_amount := 0.0;
         stats_is_trusted := false |}
  | Some fingerprint =>
      {| stats_transaction_count := transaction_count fingerprint;
         stats_total_amount := total_amount fingerprint;
         stats_is_trusted := is_trusted fingerprint |}
  end.

(** *** The trust flag

    A fingerprint without its flag, and two objects that differ in the
    flags of their fingerprints only. *)
Definition forget_trust (fingerprint : DeviceFingerprint)
    : DeviceFingerprint :=
  {| device_id := DeviceAlgorithm.device_id fingerprint;
     user_agent := user_agent fingerprint;
     ip_address := ip_address fingerprint;
     screen_resolution := screen_resolution fingerprint;
     timezone := timezone fingerprint;
     language := language fingerprint;
     platform := platform fingerprint;
     first_seen := first_seen fingerprint;
     last_seen := last_seen fingerprint;
     transaction_count := transaction_count fingerprint;
     total_amount := total_amount fingerprint;
     is_trusted := false |}.

Definition same_but_trust (self1 self2 : t) : Prop :=
  config self1 = config self2 ∧
  user_devices self1 = user_devices self2 ∧
  ∀ device_id,
    forget_trust <$> device_fingerprints self1 !! device_id
    = forget_trust <$> device_fingerprints self2 !! device_id.

(** *** The reverse index

    [device_id] is in the set that [user_devices] holds for
    [user_id]. *)
Definition linked (self : t) (user_id device_id : string) : Prop :=
  device_id ∈ default ∅ (user_devices self !! user_id).

(** The objects that calls of [analyze] and [mark_device_as_trusted]
    produce from a new one. *)
Inductive reachable (config : DeviceConfig) : t → Prop :=
| reachable_init : reachable config (init config)
| reachable_analyze self clock transaction rule :
    reachable config self →
    reachable config (analyze self clock transaction rule).2
| reachable_trusted self device_id :
    reachable config self →
    reachable config (mark_device_as_trusted self device_id).

(** A device with a fingerprint has exactly one user in the index, a
    device without one has none. *)
Definition single_owner (self : t) : Prop :=
  ∀ device_id,
    (is_Some (device_fingerprints self !! device_id) →
     ∃ owner, _get_device_users self device_id = {[owner]}) ∧
    (device_fingerprints self !! device_id = None →
     _get_device_users self device_id = ∅).

End Hash.

End DeviceAlgorithm.

(** ** algorithms/merchant.py, behavioral.py, network.py, ml.py

    Of these four signals the embedding keeps the first and the last lines
    of [analyze]: the test that returns [0.0] when the transaction has
    nothing for the signal, and the [return] that caps the score.  What lies
    between (profiles, anomaly lists, the scorer) is a parameter: a function
    on the signal's object, of some type [t], that returns the risk summed
    so far or raises, and the object after the updates. *)

Module MerchantAlgorithm.
Section Body.
Context {t : Type}.

(** The sum of the merchant's risk components (it may be negative, by
    the discount of a trusted merchant). *)
Variable risk_score :
  t → Transaction → DetectionRule → result Q * t.

Definition analyze (self : t) (transaction : Transaction)
    (rule : DetectionRule) : result Q * t :=
  if negb (truthy (tx_merchant_id transaction)) then (Ok 0.0, self)
  else
    match risk_score self transaction rule with
    | (Ok risk_score, self) => (Ok (Qmax 0 (Qmin risk_score 1.0)), self)
    | (Raise e, self) => (Raise e, self)
    end.
End Body.
End MerchantAlgorithm.

Module BehavioralAlgorithm.
Section Body.
Context {t : Type}.

(** [_calculate_risk_score(anomalies)], and the profile and history
    after their updates. *)
Variable risk_score :
  t → Transaction → DetectionRule → result Q * t.

Definition analyze (self : t) (transaction : Transaction)
    (rule : DetectionRule) : result Q * t :=
  match risk_score self transaction rule with
  | (Ok risk_score, self) => (Ok (Qmin risk_score 1.0), self)
  | (Raise e, self) => (Raise e, self)
  end.
End Body.
End BehavioralAlgorithm.

Module NetworkAlgorithm.
Section Body.
Context {t : Type}.

(** The sum of the risk components of the address. *)
Variable risk_score :
  t → Transaction → DetectionRule → result Q * t.

Definition analyze (self : t) (transaction : Transaction)
    (rule : DetectionRule) : result Q * t :=
  if negb (truthy (tx_ip_address transaction)) then (Ok 0.0, self)
  else
    match risk_score self transaction rule with
    | (Ok risk_score, self) => (Ok (Qmin risk_score 1.0), self)
    | (Raise e, self) => (Raise e, self)
    end.
End Body.
End NetworkAlgorithm.

Module MLAlgorithm.

Definition _convert_anomaly_score_to_risk (anomaly_score : Q) : Q :=
  if Qltb anomaly_score 0.1 then 0.1
  else if Qltb anomaly_score 0.3 then 0.3
  else if Qltb anomaly_score 0.7 then 0.7
  else 0.9.

Section Body.
Context {t : Type}.

(** [config.enable_training]. *)
Variable enable_training : bool.

(** The rest of [analyze]: the extraction and the storing of the
    features, the scorer and the retraining.  It returns the anomaly
    score of [_get_anomaly_score]. *)
Variable anomaly_score :
  t → Transaction → DetectionRule → result Q * t.

Definition analyze (self : t) (transaction : Transaction)
    (rule : DetectionRule) : result Q * t :=
  if negb enable_training then (Ok 0.0, self)
  else
    match anomaly_score self transaction rule with
    | (Ok anomaly_score, self) =>
        let risk_score := _convert_anomaly_score_to_risk anomaly_score in
        (Ok (Qmin risk_score 1.0), self)
    | (Raise e, self) => (Raise e, self)
    end.
End Body.
End MLAlgorithm.

(** ** fraud_detector.py *)

Module FraudDetector.

(** [d[k] = v] on a dictionary that is iterated in insertion order: an
    existing key keeps its place. *)
Fixpoint dict_set (k : string) (v : DetectionRule)
    (d : list (string * DetectionRule)) : list (string * DetectionRule) :=
  match d with
  | [] => [(k, v)]
  | (k', v') :: d' =>
      if String.eqb k' k then (k', v) :: d'
      else (k', v') :: dict_set k v d'
  end.

Fixpoint dict_get (k : string) (d : list (string * DetectionRule))
    : option DetectionRule :=
  match d with
  | [] => None
  | (k', v') :: d' => if String.eqb k' k then Some v' else dict_get k d'
  end.

(** [name in names] *)
Definition str_in (name : string) (names : list string) : bool :=
  existsb (String.eqb name) names.

(** The readings of the clock during one [analyze], in the order they are
    taken: [time.time()] at the start, the readings of the velocity,
    location and device signals, [time.time()] and [datetime.now()] at the
    end. *)
Record Clock : Type := {
  start_time : Q;
  velocity_time : Q;
  location_now : datetime;
  location_time : Q;
  device_clock : DeviceAlgorithm.Clock;
  end_time : Q;
  result_now : datetime
}.

Section Orchestrator.

(** The objects of the merchant, behavioral, network and model-based
    signals and the parameters of their modules (the state of an object
    stands for all it reads, its clock and its random source
    included). *)
Context {Merchant Behavioral : Type}.
Context {Network ML : Type}.
Variable merchant_risk :
  Merchant → Transaction → DetectionRule →
  result Q * Merchant.
Variable behavioral_risk :
  Behavioral → Transaction → DetectionRule →
  result Q * Behavioral.
Variable network_risk :
  Network → Transaction → DetectionRule →
  result Q * Network.
Variable ml_anomaly_score :
  ML → Transaction → DetectionRule → result Q * ML.

(** The parameters of the location and device signals. *)
Variable _calculate_distance : Location → Location → Q.
Variable hash : string → Z.

(** [self.algorithms]: the nine keys are fixed by
    [_initialize_algorithms]. *)
Record Algorithms : Type := {
  velocity : VelocityAlgorithm.t;
  amount : AmountAlgorithm.t;
  location : LocationAlgorithm.t;
  device : DeviceAlgorithm.t;
  time : TimeAlgorithm.t;
  merchant : Merchant;
  behavioral : Behavioral;
  network : Network;
  ml : ML
}.

Record t : Type := {
  config : FraudDetectorConfig;
  algorithms : Algorithms;
  rules : list (string * DetectionRule)
}.

Definition velocity_config : VelocityAlgorithm.VelocityConfig :=
  {| VelocityAlgorithm.time_window := 60;
     VelocityAlgorithm.max_transactions := 10;
     VelocityAlgorithm.max_amount := 5000.0 |}.

Definition amount_config : AmountAlgorithm.AmountConfig :=
  {| AmountAlgorithm.suspicious_threshold := 1000.0;
     AmountAlgorithm.high_risk_threshold := 5000.0;
     AmountAlgorithm.currency_multipliers :=
       Some (list_to_map
               [("USD", 1.0); ("EUR", 1.1); ("GBP", 1.3); ("JPY", 0.007)])
  |}.

Definition location_config : LocationAlgorithm.LocationConfig :=
  {| LocationAlgorithm.max_distance_km := 1000.0;
     LocationAlgorithm.suspicious_distance_km := 100.0;
     LocationAlgorithm.time_window_minutes := 60;
     LocationAlgorithm.enable_geo_fencing := false;
     LocationAlgorithm.trusted_locations := Some [] |}.

Definition device_config : DeviceAlgorithm.DeviceConfig :=
  {| DeviceAlgorithm.enable_fingerprinting := true;
     DeviceAlgorithm.suspicious_device_threshold := 5;
     DeviceAlgorithm.new_device_risk_multiplier := 1.5;
     DeviceAlgorithm.device_velocity_window := 60;
     DeviceAlgorithm.max_devices_per_user := 5 |}.

(** [enable_training] of the [MLConfig] of [_initialize_algorithms]. *)
Definition ml_enable_training : bool := true.

Definition time_config : TimeAlgorithm.TimeConfig :=
  {| TimeAlgorithm.suspicious_hours := [0; 1; 2; 3; 4; 5; 22; 23]%Z;
     TimeAlgorithm.weekend_risk_multiplier := 1.2;
     TimeAlgorithm.holiday_risk_multiplier := 1.5;
     TimeAlgorithm.timezone_threshold := 8;
     TimeAlgorithm.enable_holiday_detection := true;
     TimeAlgorithm.custom_holidays := Some [] |}.

(** [current_year] is read by [TimeAlgorithm.__init__]; the four objects
    are those the constructors of the signals that are not embedded
    return. *)
Definition _initialize_algorithms (current_year : string)
    (merchant0 : Merchant) (behavioral0 : Behavioral)
    (network0 : Network) (ml0 : ML) : Algorithms :=
  {| velocity := VelocityAlgorithm.init velocity_config;
     amount := AmountAlgorithm.init amount_config;
     location := LocationAlgorithm.init location_config;
     device := DeviceAlgorithm.init device_config;
     time := TimeAlgorithm.init time_config current_year;
     merchant := merchant0;
     behavioral := behavioral0;
     network := network0;
     ml := ml0 |}.

Definition default_rule (config : FraudDetectorConfig) (name : string)
    (weight threshold : Q) : string * DetectionRule :=
  (name,
   {| rule_name := name;
      rule_weight := weight;
      rule_threshold := default threshold (cfg_thresholds config !! name);
      rule_enabled := str_in name (cfg_rules config) |}).

Definition _initialize_rules (config : FraudDetectorConfig)
    : list (string * DetectionRule) :=
  let rules :=
    [default_rule config "velocity" 0.15 0.8;
     default_rule config "amount" 0.15 0.9;
     default_rule config "location" 0.15 0.7;
     default_rule config "device" 0.15 0.8;
     default_rule config "time" 0.10 0.6;
     default_rule config "merchant" 0.15 0.7;
     default_rule config "behavioral" 0.10 0.6;
     default_rule config "network" 0.10 0.8;
     default_rule config "ml" 0.20 0.5] in
  fold_left (fun rules rule => dict_set (rule_name rule) rule rules)
    (default [] (cfg_custom_rules config)) rules.

Definition init (config : FraudDetectorConfig) (current_year : string)
    (merchant0 : Merchant) (behavioral0 : Behavioral)
    (network0 : Network) (ml0 : ML) : t :=
  {| config := config;
     algorithms :=
       _initialize_algorithms current_year merchant0 behavioral0
         network0 ml0;
     rules := _initialize_rules config |}.

(** [algorithm.analyze(transaction, rule)] for the object registered
    under a name. *)
Definition Signal : Type :=
  Clock → Transaction → DetectionRule → Algorithms →
  result Q * Algorithms.

Definition velocity_signal : Signal := fun clock transaction rule a =>
  let '(r, x) :=
    VelocityAlgorithm.analyze (velocity a) (velocity_time clock)
      transaction rule in
  (r, {| velocity := x; amount := amount a; location := location a;
         device := device a; time := time a; merchant := merchant a;
         behavioral := behavioral a; network := network a; ml := ml a |}).

Definition amount_signal : Signal := fun clock transaction rule a =>
  (AmountAlgorithm.analyze (amount a) transaction rule, a).

Definition location_signal : Signal := fun clock transaction rule a =>
  let '(r, x) :=
    LocationAlgorithm.analyze _calculate_distance (location a)
      (location_now clock) (location_time clock) transaction rule in
  (r, {| velocity := velocity a; amount := amount a; location := x;
         device := device a; time := time a; merchant := merchant a;
         behavioral := behavioral a; network := network a; ml := ml a |}).

Definition device_signal : Signal := fun clock transaction rule a =>
  let '(r, x) :=
    DeviceAlgorithm.analyze hash (device a) (device_clock clock)
      transaction rule in
  (r, {| velocity := velocity a; amount := amount a;
         location := location a; device := x; time := time a;
         merchant := merchant a; behavioral := behavioral a;
         network := network a; ml := ml a |}).

Definition time_signal : Signal := fun clock transaction rule a =>
  let '(r, x) := TimeAlgorithm.analyze (time a) transaction rule in
  (r, {| velocity := velocity a; amount := amount a;
         location := location a; device := device a; time := x;
         merchant := merchant a; behavioral := behavioral a;
         network := network a; ml := ml a |}).

Definition merchant_signal : Signal := fun clock transaction rule a =>
  let '(r, x) :=
    MerchantAlgorithm.analyze merchant_risk (merchant a) transaction rule
  in
  (r, {| velocity := velocity a; amount := amount a;
         location := location a; device := device a; time := time a;
         merchant := x; behavioral := behavioral a;
         network := network a; ml := ml a |}).

Definition behavioral_signal : Signal := fun clock transaction rule a =>
  let '(r, x) :=
    BehavioralAlgorithm.analyze behavioral_risk (behavioral a) transaction
      rule in
  (r, {| velocity := velocity a; amount := amount a;
         location := location a; device := device a; time := time a;
         merchant := merchant a; behavioral := x;
         network := network a; ml := ml a |}).

Definition network_signal : Signal := fun clock transaction rule a =>
  let '(r, x) :=
    NetworkAlgorithm.analyze network_risk (network a) transaction rule in
  (r, {| velocity := velocity a; amount := amount a;
         location := location a; device := device a; time := time a;
         merchant := merchant a; behavioral := behavioral a;
         network := x; ml := ml a |}).

Definition ml_signal : Signal := fun clock transaction rule a =>
  let '(r, x) :=
    MLAlgorithm.analyze ml_enable_training ml_anomaly_score (ml a)
      transaction rule in
  (r, {| velocity := velocity a; amount := amount a;
         location := location a; device := device a; time := time a;
         merchant := merchant a; behavioral := behavioral a;
         network := network a; ml := x |}).

(** [self.algorithms.get(rule_name)] *)
Definition algorithms_get (rule_name : string) : option Signal :=
  let registry : gmap string Signal :=
    list_to_map
      [("velocity", velocity_signal); ("amount", amount_signal);
       ("location", location_signal); ("device", device_signal);
       ("time", time_signal); ("merchant", merchant_signal);
       ("behavioral", behavioral_signal); ("network", network_signal);
       ("ml", ml_signal)] in
  registry !! rule_name.

(** The local variables of [analyze] that the loop over the rules
    updates, and the signals' objects. *)
Record Loop : Type := {
  loop_triggered_rules : list string;
  total_weighted_score : Q;
  total_weight : Q;
  loop_algorithms : Algorithms
}.

(** One iteration of [for rule_name, rule in self.rules.items()]. *)
Definition loop_body (clock : Clock) (transaction : Transaction)
    (acc : Loop) (item : string * DetectionRule) : Loop :=
  let '(rule_name, rule) := item in
  if negb (rule_enabled rule) then acc
  else
    match algorithms_get rule_name with
    | None => acc
    | Some algorithm =>
        match algorithm clock transaction rule (loop_algorithms acc) with
        | (Ok score, a) =>
            {| loop_triggered_rules :=
                 if Qgeb score (rule_threshold rule)
                 then loop_triggered_rules acc ++ [rule_name]
                 else loop_triggered_rules acc;
               total_weighted_score :=
                 total_weighted_score acc + score * rule_weight rule;
               total_weight := total_weight acc + rule_weight rule;
               loop_algorithms := a |}
        | (Raise error, a) =>
            {| loop_triggered_rules := loop_triggered_rules acc;
               total_weighted_score := total_weighted_score acc;
               total_weight := total_weight acc;
               loop_algorithms := a |}
        end
    end.

Definition run_rules (clock : Clock) (transaction : Transaction)
    (self : t) : Loop :=
  fold_left (loop_body clock transaction) (rules self)
    {| loop_triggered_rules := [];
       total_weighted_score := 0.0;
       total_weight := 0.0;
       loop_algorithms := algorithms self |}.

Definition _generate_recommendations (result : FraudResult)
    (transaction : Transaction) : list string :=
  let recommendations := [] in
  let recommendations :=
    if str_in "velocity" (triggered_rules result)
    then recommendations ++
         ["Consider implementing velocity-based transaction limits"]
    else recommendations in
  let recommendations :=
    if str_in "amount" (triggered_rules result)
    then recommendations ++
         ["Review transaction amount thresholds and user spending patterns"]
    else recommendations in
  let recommendations :=
    if str_in "location" (triggered_rules result)
    then recommendations ++
         ["Verify transaction location and check for unusual travel patterns"]
    else recommendations in
  let recommendations :=
    if Qgtb (risk_score result) 0.8
    then recommendations ++
         ["High risk transaction - consider manual review or additional verification"]
    else recommendations in
  let recommendations :=
    if Qltb (confidence result) 0.5
    then recommendations ++
         ["Low confidence score - consider gathering additional transaction data"]
    else recommendations in
  recommendations.

(** [analyze]: the outcome (a result or the exception that reaches the
    caller) and the detector after the call. *)
Definition analyze (self : t) (clock : Clock) (transaction : Transaction)
    : result FraudResult * t :=
  let acc := run_rules clock transaction self in
  let self :=
    {| config := config self;
       algorithms := loop_algorithms acc;
       rules := rules self |} in
  let triggered_rules := loop_triggered_rules acc in
  (risk_score ←
     (if Qgtb (total_weight acc) 0
      then fdiv (total_weighted_score acc) (total_weight acc)
      else Ok 0.0);
   let is_fraudulent :=
     Qgeb risk_score (cfg_global_threshold (config self)) in
   confidence ←
     (match cfg_rules (config self) with
      | [] => Ok 0.0
      | _ =>
          c ← fdiv (inject_Z (Z.of_nat (length triggered_rules)))
                   (inject_Z (Z.of_nat (length (cfg_rules (config self)))));
          Ok (Qmin c 1.0)
      end);
   let processing_time := (end_time clock - start_time clock) * 1000 in
   let result :=
     {| transaction_id := tx_id transaction;
        risk_score := Qmin risk_score 1.0;
        is_fraudulent := is_fraudulent;
        confidence := confidence;
        triggered_rules := triggered_rules;
        details :=
          {| details_algorithm := "multi-algorithm";
             details_processing_time := processing_time;
             details_timestamp := result_now clock |};
        recommendations := None |} in
   Ok (set_recommendations result
         (_generate_recommendations result transaction)),
   self).

(** *** The loop of [analyze], rule by rule

    What happens to one rule of the registry: it is skipped (disabled,
    or no signal under its name), its signal returns a score, or its
    signal raises. *)
Inductive Outcome : Type :=
| Skipped
| Scored (score : Q)
| Failed (error : exn).

Definition call (clock : Clock) (transaction : Transaction)
    (a : Algorithms) (item : string * DetectionRule)
    : Outcome * Algorithms :=
  if negb (rule_enabled item.2) then (Skipped, a)
  else
    match algorithms_get item.1 with
    | None => (Skipped, a)
    | Some algorithm =>
        match algorithm clock transaction item.2 a with
        | (Ok score, a) => (Scored score, a)
        | (Raise error, a) => (Failed error, a)
        end
    end.

(** The outcome of every rule, in registry order; each signal runs on
    the objects the calls before it left. *)
Fixpoint outcomes (clock : Clock) (transaction : Transaction)
    (rules : list (string * DetectionRule)) (a : Algorithms)
    : list (string * DetectionRule * Outcome) :=
  match rules with
  | [] => []
  | item :: rules =>
      let '(o, a) := call clock transaction a item in
      (item, o) :: outcomes clock transaction rules a
  end.

(** The rules that contribute: those whose signal returned a score,
    each with its score and its weight. *)
Fixpoint contributions (os : list (string * DetectionRule * Outcome))
    : list (Q * Q) :=
  match os with
  | [] => []
  | (_, rule, Scored score) :: os =>
      (score, rule_weight rule) :: contributions os
  | _ :: os => contributions os
  end.

(** [Σ score·weight] and [Σ weight], summed in registry order. *)
Definition weighted_sum (cs : list (Q * Q)) : Q :=
  fold_left (fun acc c => acc + c.1 * c.2) cs 0.0.

Definition weight_sum (cs : list (Q * Q)) : Q :=
  fold_left (fun acc c => acc + c.2) cs 0.0.

(** The rules whose score met or exceeded their threshold. *)
Fixpoint triggered_of (os : list (string * DetectionRule * Outcome))
    : list string :=
  match os with
  | [] => []
  | (name, rule, Scored score) :: os =>
      if Qgeb score (rule_threshold rule)
      then name :: triggered_of os
      else triggered_of os
  | _ :: os => triggered_of os
  end.

(** The objects that [_initialize_algorithms] configures keep their
    configuration. *)
Definition initialized (a : Algorithms) : Prop :=
  VelocityAlgorithm.config (velocity a) = velocity_config ∧
  amount a = AmountAlgorithm.init amount_config ∧
  TimeAlgorithm.config (time a) = time_config.

(** No negative amount is stored in the velocity history. *)
Definition history_nonneg (a : Algorithms) : Prop :=
  ∀ user_id history tx,
    VelocityAlgorithm.transaction_history (velocity a) !! user_id
      = Some history →
    In tx history → 0 <= tx_amount tx.

(** The two invariants together. *)
Definition ready (a : Algorithms) : Prop :=
  initialized a ∧ history_nonneg a.

(** The assumption on a parameter of a signal: the risk it returns is
    not negative. *)
Definition not_negative {A : Type}
    (risk_score : A → Transaction → DetectionRule → result Q * A)
    : Prop :=
  ∀ self transaction rule score self',
    risk_score self transaction rule = (Ok score, self') → 0 <= score.

(** The objects after the loop. *)
Fixpoint final_algorithms (clock : Clock) (transaction : Transaction)
    (rules : list (string * DetectionRule)) (a : Algorithms)
    : Algorithms :=
  match rules with
  | [] => a
  | item :: rules =>
      final_algorithms clock transaction rules
        (call clock transaction a item).2
  end.

(** [Σ(score·weight) / Σ(weight)] if [Σ(weight) > 0], else [0]. *)
Definition aggregate (cs : list (Q * Q)) : Q :=
  if Qgtb (weight_sum cs) 0 then weighted_sum cs / weight_sum cs else 0.0.

(** [min(triggered_count / configured_rule_count, 1.0)], and [0] when no
    rule name is configured. *)
Definition confidence_of (triggered names : list string) : Q :=
  match names with
  | [] => 0.0
  | _ => Qmin (inject_Z (Z.of_nat (length triggered))
               / inject_Z (Z.of_nat (length names))) 1.0
  end.

(** [rule.threshold = threshold] assigns to the rule object of the
    registry.  A custom rule is the same object in
    [config.custom_rules], where the assignment shows too: the [config]
    of this record keeps the custom rules as the constructor received
    them, and [rules] holds the current state of every rule. *)
Definition update_threshold (self : t) (rule_name : string)
    (threshold : Q) : t :=
  match dict_get rule_name (rules self) with
  | Some rule =>
      {| config := config self;
         algorithms := algorithms self;
         rules :=
           dict_set rule_name (set_threshold rule threshold) (rules self)
      |}
  | None => self
  end.

(** [rule.enabled = enabled], the assignment of [enable_rule] and
    [disable_rule], to the rule object of the registry as in
    [update_threshold]. *)
Definition set_rule_enabled (self : t) (rule_name : string)
    (enabled : bool) : t :=
  match dict_get rule_name (rules self) with
  | Some rule =>
      {| config := config self;
         algorithms := algorithms self;
         rules :=
           dict_set rule_name (set_enabled rule enabled) (rules self) |}
  | None => self
  end.

Definition enable_rule (self : t) (rule_name : string) : t :=
  set_rule_enabled self rule_name true.

Definition disable_rule (self : t) (rule_name : string) : t :=
  set_rule_enabled self rule_name false.

(** The dictionary that [get_velocity_stats] returns; [time_now] is the
    reading of [time.time()] in the two queries. *)
Record VelocityStats : Type := {
  stats_count : Z;
  stats_total_amount : Q
}.

Definition get_velocity_stats (self : t) (time_now : Q)
    (user_id : string) (time_window_minutes : Z) : VelocityStats :=
  let velocity_algorithm := velocity (algorithms self) in
  {| stats_count :=
       VelocityAlgorithm.get_transaction_count velocity_algorithm
         time_now user_id time_window_minutes;
     stats_total_amount :=
       VelocityAlgorithm.get_total_amount velocity_algorithm
         time_now user_id time_window_minutes |}.

Definition is_suspicious_amount (self : t) : Q → string → bool :=
  let amount_algorithm := amount (algorithms self) in
  fun amount currency =>
    AmountAlgorithm.is_suspicious_amount amount_algorithm amount currency.

Definition is_impossible_travel (self : t) (from_loc to_loc : Location)
    (time_diff_minutes : Z) : bool :=
  LocationAlgorithm.is_impossible_travel _calculate_distance
    (location (algorithms self)) from_loc to_loc time_diff_minutes.

Definition update_global_threshold (self : t) (threshold : Q) : t :=
  {| config :=
       {| cfg_rules := cfg_rules (config self);
          cfg_thresholds := cfg_thresholds (config self);
          cfg_global_threshold := threshold;
          cfg_enable_logging := cfg_enable_logging (config self);
          cfg_custom_rules := cfg_custom_rules (config self) |};
     algorithms := algorithms self;
     rules := rules self |}.

Definition get_config (self : t) : FraudDetectorConfig := config self.

(** *** The two registries

    The names under which [_initialize_algorithms] registers a
    signal. *)
Definition signal_names : list string :=
  ["velocity"; "amount"; "location"; "device"; "time"; "merchant";
   "behavioral"; "network"; "ml"].

(** The object registered under [name] is the same in [a] and in [b]
    (no condition for a name that is not registered). *)
Definition same_object (name : string) (a b : Algorithms) : Prop :=
  (name = "velocity" → velocity a = velocity b) ∧
  (name = "amount" → amount a = amount b) ∧
  (name = "location" → location a = location b) ∧
  (name = "device" → device a = device b) ∧
  (name = "time" → time a = time b) ∧
  (name = "merchant" → merchant a = merchant b) ∧
  (name = "behavioral" → behavioral a = behavioral b) ∧
  (name = "network" → network a = network b) ∧
  (name = "ml" → ml a = ml b).

(** The detector with another rule registry. *)
Definition set_rules (self : t) (rules : list (string * DetectionRule))
    : t :=
  {| config := config self;
     algorithms := algorithms self;
     rules := rules |}.

End Orchestrator.

End FraudDetector.

(** ** Sample data

    The inputs of the scenarios of the specification and of the tests. *)

Module Sample.

(** 2024-01-15 (a Monday) 10:00:00, and the instant [s] seconds later
    (within the same hour as far as [.hour] is concerned), naive as
    [datetime.now()] gives it. *)
Definition at_second (s : Z) : datetime :=
  {| dt_date := "2024-01-15";
     dt_hour := 10;
     dt_weekday := 0;
     dt_micros := (1705312800 + s) * 1000000;
     dt_aware := false |}.

Definition at_millisecond (ms : Z) : datetime :=
  {| dt_date := "2024-01-15";
     dt_hour := 10;
     dt_weekday := 0;
     dt_micros := 1705312800000000 + ms * 1000;
     dt_aware := false |}.

Definition rule (name : string) (weight threshold : Q) : DetectionRule :=
  {| rule_name := name;
     rule_weight := weight;
     rule_threshold := threshold;
     rule_enabled := true |}.

(** A transaction with the required fields only. *)
Definition transaction (id user_id : string) (amount : Q)
    (timestamp : datetime) : Transaction :=
  {| tx_id := id;
     tx_user_id := user_id;
     tx_amount := amount;
     tx_currency := "USD";
     tx_timestamp := timestamp;
     tx_location := None;
     tx_merchant_id := None;
     tx_merchant_category := None;
     tx_payment_method := None;
     tx_device_id := None;
     tx_ip_address := None;
     tx_user_agent := None;
     tx_metadata := None |}.

Definition with_location (transaction : Transaction) (location : Location)
    : Transaction :=
  {| tx_id := tx_id transaction;
     tx_user_id := tx_user_id transaction;
     tx_amount := tx_amount transaction;
     tx_currency := tx_currency transaction;
     tx_timestamp := tx_timestamp transaction;
     tx_location := Some location;
     tx_merchant_id := tx_merchant_id transaction;
     tx_merchant_category := tx_merchant_category transaction;
     tx_payment_method := tx_payment_method transaction;
     tx_device_id := tx_device_id transaction;
     tx_ip_address := tx_ip_address transaction;
     tx_user_agent := tx_user_agent transaction;
     tx_metadata := tx_metadata transaction |}.

Definition with_merchant (transaction : Transaction)
    (merchant_id : string) : Transaction :=
  {| tx_id := tx_id transaction;
     tx_user_id := tx_user_id transaction;
     tx_amount := tx_amount transaction;
     tx_currency := tx_currency transaction;
     tx_timestamp := tx_timestamp transaction;
     tx_location := tx_location transaction;
     tx_merchant_id := Some merchant_id;
     tx_merchant_category := tx_merchant_category transaction;
     tx_payment_method := tx_payment_method transaction;
     tx_device_id := tx_device_id transaction;
     tx_ip_address := tx_ip_address transaction;
     tx_user_agent := tx_user_agent transaction;
     tx_metadata := tx_metadata transaction |}.

Definition with_device (transaction : Transaction)
    (device_id user_agent ip_address : string) : Transaction :=
  {| tx_id := tx_id transaction;
     tx_user_id := tx_user_id transaction;
     tx_amount := tx_amount transaction;
     tx_currency := tx_currency transaction;
     tx_timestamp := tx_timestamp transaction;
     tx_location := tx_location transaction;
     tx_merchant_id := tx_merchant_id transaction;
     tx_merchant_category := tx_merchant_category transaction;
     tx_payment_method := tx_payment_method transaction;
     tx_device_id := Some device_id;
     tx_ip_address := Some ip_address;
     tx_user_agent := Some user_agent;
     tx_metadata := tx_metadata transaction |}.

Definition new_york : Location :=
  {| lat := 40.7128; lng := -74.0060;
     country := None; city := None; state := None |}.

(** The velocity scenario: ten transactions of $100 by one user, one a
    minute, and the next one a minute after the last. *)
Definition ten_transactions : list Transaction :=
  map (fun i => transaction "tx" "user_003" 100.0 (at_second (60 * i)))
    [0; 1; 2; 3; 4; 5; 6; 7; 8; 9]%Z.

Definition eleventh_transaction : Transaction :=
  transaction "tx_final" "user_003" 100.0 (at_second 600).

(** The velocity signal of the detector after the ten transactions, each
    analysed at its own time. *)
Definition velocity_after_ten : VelocityAlgorithm.t :=
  fold_left
    (fun self tx =>
       (VelocityAlgorithm.analyze self (posix (tx_timestamp tx)) tx
          (rule "velocity" 0.15 0.8)).2)
    ten_transactions
    (VelocityAlgorithm.init FraudDetector.velocity_config).

(** The device scenario of [test_device_sharing_detection]: the same
    device, first in a transaction of [user_001], then in one of
    [user_002]. *)
Definition first_user_transaction (timestamp : datetime) : Transaction :=
  with_device (transaction "tx_001" "user_001" 100.0 timestamp)
    "shared_device" "Mozilla/5.0..." "192.168.1.1".

Definition second_user_transaction (user_id : string)
    (timestamp : datetime) : Transaction :=
  with_device (transaction "tx_002" user_id 200.0 timestamp)
    "shared_device" "Mozilla/5.0..." "192.168.1.1".

(** The three readings of the device signal's clock, in milliseconds
    after 10:00:00. *)
Definition device_clock (create update velocity : Z)
    : DeviceAlgorithm.Clock :=
  {| DeviceAlgorithm.now_create := at_millisecond create;
     DeviceAlgorithm.now_update := at_millisecond update;
     DeviceAlgorithm.now_velocity := at_millisecond velocity |}.

(** The device signal of the detector after the transaction of
    [user_001] at 10:00:00 (the signal reads its clock a millisecond
    later). *)
Definition device_after_first_user (hash : string → Z) : DeviceAlgorithm.t :=
  (DeviceAlgorithm.analyze hash
     (DeviceAlgorithm.init FraudDetector.device_config)
     (device_clock 0 0 1) (first_user_transaction (at_second 0))
     (rule "device" 0.15 0.8)).2.

(** A parameter of a signal that returns the same value on every call. *)
Definition constant_signal (score : Q) (self : unit)
    (transaction : Transaction) (rule : DetectionRule) : result Q * unit :=
  (Ok score, tt).

(** A parameter of a signal that is out of order. *)
Definition failing_signal (self : unit) (transaction : Transaction)
    (rule : DetectionRule) : result Q * unit :=
  (Raise (SignalError "unavailable"), tt).

(** The configuration of the tests: three rules, the default thresholds. *)
Definition config (rules : list string) : FraudDetectorConfig :=
  {| cfg_rules := rules;
     cfg_thresholds :=
       list_to_map [("velocity", 0.8); ("amount", 0.9); ("location", 0.7)];
     cfg_global_threshold := 0.7;
     cfg_enable_logging := false;
     cfg_custom_rules := None |}.

(** Every reading of the clock is 10:00:00 plus [s] seconds. *)
Definition clock (s : Z) : FraudDetector.Clock :=
  {| FraudDetector.start_time := inject_Z (1705312800 + s);
     FraudDetector.velocity_time := inject_Z (1705312800 + s);
     FraudDetector.location_now := at_second s;
     FraudDetector.location_time := inject_Z (1705312800 + s);
     FraudDetector.device_clock :=
       device_clock (1000 * s) (1000 * s) (1000 * s + 1);
     FraudDetector.end_time := inject_Z (1705312800 + s);
     FraudDetector.result_now := at_second s |}.

(** A detector with the three rules of the tests, and a transaction of
    $10000. *)
Definition detector : @FraudDetector.t unit unit unit unit :=
  FraudDetector.init (config ["velocity"; "amount"; "location"]) "2024"
    tt tt tt tt.

Definition high_amount_transaction : Transaction :=
  transaction "tx_002" "user_002" 10000.0 (at_second 0).

(** The detector with the velocity object of the burst scenario. *)
Definition detector_after_ten : @FraudDetector.t unit unit unit unit :=
  {| FraudDetector.config := FraudDetector.config detector;
     FraudDetector.algorithms :=
       {| FraudDetector.velocity := velocity_after_ten;
          FraudDetector.amount :=
            FraudDetector.amount (FraudDetector.algorithms detector);
          FraudDetector.location :=
            FraudDetector.location (FraudDetector.algorithms detector);
          FraudDetector.device :=
            FraudDetector.device (FraudDetector.algorithms detector);
          FraudDetector.time :=
            FraudDetector.time (FraudDetector.algorithms detector);
          FraudDetector.merchant := tt;
          FraudDetector.behavioral := tt;
          FraudDetector.network := tt;
          FraudDetector.ml := tt |};
     FraudDetector.rules := FraudDetector.rules detector |}.

(** [test_velocity_detection]: [n] transactions of $100 by [user_003],
    the [i]-th stamped and analysed [i] seconds after 10:00:00, and the
    last one, a second after them. *)
Definition burst_transactions (n : nat) : list (Z * Transaction) :=
  map
    (fun i : Z =>
       (i, transaction ("tx_" +:+ pretty i) "user_003" 100.0 (at_second i)))
    (map Z.of_nat (seq 0 n)).

Definition last_transaction (n : nat) : Transaction :=
  transaction "tx_final" "user_003" 100.0 (at_second (Z.of_nat n)).

(** The detector after [await detector.analyze(transaction)] for each
    transaction of the list in turn, the clock read at the second that is
    paired with it.  The four signals whose bodies are parameters return
    [0.5]; they are not among the rules of the tests. *)
Definition after (detector : @FraudDetector.t unit unit unit unit)
    (transactions : list (Z * Transaction))
    : @FraudDetector.t unit unit unit unit :=
  fold_left
    (fun detector item =>
       (FraudDetector.analyze (constant_signal 0.5) (constant_signal 0.5)
          (constant_signal 0.5) (constant_signal 0.5)
          (fun _ _ => 0) (fun _ => 0%Z)
          detector (clock item.1) item.2).2)
    transactions detector.

(** A refund entered as a negative amount. *)
Definition negative_amount_transaction : Transaction :=
  transaction "tx_001" "user_001" (-1000.0) (at_second 0).

End Sample.

(** * Proofs *)

(** ** Arithmetic of scores *)

Lemma fdiv_ok x y : ¬ y == 0 → fdiv x y = Ok (x / y).
Proof.
  intros H. unfold fdiv. destruct (Qeq_bool y 0) eqn:E; [|done].
  apply Qeq_bool_iff in E. contradiction.
Qed.

Lemma inject_Z_nonzero z : z ≠ 0%Z → ¬ inject_Z z == 0.
Proof. intros Hz E. apply Hz. by apply (inject_Z_injective z 0). Qed.

Lemma Qle_bool_false x y : Qle_bool x y = false ↔ y < x.
Proof.
  split.
  - intros H. apply Qnot_le_lt. intros L. apply Qle_bool_iff in L. congruence.
  - intros H. destruct (Qle_bool x y) eqn:E; [|done].
    apply Qle_bool_iff in E. lra.
Qed.

Lemma Qgeb_true x y : Qgeb x y = true ↔ y <= x.
Proof. apply Qle_bool_iff. Qed.

Lemma Qgeb_false x y : Qgeb x y = false ↔ x < y.
Proof. apply Qle_bool_false. Qed.

Lemma Qgtb_true x y : Qgtb x y = true ↔ y < x.
Proof. unfold Qgtb. rewrite negb_true_iff. apply Qle_bool_false. Qed.

Lemma Qgtb_false x y : Qgtb x y = false ↔ x <= y.
Proof. unfold Qgtb. rewrite negb_false_iff. apply Qle_bool_iff. Qed.

Lemma Qdiv_le_mono x y d : 0 < d → x <= y → x / d <= y / d.
Proof.
  intros Hd Hxy. apply Qle_shift_div_l; [done|].
  assert (E : x / d * d == x) by (field; lra). by rewrite E.
Qed.

Lemma Qdiv_upper x d e : 0 < d → x < e * d → x / d < e.
Proof. intros. by apply Qlt_shift_div_r. Qed.

Lemma Qdiv_lower x d e : 0 < d → e * d < x → e < x / d.
Proof. intros. by apply Qlt_shift_div_l. Qed.

Lemma Qdiv_upper_le x d e : 0 < d → x <= e * d → x / d <= e.
Proof. intros. by apply Qle_shift_div_r. Qed.

Lemma Qdiv_lower_le x d e : 0 < d → e * d <= x → e <= x / d.
Proof. intros. by apply Qle_shift_div_l. Qed.

Lemma Qhalf x : x / 2 == x * 0.5.
Proof. field. Qed.

Lemma Qmin_le_r x y : Qmin x y <= y.
Proof. apply Q.le_min_r. Qed.

Lemma Qmin_le_one x : Qmin x 1.0 <= 1.
Proof. pose proof (Q.le_min_r x 1.0). lra. Qed.

Lemma Qmin_id x y : x <= y → Qmin x y == x.
Proof. intros. by apply Q.min_l. Qed.

Lemma Qmin_nonneg x y : 0 <= x → 0 <= y → 0 <= Qmin x y.
Proof. intros. by apply Q.min_glb. Qed.

Lemma Qabs_lt x e : Qabs x < e ↔ - e < x ∧ x < e.
Proof. apply Qabs_Qlt_condition. Qed.

Lemma inject_Z_pos z : (0 < z)%Z → 0 < inject_Z z.
Proof. intros. change 0 with (inject_Z 0). by rewrite <- Zlt_Qlt. Qed.

Lemma inject_Z_nonneg z : (0 <= z)%Z → 0 <= inject_Z z.
Proof. intros. change 0 with (inject_Z 0). by rewrite <- Zle_Qle. Qed.

(** Datetimes and comprehensions. *)

Lemma seconds_between_same a b :
  dt_aware b = dt_aware a → seconds_between a b = Ok (total_seconds a b).
Proof.
  intros H. unfold seconds_between. rewrite H.
  by destruct (dt_aware a).
Qed.

Lemma seconds_between_mixed a b :
  dt_aware b ≠ dt_aware a → seconds_between a b = Raise TypeError.
Proof.
  intros H. unfold seconds_between.
  by destruct (dt_aware a), (dt_aware b).
Qed.

Lemma comprehension_filter {A} (test : A → result bool) (p : A → bool) l :
  (∀ x, In x l → test x = Ok (p x)) →
  comprehension test l = Ok (List.filter p l).
Proof.
  induction l as [|x l IH]; intros H; [done|].
  cbn [comprehension List.filter].
  rewrite (H x (or_introl eq_refl)), IH by (intros; apply H; by right).
  unfold mbind, result_bind. by destruct (p x).
Qed.

Lemma comprehension_raises {A} (test : A → result bool) l e :
  (∀ x e', test x = Raise e' → e' = e) →
  (∃ x e', In x l ∧ test x = Raise e') →
  comprehension test l = Raise e.
Proof.
  intros He. induction l as [|x l IH]; intros (y & e' & Hin & Hy);
    [destruct Hin|].
  cbn [comprehension].
  destruct (test x) as [keep|e0] eqn:Ex.
  - destruct Hin as [->|Hin]; [congruence|].
    rewrite IH by eauto. done.
  - by rewrite (He x e0 Ex).
Qed.


(** Case analysis on every conditional of the goal. *)
Ltac case_ifs :=
  repeat match goal with
         | |- context [if ?b then _ else _] => destruct b
         end.

(** ** The amount signal *)

Section AmountFacts.
Import AmountAlgorithm.

Lemma risk_of_normalized_band (self : AmountAlgorithm.t) x :
  0 < config_suspicious_threshold self →
  config_suspicious_threshold self < config_high_risk_threshold self →
  ∃ r, risk_of_normalized self x = Ok r ∧
       band (config_suspicious_threshold self)
            (config_high_risk_threshold self) x r.
Proof.
  intros Hs Hsh. unfold risk_of_normalized.
  destruct (Qgeb x (config_high_risk_threshold self)) eqn:E1.
  - apply Qgeb_true in E1. eexists; split; [done|]. by apply band_high.
  - apply Qgeb_false in E1.
    destruct (Qgeb x (config_suspicious_threshold self)) eqn:E2.
    + apply Qgeb_true in E2. rewrite fdiv_ok by lra.
      eexists; split; [done|]. by apply band_mid.
    + apply Qgeb_false in E2. rewrite fdiv_ok by lra.
      eexists; split; [done|]. by apply band_low.
Qed.

Lemma score_band (self : AmountAlgorithm.t) x r :
  0 < config_suspicious_threshold self →
  config_suspicious_threshold self < config_high_risk_threshold self →
  score self x r →
  band (config_suspicious_threshold self) (config_high_risk_threshold self)
    x r.
Proof.
  intros Hs Hsh Hr.
  destruct (risk_of_normalized_band self x Hs Hsh) as (r' & E & B).
  unfold score in Hr. congruence.
Qed.

Lemma band_monotone s h x y rx ry :
  0 < s → s < h → x <= y → band s h x rx → band s h y ry → rx <= ry.
Proof.
  intros Hs Hsh Hxy Bx By.
  assert (Hd : 0 < h - s) by lra.
  destruct Bx as [Hx Ex | Hx1 Hx2 Ex | Hx Ex];
    destruct By as [Hy Ey | Hy1 Hy2 Ey | Hy Ey]; rewrite Ex, Ey; try lra.
  - pose proof (Qdiv_upper (x - s) (h - s) 1 Hd ltac:(lra)). lra.
  - pose proof (Qdiv_le_mono (x - s) (y - s) (h - s) Hd ltac:(lra)). lra.
  - pose proof (Qdiv_upper x s 1 Hs ltac:(lra)). lra.
  - pose proof (Qdiv_upper x s 1 Hs ltac:(lra)).
    pose proof (Qdiv_lower_le (y - s) (h - s) 0 Hd ltac:(lra)). lra.
  - pose proof (Qdiv_le_mono x y s Hs Hxy). lra.
Qed.

Lemma band_upper s h x r : 0 < s → s < h → band s h x r → r <= 1.
Proof.
  intros Hs Hsh [H1 E | H1 H2 E | H1 E]; rewrite E.
  - lra.
  - assert (Hd : 0 < h - s) by lra.
    pose proof (Qdiv_upper (x - s) (h - s) 1 Hd ltac:(lra)). lra.
  - pose proof (Qdiv_upper x s 1 Hs ltac:(lra)). lra.
Qed.

Lemma band_lower s h x r : 0 < s → s < h → 0 <= x → band s h x r → 0 <= r.
Proof.
  intros Hs Hsh Hx [H1 E | H1 H2 E | H1 E]; rewrite E.
  - lra.
  - assert (Hd : 0 < h - s) by lra.
    pose proof (Qdiv_lower_le (x - s) (h - s) 0 Hd ltac:(lra)). lra.
  - pose proof (Qdiv_lower_le x s 0 Hs ltac:(lra)). lra.
Qed.

(** At the suspicious threshold [δ = ε·min(s, h - s)] is small enough:
    on either side the slope is at most [1 / (2·min(s, h - s))]. *)
Lemma band_continuous_suspicious s h ε :
  0 < s → s < h → 0 < ε →
  ∃ δ, 0 < δ ∧ ∀ x rx rs,
    Qabs (x - s) < δ → band s h x rx → band s h s rs →
    Qabs (rx - rs) < ε.
Proof.
  intros Hs Hsh He. exists (ε * Qmin s (h - s)).
  assert (Hd : 0 < h - s) by lra.
  pose proof (Q.le_min_l s (h - s)) as Hm1.
  pose proof (Q.le_min_r s (h - s)) as Hm2.
  assert (Hm : 0 < Qmin s (h - s)) by (apply Q.min_glb_lt; lra).
  split; [nra|].
  intros x rx rs Hx Bx Bs. apply Qabs_lt in Hx. apply Qabs_lt.
  assert (Es : rs == 0.5).
  { destruct Bs as [? E | ? ? E | ? E]; [lra | | lra].
    rewrite E. field. lra. }
  rewrite Es.
  destruct Bx as [Hx1 Ex | Hx1 Hx2 Ex | Hx1 Ex]; rewrite Ex.
  - nra.
  - pose proof (Qdiv_lower_le (x - s) (h - s) 0 Hd ltac:(lra)).
    pose proof (Qdiv_upper (x - s) (h - s) ε Hd ltac:(nra)). lra.
  - pose proof (Qdiv_upper x s 1 Hs ltac:(lra)).
    pose proof (Qdiv_lower x s (1 - ε) Hs ltac:(nra)). lra.
Qed.

Lemma band_continuous_high s h ε :
  0 < s → s < h → 0 < ε →
  ∃ δ, 0 < δ ∧ ∀ x rx rh,
    Qabs (x - h) < δ → band s h x rx → band s h h rh →
    Qabs (rx - rh) < ε.
Proof.
  intros Hs Hsh He. exists (ε * Qmin s (h - s)).
  assert (Hd : 0 < h - s) by lra.
  pose proof (Q.le_min_l s (h - s)) as Hm1.
  pose proof (Q.le_min_r s (h - s)) as Hm2.
  assert (Hm : 0 < Qmin s (h - s)) by (apply Q.min_glb_lt; lra).
  split; [nra|].
  intros x rx rh Hx Bx Bh. apply Qabs_lt in Hx. apply Qabs_lt.
  assert (Eh : rh == 1).
  { destruct Bh as [? E | ? ? E | ? E]; [done | lra | lra]. }
  rewrite Eh.
  destruct Bx as [Hx1 Ex | Hx1 Hx2 Ex | Hx1 Ex]; rewrite Ex.
  - lra.
  - pose proof (Qdiv_upper (x - s) (h - s) 1 Hd ltac:(lra)).
    pose proof (Qdiv_lower (x - s) (h - s) (1 - ε) Hd ltac:(nra)). lra.
  - pose proof (Qdiv_upper x s 1 Hs ltac:(lra)).
    pose proof (Qdiv_lower x s (1 - ε) Hs ltac:(nra)).
    assert (1 < ε) by nra. lra.
Qed.

Lemma normalized_amount_multiplier self transaction :
  tx_currency transaction ≠ "" →
  normalized_amount self transaction
  = tx_amount transaction
    * match config_currency_multipliers self !! tx_currency transaction with
      | Some multiplier => multiplier
      | None => 1.0
      end.
Proof.
  intros Hc. unfold normalized_amount, str_or.
  apply String.eqb_neq in Hc. rewrite Hc.
  by destruct (config_currency_multipliers self !! tx_currency transaction).
Qed.

End AmountFacts.

(** C6.  For thresholds [0 < suspicious < high_risk] the amount signal
    always returns a score; the score is that of the normalized amount
    (the amount times the multiplier of its currency, [1.0] for a currency
    that is not listed); as a function of the normalized amount it is
    non-decreasing, continuous at both thresholds and [1] at and above the
    high-risk threshold.  With the thresholds 1000 and 5000 an amount of
    15000 USD scores [1]. *)
Theorem amount_signal_curve (self : AmountAlgorithm.t) :
  0 < AmountAlgorithm.config_suspicious_threshold self →
  AmountAlgorithm.config_suspicious_threshold self
  < AmountAlgorithm.config_high_risk_threshold self →
  (∀ transaction rule,
     AmountAlgorithm.analyze self transaction rule
     = AmountAlgorithm.risk_of_normalized self
         (AmountAlgorithm.normalized_amount self transaction)) ∧
  (∀ transaction,
     tx_currency transaction ≠ "" →
     AmountAlgorithm.normalized_amount self transaction
     = tx_amount transaction
       * match AmountAlgorithm.config_currency_multipliers self
                 !! tx_currency transaction with
         | Some multiplier => multiplier
         | None => 1.0
         end) ∧
  (∀ x, ∃ r, AmountAlgorithm.score self x r) ∧
  non_decreasing (AmountAlgorithm.score self) ∧
  continuous_at (AmountAlgorithm.score self)
    (AmountAlgorithm.config_suspicious_threshold self) ∧
  continuous_at (AmountAlgorithm.score self)
    (AmountAlgorithm.config_high_risk_threshold self) ∧
  (∀ x r,
     AmountAlgorithm.config_high_risk_threshold self <= x →
     AmountAlgorithm.score self x r → r == 1) ∧
  (∀ transaction rule,
     tx_amount transaction == 15000 →
     tx_currency transaction = "USD" →
     ∃ r,
       AmountAlgorithm.analyze
         (AmountAlgorithm.init FraudDetector.amount_config) transaction rule
       = Ok r ∧ r == 1).
Proof.
  intros Hs Hsh. split_and!.
  - by intros.
  - intros. by apply normalized_amount_multiplier.
  - intros x. destruct (risk_of_normalized_band self x Hs Hsh) as (r & E & _).
    by exists r.
  - intros x y rx ry Hxy Hx Hy.
    eapply band_monotone; [exact Hs|exact Hsh|exact Hxy| |];
      by apply score_band.
  - intros ε He.
    destruct (band_continuous_suspicious _ _ ε Hs Hsh He) as (δ & Hδ & H).
    exists δ. split; [done|]. intros x rx ra Hx Sx Sa.
    apply (H x); [done| |]; by apply score_band.
  - intros ε He.
    destruct (band_continuous_high _ _ ε Hs Hsh He) as (δ & Hδ & H).
    exists δ. split; [done|]. intros x rx ra Hx Sx Sa.
    apply (H x); [done| |]; by apply score_band.
  - intros x r Hx Sx. apply score_band in Sx; [|done..].
    destruct Sx as [? E | ? ? E | ? E]; [done | lra | lra].
  - intros transaction rule Ha Hc. exists 1.0. split; [|reflexivity].
    unfold AmountAlgorithm.analyze, AmountAlgorithm.normalized_amount.
    rewrite Hc.
    change (default 1.0 _) with 1.0.
    unfold AmountAlgorithm.risk_of_normalized.
    assert (E : Qgeb (tx_amount transaction * 1.0)
                  (AmountAlgorithm.config_high_risk_threshold
                     (AmountAlgorithm.init FraudDetector.amount_config))
                = true).
    { apply Qgeb_true. cbn. lra. }
    by rewrite E.
Qed.

Lemma amount_signal_curve_witness :
  non_decreasing
    (AmountAlgorithm.score (AmountAlgorithm.init FraudDetector.amount_config)).
Proof.
  refine (proj1 (proj2 (proj2 (proj2
    (amount_signal_curve (AmountAlgorithm.init FraudDetector.amount_config)
       _ _))))); vm_compute; reflexivity.
Defined.

(** ** The velocity signal *)

Section VelocityFacts.
Import VelocityAlgorithm.

Lemma fold_Qplus_nonneg (l : list Q) acc :
  0 <= acc → (∀ x, In x l → 0 <= x) → 0 <= fold_left Qplus l acc.
Proof.
  revert acc. induction l as [|x l IH]; intros acc Ha Hl; [done|].
  cbn [fold_left]. apply IH.
  - pose proof (Hl x (or_introl eq_refl)). lra.
  - intros y Hy. apply Hl. by right.
Qed.

Lemma sum_amounts_nonneg (txs : list Transaction) :
  (∀ tx, In tx txs → 0 <= tx_amount tx) → 0 <= sum_amounts txs.
Proof.
  intros H. unfold sum_amounts. apply fold_Qplus_nonneg; [lra|].
  intros x Hx. apply in_map_iff in Hx as (tx & <- & Htx). by apply H.
Qed.

Lemma fold_Qplus_const (l : list Q) (c acc : Q) :
  (∀ x, In x l → x == c) →
  fold_left Qplus l acc == acc + inject_Z (Z.of_nat (length l)) * c.
Proof.
  revert acc. induction l as [|x l IH]; intros acc Hl.
  - cbn [fold_left length]. change (inject_Z (Z.of_nat 0)) with 0. lra.
  - cbn [fold_left]. rewrite IH by (intros; apply Hl; by right).
    rewrite (Hl x (or_introl eq_refl)).
    cbn [length]. rewrite Nat2Z.inj_succ. unfold Z.succ.
    rewrite inject_Z_plus. change (inject_Z 1) with 1. lra.
Qed.

(** [tx] is of the kind of [now]: [now - tx.timestamp] is defined. *)
Local Abbreviation same_kind now :=
  (fun tx : Transaction => dt_aware (tx_timestamp tx) = dt_aware now).

(** The test of the comprehension of [analyze]. *)
Local Abbreviation within self now :=
  (fun tx : Transaction =>
     Qle_bool (total_seconds now (tx_timestamp tx) * 1000)
       (inject_Z (time_window (config self) * 60 * 1000))).

Lemma recent_transactions_same_kind self user_id now :
  Forall (same_kind now) (default [] (transaction_history self !! user_id)) →
  recent_transactions self user_id now
  = Ok (List.filter (within self now)
          (default [] (transaction_history self !! user_id))).
Proof.
  intros H. unfold recent_transactions. apply comprehension_filter.
  intros tx Htx. rewrite Forall_forall in H.
  rewrite seconds_between_same; [done|].
  by apply H, list_elem_of_In.
Qed.

Lemma recent_transactions_mixed self user_id now :
  ¬ Forall (same_kind now)
      (default [] (transaction_history self !! user_id)) →
  recent_transactions self user_id now = Raise TypeError.
Proof.
  intros H. unfold recent_transactions. apply comprehension_raises.
  - intros tx e. unfold seconds_between.
    destruct (Bool.eqb _ _); [done|]. by intros [= <-].
  - apply not_Forall_Exists in H; [|intros tx; apply _].
    apply Exists_exists in H as (tx & Htx & Hk).
    exists tx, TypeError. split; [by apply list_elem_of_In|].
    by rewrite seconds_between_mixed.
Qed.

Lemma recent_transactions_Ok self user_id now recent :
  recent_transactions self user_id now = Ok recent →
  Forall (same_kind now) (default [] (transaction_history self !! user_id)) ∧
  recent = List.filter (within self now)
             (default [] (transaction_history self !! user_id)).
Proof.
  intros H.
  destruct (decide (Forall (same_kind now)
                      (default [] (transaction_history self !! user_id))))
    as [Hk|Hk].
  - split; [done|]. rewrite recent_transactions_same_kind in H by done.
    by injection H as <-.
  - by rewrite recent_transactions_mixed in H.
Qed.

Lemma recent_transactions_In self user_id now recent tx :
  recent_transactions self user_id now = Ok recent →
  In tx recent ↔
  In tx (default [] (transaction_history self !! user_id)) ∧
  total_seconds now (tx_timestamp tx) * 1000
  <= inject_Z (time_window (config self) * 60 * 1000).
Proof.
  intros H. apply recent_transactions_Ok in H as [_ ->].
  rewrite filter_In. by rewrite Qle_bool_iff.
Qed.

(** The score, when the stored events are of the kind of the transaction
    and neither divisor is zero. *)
Lemma analyze_score self time_now transaction rule recent :
  recent_transactions self (tx_user_id transaction)
    (tx_timestamp transaction) = Ok recent →
  max_transactions (config self) ≠ 0%Z →
  ¬ max_amount (config self) == 0 →
  let count_risk :=
    Qmin (inject_Z (Z.of_nat (length recent) + 1)
          / inject_Z (max_transactions (config self))) 1.0 in
  let amount_risk :=
    Qmin ((sum_amounts recent + tx_amount transaction)
          / max_amount (config self)) 1.0 in
  ∃ r, (analyze self time_now transaction rule).1 = Ok r ∧
       r == (count_risk + amount_risk) / 2.
Proof.
  intros Hrec Hn Ha count_risk amount_risk. unfold analyze.
  rewrite Hrec. unfold mbind at 1. unfold result_bind at 1.
  cbn beta iota zeta.
  pose proof (inject_Z_nonzero _ Hn) as Hn'.
  rewrite (fdiv_ok _ _ Hn'), (fdiv_ok _ _ Ha).
  unfold mbind, result_bind. cbn beta iota.
  fold count_risk amount_risk. eexists; split; [reflexivity|].
  apply Qmin_id.
  pose proof (Qmin_le_one (inject_Z (Z.of_nat (length recent) + 1)
          / inject_Z (max_transactions (config self)))) as H1.
  pose proof (Qmin_le_one ((sum_amounts recent + tx_amount transaction)
          / max_amount (config self))) as H2.
  fold count_risk in H1. fold amount_risk in H2.
  clearbody count_risk amount_risk. rewrite Qhalf. lra.
Qed.


Lemma analyze_config self time_now transaction rule :
  config (analyze self time_now transaction rule).2 = config self.
Proof. unfold analyze. by destruct (_ ≫= _) as [[c a]|e]. Qed.

Lemma analyze_history self time_now transaction rule user_id history tx :
  transaction_history (analyze self time_now transaction rule).2 !! user_id
    = Some history →
  In tx history →
  tx = transaction ∨
  ∃ history0,
    transaction_history self !! user_id = Some history0 ∧ In tx history0.
Proof.
  unfold analyze.
  destruct (_ ≫= _) as [[c a]|e]; cbn [snd]; [|by eauto].
  unfold _add_transaction. cbn [transaction_history].
  destruct (decide (tx_user_id transaction = user_id)) as [->|Hne].
  - rewrite lookup_insert_eq. intros [= <-] Hin.
    apply filter_In in Hin as [Hin _]. apply in_app_or in Hin as [Hin|Hin].
    + right. destruct (transaction_history self !! user_id) as [h0|];
        [eauto | destruct Hin].
    + left. by destruct Hin as [<-|[]].
  - rewrite lookup_insert_ne by done. eauto.
Qed.

Lemma analyze_upper self time_now transaction rule score :
  (analyze self time_now transaction rule).1 = Ok score → score <= 1.
Proof.
  unfold analyze. destruct (_ ≫= _) as [[c a]|e]; [|done].
  cbn [fst]. intros [= <-]. apply Qmin_le_one.
Qed.

Lemma analyze_lower self time_now transaction rule score :
  (0 < max_transactions (config self))%Z →
  0 < max_amount (config self) →
  0 <= tx_amount transaction →
  (∀ history tx,
     transaction_history self !! tx_user_id transaction = Some history →
     In tx history → 0 <= tx_amount tx) →
  (analyze self time_now transaction rule).1 = Ok score →
  0 <= score.
Proof.
  intros Hn Ha Hamt Hh. unfold analyze.
  destruct (recent_transactions self (tx_user_id transaction)
              (tx_timestamp transaction)) as [recent|e] eqn:Erec; [|done].
  unfold mbind at 1. unfold result_bind at 1. cbn beta iota zeta.
  assert (Hrec : 0 <= sum_amounts recent).
  { apply sum_amounts_nonneg. intros tx Htx.
    apply (recent_transactions_In _ _ _ _ tx Erec) in Htx as [Htx _].
    destruct (transaction_history self !! tx_user_id transaction)
      as [h|] eqn:E; [|destruct Htx].
    by apply (Hh h). }
  assert (Hn' : ¬ inject_Z (max_transactions (config self)) == 0)
    by (apply inject_Z_nonzero; lia).
  assert (Ha' : ¬ max_amount (config self) == 0) by lra.
  rewrite (fdiv_ok _ _ Hn'), (fdiv_ok _ _ Ha').
  unfold mbind, result_bind. cbn beta iota. cbn [fst]. intros [= <-].
  set (c := Qmin (inject_Z _ / _) 1.0).
  set (a := Qmin ((sum_amounts _ + _) / _) 1.0).
  assert (0 <= c) as Hc0.
  { subst c. apply Qmin_nonneg; [|lra]. apply Qdiv_lower_le.
    - by apply inject_Z_pos.
    - rewrite Qmult_0_l. apply inject_Z_nonneg. lia. }
  assert (0 <= a) as Ha0.
  { subst a. apply Qmin_nonneg; [|lra].
    apply Qdiv_lower_le; [done|]. lra. }
  clearbody c a. apply Qmin_nonneg; [|lra]. rewrite Qhalf. lra.
Qed.

End VelocityFacts.



(** ** The time signal *)

Section TimeFacts.
Import TimeAlgorithm.

Lemma user_pattern_nonneg self user_id pattern :
  0 <= _analyze_user_time_pattern self user_id pattern.
Proof.
  unfold _analyze_user_time_pattern.
  destruct (default [] _) as [|p ps]; [lra|]. case_ifs; lra.
Qed.

Lemma timezone_anomaly_nonneg self transaction pattern :
  0 <= _analyze_timezone_anomaly self transaction pattern.
Proof.
  unfold _analyze_timezone_anomaly.
  destruct (tx_location transaction); [|lra]. case_ifs; lra.
Qed.

Lemma time_analyze_bounds self transaction rule score :
  0 <= weekend_risk_multiplier (config self) →
  0 <= holiday_risk_multiplier (config self) →
  (analyze self transaction rule).1 = Ok score →
  0 <= score ∧ score <= 1.
Proof.
  intros Hw Hh. unfold analyze. cbn [fst]. intros [= <-].
  split; [|apply Qmin_le_one]. apply Qmin_nonneg; [|lra].
  set (p := _analyze_time_pattern _ _ _).
  pose proof (user_pattern_nonneg self (tx_user_id transaction) p).
  pose proof (timezone_anomaly_nonneg self transaction p).
  case_ifs; lra.
Qed.

End TimeFacts.

(** C10.  When the multipliers of the configuration are not negative, the
    time signal returns at least [0.1] for a user with no stored pattern:
    the user-pattern component is [0.1] and no other component is
    negative. *)
Theorem time_first_transaction (self : TimeAlgorithm.t)
    (transaction : Transaction) (rule : DetectionRule) :
  0 <= TimeAlgorithm.weekend_risk_multiplier (TimeAlgorithm.config self) →
  0 <= TimeAlgorithm.holiday_risk_multiplier (TimeAlgorithm.config self) →
  default [] (TimeAlgorithm.user_time_patterns self
                !! tx_user_id transaction) = [] →
  TimeAlgorithm._analyze_user_time_pattern self (tx_user_id transaction)
    (TimeAlgorithm._analyze_time_pattern self (tx_timestamp transaction)
       transaction) = 0.1 ∧
  ∃ score,
    (TimeAlgorithm.analyze self transaction rule).1 = Ok score ∧
    0.1 <= score.
Proof.
  intros Hw Hh Hnone.
  assert (E : ∀ p,
    TimeAlgorithm._analyze_user_time_pattern self (tx_user_id transaction) p
    = 0.1).
  { intros p. unfold TimeAlgorithm._analyze_user_time_pattern.
    by rewrite Hnone. }
  split; [apply E|].
  unfold TimeAlgorithm.analyze. cbn [fst]. eexists; split; [done|].
  apply Q.min_glb; [|lra].
  set (p := TimeAlgorithm._analyze_time_pattern _ _ _).
  pose proof (timezone_anomaly_nonneg self transaction p).
  rewrite (E p). case_ifs; lra.
Qed.

Lemma time_first_transaction_witness :
  ∃ score,
    (TimeAlgorithm.analyze
       (TimeAlgorithm.init FraudDetector.time_config "2024")
       (Sample.transaction "tx_001" "user_001" 100.0 (Sample.at_second 0))
       (Sample.rule "time" 0.10 0.6)).1 = Ok score ∧
    0.1 <= score.
Proof.
  refine (proj2 (time_first_transaction
    (TimeAlgorithm.init FraudDetector.time_config "2024")
    (Sample.transaction "tx_001" "user_001" 100.0 (Sample.at_second 0))
    (Sample.rule "time" 0.10 0.6) _ _ _)).
  - vm_compute. discriminate.
  - vm_compute. discriminate.
  - reflexivity.
Defined.

(** ** The location signal *)

Section LocationFacts.
Import LocationAlgorithm.
Variable dist : Location → Location → Q.

(** The constructor of [Location] rejects the keyword [timestamp]. *)
Lemma add_location_raises self now time_now user_id location :
  _add_location self now time_now user_id location =
  (Raise TypeError,
   match user_locations self !! user_id with
   | Some _ => self
   | None =>
       {| config := config self;
          config_trusted_locations := config_trusted_locations self;
          user_locations := <[user_id := []]> (user_locations self) |}
   end).
Proof. reflexivity. Qed.

(** The bands of the score, for [0 < suspicious < max]: [1] from the
    maximal distance on, the ramp from [0.5] to [1] between the two
    distances, the ramp from [0] to [0.5] below. *)
Lemma distance_risk_bands self d :
  0 < suspicious_distance_km (config self) →
  suspicious_distance_km (config self) < max_distance_km (config self) →
  ∃ r,
    distance_risk self d = Ok r ∧
    (max_distance_km (config self) <= d → r == 1) ∧
    (suspicious_distance_km (config self) < d →
     d <= max_distance_km (config self) →
     r == 0.5 + (d - suspicious_distance_km (config self))
                / (max_distance_km (config self)
                   - suspicious_distance_km (config self)) * 0.5) ∧
    (d <= suspicious_distance_km (config self) →
     r == d / suspicious_distance_km (config self) * 0.5).
Proof.
  intros Hs Hsm. unfold distance_risk.
  set (s := suspicious_distance_km (config self)) in *.
  set (m := max_distance_km (config self)) in *.
  destruct (Qgtb d m) eqn:E1.
  - apply Qgtb_true in E1. exists 1.0. split_and!; [done|..]; intros; lra.
  - apply Qgtb_false in E1. destruct (Qgtb d s) eqn:E2.
    + apply Qgtb_true in E2. rewrite fdiv_ok by lra.
      eexists. split; [reflexivity|]. split_and!; [|reflexivity|intros; lra].
      intros Hm. assert (Ed : d == m) by lra. rewrite Ed. field. lra.
    + apply Qgtb_false in E2. rewrite fdiv_ok by lra.
      eexists. split; [reflexivity|].
      split_and!; [intros; lra|intros; lra|reflexivity].
Qed.

Lemma analyze_without_location self now time_now transaction rule :
  tx_location transaction = None →
  analyze dist self now time_now transaction rule = (Ok 0.0, self).
Proof. intros H. unfold analyze. by rewrite H. Qed.

(** A transaction that carries a location: the call raises, and no
    history gains an element. *)
Lemma analyze_with_location self now time_now transaction rule location :
  tx_location transaction = Some location →
  ∃ e self',
    analyze dist self now time_now transaction rule = (Raise e, self') ∧
    ∀ user_id,
      default [] (user_locations self' !! user_id)
      = default [] (user_locations self !! user_id).
Proof.
  intros H. unfold analyze. rewrite H.
  destruct (_get_recent_locations self _ _ ≫= _) as [risk|e].
  - rewrite add_location_raises. eexists _, _. split; [reflexivity|].
    intros u. destruct (user_locations self !! tx_user_id transaction) eqn:E;
      [done|]. cbn [user_locations].
    destruct (decide (tx_user_id transaction = u)) as [<-|Hne].
    + by rewrite lookup_insert_eq, E.
    + by rewrite lookup_insert_ne.
  - by eexists _, _.
Qed.

Lemma location_analyze_score self now time_now transaction rule score :
  (analyze dist self now time_now transaction rule).1 = Ok score →
  score = 0.0.
Proof.
  destruct (tx_location transaction) as [location|] eqn:E.
  - by destruct (analyze_with_location self now time_now transaction rule
                   location E) as (e & self' & -> & _).
  - rewrite analyze_without_location by done. by intros [= <-].
Qed.

End LocationFacts.

(** C3.  What the code does on the first transaction of a user that
    carries a location: scoring finds no history, and storing the location
    raises [TypeError], because [_add_location] passes [timestamp] to the
    constructor of [Location], which has no such field.  The call returns
    no score and the user's history stays empty; the same happens on the
    next call. *)
Theorem location_signal_raises (dist : Location → Location → Q)
    (now now' : datetime) (time_now time_now' : Q) (rule : DetectionRule) :
  let self := LocationAlgorithm.init FraudDetector.location_config in
  let transaction :=
    Sample.with_location
      (Sample.transaction "tx_001" "user_001" 100.0 (Sample.at_second 0))
      Sample.new_york in
  let first :=
    LocationAlgorithm.analyze dist self now time_now transaction rule in
  let second :=
    LocationAlgorithm.analyze dist first.2 now' time_now' transaction rule in
  first.1 = Raise TypeError ∧
  LocationAlgorithm.user_locations first.2 !! "user_001" = Some [] ∧
  second.1 = Raise TypeError ∧
  LocationAlgorithm.user_locations second.2 !! "user_001" = Some [].
Proof. cbv zeta. split_and!; reflexivity. Qed.

(** ** The device signal *)

Section DeviceFacts.
Import DeviceAlgorithm.

Lemma device_risk_bounds existing current :
  0 <= _calculate_device_risk existing current ∧
  _calculate_device_risk existing current <= 0.8.
Proof.
  unfold _calculate_device_risk. split; [|apply Qmin_le_r].
  apply Qmin_nonneg; [|lra].
  destruct (last_seen existing), (last_seen current); case_ifs; lra.
Qed.

Lemma device_branch_nonneg self clock transaction device_id :
  0 <= (device_branch self clock transaction device_id).1.
Proof.
  unfold device_branch.
  destruct (device_fingerprints self !! device_id) as [fp|]; cbn [fst].
  - pose proof (device_risk_bounds fp
      (_create_fingerprint (now_create clock) transaction device_id)). lra.
  - case_ifs; lra.
Qed.

Lemma sharing_risk_nonneg self device_id user_id :
  0 <= _calculate_device_sharing_risk self device_id user_id.
Proof. unfold _calculate_device_sharing_risk. case_ifs; lra. Qed.

Lemma elem_of_device_users self device_id user_id :
  user_id ∈ _get_device_users self device_id ↔ linked self user_id device_id.
Proof.
  unfold _get_device_users, linked. rewrite elem_of_dom. split.
  - intros [ds H]. apply map_lookup_filter_Some in H as [H1 H2].
    by rewrite H1.
  - intros H. destruct (user_devices self !! user_id) as [ds|] eqn:E.
    + exists ds. by apply map_lookup_filter_Some.
    + cbn in H. by apply not_elem_of_empty in H.
Qed.

Lemma device_users_ext self self' device_id :
  (∀ u, linked self' u device_id ↔ linked self u device_id) →
  _get_device_users self' device_id = _get_device_users self device_id.
Proof.
  intros H. apply set_eq. intros u. rewrite !elem_of_device_users. apply H.
Qed.

Lemma linked_add_user_device self user_id device_id u d :
  linked (_add_user_device self user_id device_id) u d ↔
  linked self u d ∨ (u = user_id ∧ d = device_id).
Proof.
  unfold linked, _add_user_device. cbn [user_devices].
  destruct (decide (user_id = u)) as [->|Hne].
  - rewrite lookup_insert_eq. cbn [from_option id].
    rewrite elem_of_union, elem_of_singleton. naive_solver.
  - rewrite lookup_insert_ne by done. naive_solver.
Qed.

Lemma device_branch_linked self clock transaction device_id u d :
  linked (device_branch self clock transaction device_id).2 u d ↔
  linked self u d ∨
  (device_fingerprints self !! device_id = None ∧
   u = tx_user_id transaction ∧ d = device_id).
Proof.
  unfold device_branch.
  destruct (device_fingerprints self !! device_id) as [fp|] eqn:E; cbn [snd].
  - unfold _update_device_fingerprint. rewrite E. unfold linked.
    cbn [user_devices]. naive_solver.
  - rewrite linked_add_user_device. unfold linked. cbn [user_devices].
    naive_solver.
Qed.

Lemma device_branch_fingerprints self clock transaction device_id d :
  is_Some (device_fingerprints
             (device_branch self clock transaction device_id).2 !! d) ↔
  is_Some (device_fingerprints self !! d) ∨ d = device_id.
Proof.
  assert (∀ fp, is_Some (<[device_id := fp]> (device_fingerprints self) !! d)
                ↔ is_Some (device_fingerprints self !! d) ∨ d = device_id)
    as Hins.
  { intros fp. rewrite lookup_insert_is_Some. split.
    - intros [->|[_ H]]; [by right | by left].
    - intros [H| ->]; [|by left].
      destruct (decide (device_id = d)); [by left | by right]. }
  unfold device_branch.
  destruct (device_fingerprints self !! device_id) as [fp|] eqn:E; cbn [snd].
  - unfold _update_device_fingerprint. rewrite E.
    cbn [device_fingerprints]. apply Hins.
  - unfold _add_user_device. cbn [device_fingerprints]. apply Hins.
Qed.

Lemma device_branch_single_owner self clock transaction device_id :
  single_owner self →
  single_owner (device_branch self clock transaction device_id).2.
Proof.
  intros Inv d.
  pose proof (device_branch_fingerprints self clock transaction device_id d)
    as Hfp.
  rewrite eq_None_not_Some, Hfp.
  destruct (Inv d) as [Hd1 Hd2]. destruct (Inv device_id) as [Hdev1 Hdev2].
  rewrite eq_None_not_Some in Hd2.
  destruct (decide (d = device_id
                    ∧ device_fingerprints self !! device_id = None))
    as [[-> E0]|Hold].
  - (* a new device: its only user is the caller *)
    split; [intros _|intros []; by right].
    exists (tx_user_id transaction). apply set_eq. intros u.
    rewrite elem_of_device_users, device_branch_linked, elem_of_singleton.
    rewrite <- elem_of_device_users, (Hdev2 E0).
    split; [intros [H|H]|intros ->].
    + by apply not_elem_of_empty in H.
    + by destruct H as (_ & -> & _).
    + by right.
  - (* otherwise the users of [d] are those before the call *)
    assert (Hu : _get_device_users
                   (device_branch self clock transaction device_id).2 d
                 = _get_device_users self d).
    { apply device_users_ext. intros u. rewrite device_branch_linked.
      naive_solver. }
    rewrite Hu.
    assert (d = device_id → is_Some (device_fingerprints self !! d)) as Hk.
    { intros ->. destruct (device_fingerprints self !! device_id) eqn:E;
        [done|]. by destruct Hold. }
    split.
    + intros [H|H]; auto.
    + intros H. apply Hd2. intros H'. apply H. by left.
Qed.

Lemma update_fingerprint_user_devices self now device_id transaction :
  user_devices (_update_device_fingerprint self now device_id transaction)
  = user_devices self.
Proof.
  unfold _update_device_fingerprint.
  by destruct (device_fingerprints self !! device_id).
Qed.

Lemma sharing_risk_single self device_id user_id owner :
  _get_device_users self device_id = {[owner]} →
  _calculate_device_sharing_risk self device_id user_id = 0.0.
Proof.
  intros H. unfold _calculate_device_sharing_risk.
  by rewrite H, size_singleton.
Qed.

Variable hash : string → Z.

Lemma device_analyze_bounds self clock transaction rule score :
  (analyze hash self clock transaction rule).1 = Ok score →
  0 <= score ∧ score <= 1.
Proof.
  unfold analyze. destruct (_ && _).
  { intros [= <-]. lra. }
  destruct (if truthy _ then _ else _) as [device_id|e]; [|done].
  pose proof (device_branch_nonneg self clock transaction device_id) as Hb.
  destruct (device_branch self clock transaction device_id) as [risk self'].
  cbn [fst] in Hb.
  destruct (_calculate_device_velocity self' _ device_id) as [v|e]; [|done].
  cbn [fst]. intros [= <-]. split; [|apply Qmin_le_one].
  apply Qmin_nonneg; [|lra].
  pose proof (sharing_risk_nonneg self' device_id (tx_user_id transaction)).
  case_ifs; lra.
Qed.

(** The object after [analyze] is the one before it or the one
    [device_branch] leaves. *)
Lemma analyze_state self clock transaction rule :
  (analyze hash self clock transaction rule).2 = self ∨
  ∃ device_id,
    (analyze hash self clock transaction rule).2
    = (device_branch self clock transaction device_id).2.
Proof.
  unfold analyze. destruct (_ && _); [by left|].
  destruct (if truthy _ then _ else _) as [d|e]; [|by left].
  right. exists d.
  destruct (device_branch self clock transaction d) as [risk self'].
  by destruct (_calculate_device_velocity self' _ d).
Qed.

(** The invariant of the reverse index. *)
Lemma reachable_single_owner config self :
  reachable hash config self → single_owner self.
Proof.
  induction 1 as [|self clock transaction rule _ IH|self d _ IH].
  - intros d. cbn [init device_fingerprints]. rewrite lookup_empty.
    split; [by intros []|intros _].
    apply set_eq. intros u. rewrite elem_of_device_users. unfold linked.
    cbn [init user_devices]. by rewrite lookup_empty.
  - destruct (analyze_state self clock transaction rule) as [->|(d & ->)];
      [done|]. by apply device_branch_single_owner.
  - intros d'. specialize (IH d'). unfold mark_device_as_trusted.
    destruct (device_fingerprints self !! d) as [fp|] eqn:E; [|done].
    unfold _get_device_users in *. cbn [device_fingerprints user_devices].
    destruct (decide (d = d')) as [->|Hne].
    + rewrite lookup_insert_eq. rewrite E in IH.
      split; [intros _; apply IH; eauto|done].
    + by rewrite lookup_insert_ne.
Qed.

(** [analyze] on a transaction that names a known device. *)
Lemma analyze_known_device self clock transaction rule device_id fp :
  tx_device_id transaction = Some device_id →
  device_id ≠ "" →
  device_fingerprints self !! device_id = Some fp →
  let self' :=
    _update_device_fingerprint self (now_update clock) device_id
      transaction in
  let device_risk :=
    _calculate_device_risk fp
      (_create_fingerprint (now_create clock) transaction device_id) in
  let sharing_risk :=
    _calculate_device_sharing_risk self' device_id (tx_user_id transaction) in
  analyze hash self clock transaction rule =
  match _calculate_device_velocity self' (now_velocity clock) device_id with
  | Raise e => (Raise e, self')
  | Ok device_velocity =>
      (Ok (Qmin
             ((if Qgtb device_velocity
                    (inject_Z (suspicious_device_threshold (config self)))
               then 0.0 + device_risk + 0.4 else 0.0 + device_risk)
              + sharing_risk) 1.0),
       self')
  end.
Proof.
  intros Hd Hne Hfp self' device_risk sharing_risk. unfold analyze.
  assert (Ht : truthy (tx_device_id transaction) = true).
  { rewrite Hd. cbn. by apply negb_true_iff, String.eqb_neq. }
  rewrite Ht. cbn [negb andb]. rewrite Hd. cbn [from_option id].
  unfold device_branch. rewrite Hfp.
  fold self'. fold device_risk.
  assert (Hc : config self' = config self).
  { subst self'. unfold _update_device_fingerprint. by rewrite Hfp. }
  destruct (_calculate_device_velocity self' _ device_id); [|done].
  by rewrite Hc.
Qed.

(** On a known device of a reachable object the outcome does not depend
    on the user who sends the transaction. *)
Lemma known_device_any_user config self clock transaction rule device_id
    user1 user2 :
  reachable hash config self →
  tx_device_id transaction = Some device_id →
  device_id ≠ "" →
  is_Some (device_fingerprints self !! device_id) →
  (analyze hash self clock (set_user_id transaction user1) rule).1
  = (analyze hash self clock (set_user_id transaction user2) rule).1.
Proof.
  intros Hr Hd Hne [fp Hfp].
  rewrite !(analyze_known_device _ _ _ _ device_id fp) by done.
  cbv zeta.
  assert (Hu : ∀ u,
    _update_device_fingerprint self (now_update clock) device_id
      (set_user_id transaction u)
    = _update_device_fingerprint self (now_update clock) device_id
        transaction) by done.
  rewrite !Hu.
  set (self' := _update_device_fingerprint self _ device_id transaction).
  assert (Hs : ∀ u, _calculate_device_sharing_risk self' device_id u = 0.0).
  { intros u. apply reachable_single_owner in Hr.
    destruct (Hr device_id) as [[owner Ho] _]; [by eexists|].
    apply sharing_risk_single with owner.
    unfold _get_device_users in *. subst self'.
    by rewrite update_fingerprint_user_devices. }
  cbn [tx_user_id set_user_id]. rewrite !Hs.
  by destruct (_calculate_device_velocity self' _ device_id).
Qed.

End DeviceFacts.

(** C9.  A pair (user, device) enters the reverse index only in a call of
    that user on a device that has no fingerprint yet.  A call that names a
    known device leaves [user_devices] as it was, whoever the user is; on
    every object the signal can reach the users computed for the device are
    still its one first user, and the sharing risk of the call is [0]. *)
Theorem known_device_never_linked (hash : string → Z)
    (config : DeviceAlgorithm.DeviceConfig) (self : DeviceAlgorithm.t)
    (clock : DeviceAlgorithm.Clock) (transaction : Transaction)
    (rule : DetectionRule) :
  let self' := (DeviceAlgorithm.analyze hash self clock transaction rule).2 in
  (∀ user_id device_id,
     DeviceAlgorithm.linked self' user_id device_id →
     DeviceAlgorithm.linked self user_id device_id ∨
     (user_id = tx_user_id transaction ∧
      DeviceAlgorithm.device_fingerprints self !! device_id = None)) ∧
  (∀ device_id,
     tx_device_id transaction = Some device_id →
     device_id ≠ "" →
     is_Some (DeviceAlgorithm.device_fingerprints self !! device_id) →
     DeviceAlgorithm.user_devices self' = DeviceAlgorithm.user_devices self ∧
     DeviceAlgorithm._get_device_users self' device_id
     = DeviceAlgorithm._get_device_users self device_id ∧
     (DeviceAlgorithm.reachable hash config self →
      ∃ owner,
        DeviceAlgorithm._get_device_users self' device_id = {[owner]} ∧
        DeviceAlgorithm._calculate_device_sharing_risk self' device_id
          (tx_user_id transaction) = 0.0)).
Proof.
  intros self'. split.
  - intros u d. subst self'.
    destruct (analyze_state hash self clock transaction rule)
      as [->|(d' & ->)]; [by left|].
    rewrite device_branch_linked. naive_solver.
  - intros device_id Hd Hne [fp Hfp].
    assert (Hs : self' = DeviceAlgorithm._update_device_fingerprint self
                           (DeviceAlgorithm.now_update clock)
                           device_id transaction).
    { subst self'.
      rewrite (analyze_known_device hash _ _ _ _ _ _ Hd Hne Hfp).
      by destruct (DeviceAlgorithm._calculate_device_velocity _ _ _). }
    assert (Hu : DeviceAlgorithm.user_devices self'
                 = DeviceAlgorithm.user_devices self).
    { rewrite Hs. apply update_fingerprint_user_devices. }
    assert (Hg : DeviceAlgorithm._get_device_users self' device_id
                 = DeviceAlgorithm._get_device_users self device_id).
    { unfold DeviceAlgorithm._get_device_users. by rewrite Hu. }
    split; [done|]. split; [done|].
    intros Hr. apply reachable_single_owner in Hr.
    destruct (Hr device_id) as [[owner Ho] _]; [by eexists|].
    exists owner. rewrite Hg. split; [done|].
    apply sharing_risk_single with owner. by rewrite Hg.
Qed.

Lemma known_device_never_linked_witness :
  let self := Sample.device_after_first_user (fun _ => 0%Z) in
  let self' :=
    (DeviceAlgorithm.analyze (fun _ => 0%Z) self
       (Sample.device_clock 7200000 7200000 7200000)
       (Sample.second_user_transaction "user_002" (Sample.at_second 7200))
       (Sample.rule "device" 0.15 0.8)).2 in
  ∃ owner,
    DeviceAlgorithm._get_device_users self' "shared_device" = {[owner]} ∧
    DeviceAlgorithm._calculate_device_sharing_risk self' "shared_device"
      "user_002" = 0.0.
Proof.
  intros self self'.
  destruct (known_device_never_linked (fun _ => 0%Z)
              FraudDetector.device_config self
              (Sample.device_clock 7200000 7200000 7200000)
              (Sample.second_user_transaction "user_002"
                 (Sample.at_second 7200))
              (Sample.rule "device" 0.15 0.8)) as [_ H].
  destruct (H "shared_device") as (_ & _ & Hr).
  - reflexivity.
  - discriminate.
  - eexists. vm_compute. reflexivity.
  - apply Hr. apply DeviceAlgorithm.reachable_analyze,
      DeviceAlgorithm.reachable_init.
Defined.

(** C7.  What the code does when [user_002] uses the device that
    [user_001] used before.  Two hours later the call returns [0]; a second
    later it returns [0.6], for the rapid reuse and the velocity of the
    device.  Either way the sharing risk is [0] and the call returns what
    it returns when [user_001] makes it. *)
Theorem device_sharing_not_scored (hash : string → Z) :
  let rule := Sample.rule "device" 0.15 0.8 in
  let self := Sample.device_after_first_user hash in
  let later user_id :=
    DeviceAlgorithm.analyze hash self
      (Sample.device_clock 7200000 7200000 7200000)
      (Sample.second_user_transaction user_id (Sample.at_second 7200)) rule in
  let at_once user_id :=
    DeviceAlgorithm.analyze hash self
      (Sample.device_clock 1000 1000 1000)
      (Sample.second_user_transaction user_id (Sample.at_second 1)) rule in
  (∃ r, (later "user_002").1 = Ok r ∧ r == 0) ∧
  (later "user_002").1 = (later "user_001").1 ∧
  DeviceAlgorithm._calculate_device_sharing_risk (later "user_002").2
    "shared_device" "user_002" = 0.0 ∧
  (∃ r, (at_once "user_002").1 = Ok r ∧ r == 0.6) ∧
  (at_once "user_002").1 = (at_once "user_001").1 ∧
  DeviceAlgorithm._calculate_device_sharing_risk (at_once "user_002").2
    "shared_device" "user_002" = 0.0.
Proof.
  cbv zeta. split_and!.
  - eexists. split; vm_compute; reflexivity.
  - vm_compute. reflexivity.
  - vm_compute. reflexivity.
  - eexists. split; vm_compute; reflexivity.
  - vm_compute. reflexivity.
  - vm_compute. reflexivity.
Qed.

(** ** The merchant, behavioral, network and model-based signals *)

Section CappedSignals.
Context {t : Type}.
Variable risk_score : t → Transaction → DetectionRule → result Q * t.

Lemma merchant_analyze_bounds self transaction rule s :
  (MerchantAlgorithm.analyze risk_score self transaction rule).1 = Ok s →
  0 <= s ∧ s <= 1.
Proof.
  unfold MerchantAlgorithm.analyze. destruct (negb _).
  { intros [= <-]. lra. }
  destruct (risk_score self transaction rule) as [[r|e] self']; [|done].
  cbn [fst]. intros [= <-]. split; [apply Q.le_max_l|].
  apply Q.max_lub; [lra|apply Qmin_le_one].
Qed.

Lemma behavioral_analyze_upper self transaction rule s :
  (BehavioralAlgorithm.analyze risk_score self transaction rule).1 = Ok s →
  s <= 1.
Proof.
  unfold BehavioralAlgorithm.analyze.
  destruct (risk_score self transaction rule) as [[r|e] self']; [|done].
  cbn [fst]. intros [= <-]. apply Qmin_le_one.
Qed.

Lemma behavioral_analyze_lower self transaction rule s :
  FraudDetector.not_negative risk_score →
  (BehavioralAlgorithm.analyze risk_score self transaction rule).1 = Ok s →
  0 <= s.
Proof.
  intros H. unfold BehavioralAlgorithm.analyze.
  destruct (risk_score self transaction rule) as [[r|e] self'] eqn:E;
    [|done].
  cbn [fst]. intros [= <-]. apply Qmin_nonneg; [by eapply H|lra].
Qed.

Lemma network_analyze_upper self transaction rule s :
  (NetworkAlgorithm.analyze risk_score self transaction rule).1 = Ok s →
  s <= 1.
Proof.
  unfold NetworkAlgorithm.analyze. destruct (negb _).
  { intros [= <-]. lra. }
  destruct (risk_score self transaction rule) as [[r|e] self']; [|done].
  cbn [fst]. intros [= <-]. apply Qmin_le_one.
Qed.

Lemma network_analyze_lower self transaction rule s :
  FraudDetector.not_negative risk_score →
  (NetworkAlgorithm.analyze risk_score self transaction rule).1 = Ok s →
  0 <= s.
Proof.
  intros H. unfold NetworkAlgorithm.analyze. destruct (negb _).
  { intros [= <-]. lra. }
  destruct (risk_score self transaction rule) as [[r|e] self'] eqn:E;
    [|done].
  cbn [fst]. intros [= <-]. apply Qmin_nonneg; [by eapply H|lra].
Qed.

Lemma convert_anomaly_score_bounds anomaly_score :
  0 <= MLAlgorithm._convert_anomaly_score_to_risk anomaly_score ∧
  MLAlgorithm._convert_anomaly_score_to_risk anomaly_score <= 1.
Proof. unfold MLAlgorithm._convert_anomaly_score_to_risk. case_ifs; lra. Qed.

Lemma ml_analyze_bounds enable_training self transaction rule s :
  (MLAlgorithm.analyze enable_training risk_score self transaction rule).1
  = Ok s →
  0 <= s ∧ s <= 1.
Proof.
  unfold MLAlgorithm.analyze. destruct (negb _).
  { intros [= <-]. lra. }
  destruct (risk_score self transaction rule) as [[r|e] self']; [|done].
  cbn [fst]. intros [= <-].
  pose proof (convert_anomaly_score_bounds r).
  split; [apply Qmin_nonneg; lra|apply Qmin_le_one].
Qed.

End CappedSignals.

(** ** The orchestrator *)

Lemma fold_weighted_le (cs : list (Q * Q)) a b :
  (∀ c, In c cs → c.1 <= 1 ∧ 0 <= c.2) → a <= b →
  fold_left (fun s c => s + c.1 * c.2) cs a
  <= fold_left (fun s c => s + c.2) cs b.
Proof.
  revert a b. induction cs as [|c cs IH]; intros a b H Hab; [done|].
  cbn [fold_left]. apply IH; [intros; apply H; by right|].
  destruct (H c (or_introl eq_refl)). nra.
Qed.

Lemma fold_weighted_nonneg (cs : list (Q * Q)) a :
  (∀ c, In c cs → 0 <= c.1 ∧ 0 <= c.2) → 0 <= a →
  0 <= fold_left (fun s c => s + c.1 * c.2) cs a.
Proof.
  revert a. induction cs as [|c cs IH]; intros a H Ha; [done|].
  cbn [fold_left]. apply IH; [intros; apply H; by right|].
  destruct (H c (or_introl eq_refl)). nra.
Qed.

Lemma aggregate_le_1 cs :
  (∀ c, In c cs → c.1 <= 1 ∧ 0 <= c.2) → FraudDetector.aggregate cs <= 1.
Proof.
  intros H. unfold FraudDetector.aggregate.
  destruct (Qgtb (FraudDetector.weight_sum cs) 0) eqn:E; [|lra].
  apply Qgtb_true in E. apply Qdiv_upper_le; [done|].
  rewrite Qmult_1_l. apply fold_weighted_le; [done|lra].
Qed.

Lemma aggregate_nonneg cs :
  (∀ c, In c cs → 0 <= c.1 ∧ 0 <= c.2) → 0 <= FraudDetector.aggregate cs.
Proof.
  intros H. unfold FraudDetector.aggregate.
  destruct (Qgtb (FraudDetector.weight_sum cs) 0) eqn:E; [|lra].
  apply Qgtb_true in E. apply Qdiv_lower_le; [done|].
  rewrite Qmult_0_l. apply fold_weighted_nonneg; [done|lra].
Qed.

Lemma aggregate_no_weight cs :
  FraudDetector.weight_sum cs <= 0 → FraudDetector.aggregate cs == 0.
Proof.
  intros H. unfold FraudDetector.aggregate.
  destruct (Qgtb (FraudDetector.weight_sum cs) 0) eqn:E; [|reflexivity].
  apply Qgtb_true in E. lra.
Qed.

Lemma aggregate_weight cs :
  0 < FraudDetector.weight_sum cs →
  FraudDetector.aggregate cs
  = FraudDetector.weighted_sum cs / FraudDetector.weight_sum cs.
Proof.
  intros H. unfold FraudDetector.aggregate.
  apply Qgtb_true in H. by rewrite H.
Qed.

Lemma confidence_of_bounds triggered names :
  0 <= FraudDetector.confidence_of triggered names ∧
  FraudDetector.confidence_of triggered names <= 1.
Proof.
  unfold FraudDetector.confidence_of. destruct names as [|n ns]; [lra|].
  split; [|apply Qmin_le_one]. apply Qmin_nonneg; [|lra].
  apply Qdiv_lower_le.
  - apply inject_Z_pos. simpl length. lia.
  - rewrite Qmult_0_l. apply inject_Z_nonneg. lia.
Qed.

Lemma dict_get_split k d v :
  FraudDetector.dict_get k d = Some v →
  ∃ l1 l2, d = l1 ++ (k, v) :: l2 ∧ Forall (fun item => item.1 ≠ k) l1.
Proof.
  induction d as [|[k' v'] d IH]; [done|]. cbn [FraudDetector.dict_get].
  destruct (String.eqb k' k) eqn:E.
  - apply String.eqb_eq in E as ->. intros [= ->]. by exists [], d.
  - apply String.eqb_neq in E. intros H.
    destruct (IH H) as (l1 & l2 & -> & Hl1).
    exists ((k', v') :: l1), l2. split; [done|]. by constructor.
Qed.

Section OrchestratorFacts.
Import FraudDetector.

Context {Merchant Behavioral : Type}.
Context {Network ML : Type}.
Variable merchant_risk :
  Merchant → Transaction → DetectionRule →
  result Q * Merchant.
Variable behavioral_risk :
  Behavioral → Transaction → DetectionRule →
  result Q * Behavioral.
Variable network_risk :
  Network → Transaction → DetectionRule →
  result Q * Network.
Variable ml_anomaly_score :
  ML → Transaction → DetectionRule → result Q * ML.
Variable _calculate_distance : Location → Location → Q.
Variable hash : string → Z.

Local Abbreviation Algs := (@Algorithms Merchant Behavioral Network ML).
Local Abbreviation Detector :=
  (@FraudDetector.t Merchant Behavioral Network ML).

(** The functions of the detector at the parameters of the section. *)
Local Abbreviation algorithms_get :=
  (FraudDetector.algorithms_get merchant_risk behavioral_risk network_risk
     ml_anomaly_score _calculate_distance hash).
Local Abbreviation loop_body :=
  (FraudDetector.loop_body merchant_risk behavioral_risk network_risk
     ml_anomaly_score _calculate_distance hash).
Local Abbreviation call :=
  (FraudDetector.call merchant_risk behavioral_risk network_risk
     ml_anomaly_score _calculate_distance hash).
Local Abbreviation outcomes :=
  (FraudDetector.outcomes merchant_risk behavioral_risk network_risk
     ml_anomaly_score _calculate_distance hash).
Local Abbreviation final_algorithms :=
  (FraudDetector.final_algorithms merchant_risk behavioral_risk
     network_risk ml_anomaly_score _calculate_distance hash).
Local Abbreviation run_rules :=
  (FraudDetector.run_rules merchant_risk behavioral_risk network_risk
     ml_anomaly_score _calculate_distance hash).
Local Abbreviation analyze :=
  (FraudDetector.analyze merchant_risk behavioral_risk network_risk
     ml_anomaly_score _calculate_distance hash).

(** *** The loop and its outcomes *)

Lemma loop_body_call clock transaction acc item :
  loop_body clock transaction acc item =
  match call clock transaction (loop_algorithms acc) item with
  | (Scored score, a) =>
      {| loop_triggered_rules :=
           if Qgeb score (rule_threshold item.2)
           then loop_triggered_rules acc ++ [item.1]
           else loop_triggered_rules acc;
         total_weighted_score :=
           total_weighted_score acc + score * rule_weight item.2;
         total_weight := total_weight acc + rule_weight item.2;
         loop_algorithms := a |}
  | (_, a) =>
      {| loop_triggered_rules := loop_triggered_rules acc;
         total_weighted_score := total_weighted_score acc;
         total_weight := total_weight acc;
         loop_algorithms := a |}
  end.
Proof.
  destruct item as [name rule], acc as [tr tws tw a].
  unfold FraudDetector.loop_body, FraudDetector.call.
  cbn [fst snd loop_algorithms loop_triggered_rules total_weighted_score
       total_weight].
  destruct (rule_enabled rule); cbn [negb]; [|done].
  destruct (algorithms_get name) as [alg|]; [|done].
  by destruct (alg clock transaction rule a) as [[score|e] a'].
Qed.

Lemma fold_loop_body clock transaction rules acc :
  let os := outcomes clock transaction rules (loop_algorithms acc) in
  fold_left (loop_body clock transaction) rules acc =
  {| loop_triggered_rules := loop_triggered_rules acc ++ triggered_of os;
     total_weighted_score :=
       fold_left (fun s c => s + c.1 * c.2) (contributions os)
         (total_weighted_score acc);
     total_weight :=
       fold_left (fun s c => s + c.2) (contributions os) (total_weight acc);
     loop_algorithms :=
       final_algorithms clock transaction rules (loop_algorithms acc) |}.
Proof.
  revert acc. induction rules as [|item rules IH]; intros acc os.
  - subst os. destruct acc. cbn. by rewrite app_nil_r.
  - subst os.
    cbn [fold_left FraudDetector.outcomes FraudDetector.final_algorithms].
    rewrite IH, loop_body_call.
    destruct item as [name rule].
    destruct (call clock transaction (loop_algorithms acc) (name, rule))
      as [[|score|e] a];
      cbn [fst snd loop_algorithms loop_triggered_rules
           total_weighted_score total_weight contributions triggered_of];
      try done.
    destruct (Qgeb score (rule_threshold rule)); [|done].
    by rewrite <- app_assoc.
Qed.

Lemma run_rules_outcomes clock transaction (self : Detector) :
  let os := outcomes clock transaction (rules self) (algorithms self) in
  run_rules clock transaction self =
  {| loop_triggered_rules := triggered_of os;
     total_weighted_score := weighted_sum (contributions os);
     total_weight := weight_sum (contributions os);
     loop_algorithms :=
       final_algorithms clock transaction (rules self) (algorithms self) |}.
Proof.
  intros os. unfold FraudDetector.run_rules. by rewrite fold_loop_body.
Qed.

(** [analyze] returns, and what it returns. *)
Lemma analyze_returns (self : Detector) clock transaction :
  let os := outcomes clock transaction (rules self) (algorithms self) in
  ∃ res,
    analyze self clock transaction =
      (Ok res,
       {| config := config self;
          algorithms :=
            final_algorithms clock transaction (rules self) (algorithms self);
          rules := rules self |}) ∧
    transaction_id res = tx_id transaction ∧
    risk_score res = Qmin (aggregate (contributions os)) 1.0 ∧
    is_fraudulent res =
      Qgeb (aggregate (contributions os))
        (cfg_global_threshold (config self)) ∧
    confidence res
    = confidence_of (triggered_of os) (cfg_rules (config self)) ∧
    triggered_rules res = triggered_of os ∧
    is_Some (recommendations res).
Proof.
  intros os. unfold FraudDetector.analyze.
  rewrite run_rules_outcomes. fold os.
  cbn [loop_triggered_rules total_weighted_score total_weight
       loop_algorithms config].
  assert (Hrisk :
    (if Qgtb (weight_sum (contributions os)) 0
     then fdiv (weighted_sum (contributions os))
               (weight_sum (contributions os))
     else Ok 0.0) = Ok (aggregate (contributions os))).
  { unfold aggregate.
    destruct (Qgtb (weight_sum (contributions os)) 0) eqn:E; [|done].
    apply Qgtb_true in E. apply fdiv_ok. lra. }
  rewrite Hrisk. unfold mbind at 1. unfold result_bind at 1. cbn beta iota.
  assert (Hconf :
    match cfg_rules (config self) with
    | [] => Ok 0.0
    | _ :: _ =>
        fdiv (inject_Z (Z.of_nat (length (triggered_of os))))
             (inject_Z (Z.of_nat (length (cfg_rules (config self)))))
        ≫= λ c : Q, Ok (Qmin c 1.0)
    end = Ok (confidence_of (triggered_of os) (cfg_rules (config self)))).
  { unfold confidence_of.
    destruct (cfg_rules (config self)) as [|n ns] eqn:E; [done|].
    rewrite fdiv_ok; [done|]. apply inject_Z_nonzero. simpl length. lia. }
  rewrite Hconf. unfold mbind, result_bind. cbn beta iota.
  eexists. split; [reflexivity|]. cbn. split_and!; eauto.
Qed.

Lemma outcomes_rules clock transaction rules a :
  map fst (outcomes clock transaction rules a) = rules.
Proof.
  revert a. induction rules as [|item rules IH]; intros a; [done|].
  cbn [FraudDetector.outcomes].
  destruct (call clock transaction a item) as [o a'].
  cbn [map fst]. by rewrite IH.
Qed.

Lemma outcomes_app clock transaction l1 l2 a :
  outcomes clock transaction (l1 ++ l2) a
  = outcomes clock transaction l1 a
    ++ outcomes clock transaction l2 (final_algorithms clock transaction l1 a).
Proof.
  revert a. induction l1 as [|item l1 IH]; intros a; [done|].
  cbn [app FraudDetector.outcomes FraudDetector.final_algorithms].
  destruct (call clock transaction a item) as [o a'].
  cbn [snd app]. by rewrite IH.
Qed.

Lemma contributions_app os1 os2 :
  contributions (os1 ++ os2) = contributions os1 ++ contributions os2.
Proof.
  induction os1 as [|[[name rule] [|s|e]] os1 IH]; cbn; by rewrite ?IH.
Qed.

Lemma triggered_of_app os1 os2 :
  triggered_of (os1 ++ os2) = triggered_of os1 ++ triggered_of os2.
Proof.
  induction os1 as [|[[name rule] [|s|e]] os1 IH]; cbn; rewrite ?IH;
    try done. by destruct (Qgeb _ _).
Qed.

Lemma contributions_In os c :
  In c (contributions os) →
  ∃ name rule score,
    In (name, rule, Scored score) os ∧ c = (score, rule_weight rule).
Proof.
  induction os as [|[[name rule] [|s|e]] os IH]; cbn [contributions];
    [done| | |].
  - intros H. destruct (IH H) as (n & r & sc & Hin & ->).
    exists n, r, sc. split; [by right|done].
  - intros [<-|H].
    + exists name, rule, s. split; [by left|done].
    + destruct (IH H) as (n & r & sc & Hin & ->).
      exists n, r, sc. split; [by right|done].
  - intros H. destruct (IH H) as (n & r & sc & Hin & ->).
    exists n, r, sc. split; [by right|done].
Qed.

(** A rule scores only if it is enabled and a signal is registered under
    its name that returns a score. *)
Lemma call_scored clock transaction a item score a' :
  call clock transaction a item = (Scored score, a') →
  rule_enabled item.2 = true ∧
  ∃ algorithm,
    algorithms_get item.1 = Some algorithm ∧
    algorithm clock transaction item.2 a = (Ok score, a').
Proof.
  unfold FraudDetector.call.
  destruct (rule_enabled item.2); cbn [negb]; [|done].
  destruct (algorithms_get item.1) as [alg|]; [|done].
  destruct (alg clock transaction item.2 a) as [[s|e] a''] eqn:E; [|done].
  intros [= <- <-]. eauto.
Qed.

(** A property of the objects that every call keeps holds of the objects
    each rule of the outcomes is called on. *)
Lemma outcomes_invariant (P : Algs → Prop) clock transaction rules a :
  (∀ a item, P a → P (call clock transaction a item).2) →
  P a →
  ∀ item o,
    In (item, o) (outcomes clock transaction rules a) →
    ∃ a0, P a0 ∧ o = (call clock transaction a0 item).1.
Proof.
  intros Hstep. revert a. induction rules as [|item rules IH];
    intros a Ha it o; [done|].
  cbn [FraudDetector.outcomes].
  destruct (call clock transaction a item) as [o' a'] eqn:E.
  intros [[= <- <-]|Hin].
  - exists a. by rewrite E.
  - apply (IH a'); [|done]. specialize (Hstep a item Ha). by rewrite E in Hstep.
Qed.

Lemma final_invariant (P : Algs → Prop) clock transaction rules a :
  (∀ a item, P a → P (call clock transaction a item).2) →
  P a → P (final_algorithms clock transaction rules a).
Proof.
  intros Hstep. revert a. induction rules as [|item rules IH];
    intros a Ha; [done|].
  cbn [FraudDetector.final_algorithms]. by apply IH, Hstep.
Qed.


(** *** The nine signals *)

Lemma algorithms_get_cases name algorithm :
  algorithms_get name = Some algorithm →
  (name = "velocity" ∧ algorithm = velocity_signal) ∨
  (name = "amount" ∧ algorithm = amount_signal) ∨
  (name = "location" ∧ algorithm = location_signal _calculate_distance) ∨
  (name = "device" ∧ algorithm = device_signal hash) ∨
  (name = "time" ∧ algorithm = time_signal) ∨
  (name = "merchant" ∧ algorithm = merchant_signal merchant_risk) ∨
  (name = "behavioral" ∧ algorithm = behavioral_signal behavioral_risk) ∨
  (name = "network" ∧ algorithm = network_signal network_risk) ∨
  (name = "ml" ∧ algorithm = ml_signal ml_anomaly_score).
Proof.
  unfold FraudDetector.algorithms_get. cbn [list_to_map foldr fst snd uncurry].
  intros H.
  repeat (apply lookup_insert_Some in H as [[<- <-]|[_ H]];
          [by eauto 10|]).
  by rewrite lookup_empty in H.
Qed.

Lemma algorithms_get_velocity :
  algorithms_get "velocity" = Some velocity_signal.
Proof. reflexivity. Qed.

(** Every signal but the velocity signal leaves the velocity object as it
    is. *)
Lemma call_velocity clock transaction a item :
  item.1 ≠ "velocity" →
  velocity (call clock transaction a item).2 = velocity a.
Proof.
  intros Hne. unfold FraudDetector.call.
  destruct (rule_enabled item.2); [|done].
  cbn [negb]. destruct (algorithms_get item.1) as [alg|] eqn:E; [|done].
  apply algorithms_get_cases in E
    as [[? ->]|[[_ ->]|[[_ ->]|[[_ ->]|[[_ ->]|[[_ ->]|[[_ ->]|[[_ ->]|
        [_ ->]]]]]]]]]; [done|..].
  - unfold amount_signal. by destruct (AmountAlgorithm.analyze _ _ _).
  - unfold location_signal.
    by destruct (LocationAlgorithm.analyze _ _ _ _ _ _) as [[?|?] ?].
  - unfold device_signal.
    by destruct (DeviceAlgorithm.analyze _ _ _ _ _) as [[?|?] ?].
  - unfold time_signal.
    by destruct (TimeAlgorithm.analyze _ _ _) as [[?|?] ?].
  - unfold merchant_signal.
    by destruct (MerchantAlgorithm.analyze _ _ _ _) as [[?|?] ?].
  - unfold behavioral_signal.
    by destruct (BehavioralAlgorithm.analyze _ _ _ _) as [[?|?] ?].
  - unfold network_signal.
    by destruct (NetworkAlgorithm.analyze _ _ _ _) as [[?|?] ?].
  - unfold ml_signal.
    by destruct (MLAlgorithm.analyze _ _ _ _ _) as [[?|?] ?].
Qed.

Lemma final_velocity clock transaction rules a :
  Forall (fun item => item.1 ≠ "velocity") rules →
  velocity (final_algorithms clock transaction rules a) = velocity a.
Proof.
  intros H. revert a. induction H as [|item rules Hne _ IH]; intros a;
    [done|].
  cbn [FraudDetector.final_algorithms]. by rewrite IH, call_velocity.
Qed.

(** What a call does to the objects and which score it can return, signal
    by signal. *)
Lemma signal_cases (P : Algs → Prop) (R : Q → Prop) clock transaction
    rule a algorithm name :
  algorithms_get name = Some algorithm →
  (∀ r x,
     VelocityAlgorithm.analyze (velocity a) (velocity_time clock)
       transaction rule = (r, x) →
     P {| velocity := x; amount := amount a; location := location a;
          device := device a; time := time a; merchant := merchant a;
          behavioral := behavioral a; network := network a; ml := ml a |}
     ∧ ∀ s, r = Ok s → R s) →
  (P a ∧ ∀ s, AmountAlgorithm.analyze (amount a) transaction rule = Ok s →
              R s) →
  (∀ r x,
     LocationAlgorithm.analyze _calculate_distance (location a)
       (location_now clock) (location_time clock) transaction rule
     = (r, x) →
     P {| velocity := velocity a; amount := amount a; location := x;
          device := device a; time := time a; merchant := merchant a;
          behavioral := behavioral a; network := network a; ml := ml a |}
     ∧ ∀ s, r = Ok s → R s) →
  (∀ r x,
     DeviceAlgorithm.analyze hash (device a) (device_clock clock)
       transaction rule = (r, x) →
     P {| velocity := velocity a; amount := amount a;
          location := location a; device := x; time := time a;
          merchant := merchant a; behavioral := behavioral a;
          network := network a; ml := ml a |}
     ∧ ∀ s, r = Ok s → R s) →
  (∀ r x,
     TimeAlgorithm.analyze (time a) transaction rule = (r, x) →
     P {| velocity := velocity a; amount := amount a;
          location := location a; device := device a; time := x;
          merchant := merchant a; behavioral := behavioral a;
          network := network a; ml := ml a |}
     ∧ ∀ s, r = Ok s → R s) →
  (∀ r x,
     MerchantAlgorithm.analyze merchant_risk (merchant a) transaction rule
     = (r, x) →
     P {| velocity := velocity a; amount := amount a;
          location := location a; device := device a; time := time a;
          merchant := x; behavioral := behavioral a;
          network := network a; ml := ml a |}
     ∧ ∀ s, r = Ok s → R s) →
  (∀ r x,
     BehavioralAlgorithm.analyze behavioral_risk (behavioral a) transaction
       rule = (r, x) →
     P {| velocity := velocity a; amount := amount a;
          location := location a; device := device a; time := time a;
          merchant := merchant a; behavioral := x;
          network := network a; ml := ml a |}
     ∧ ∀ s, r = Ok s → R s) →
  (∀ r x,
     NetworkAlgorithm.analyze network_risk (network a) transaction rule
     = (r, x) →
     P {| velocity := velocity a; amount := amount a;
          location := location a; device := device a; time := time a;
          merchant := merchant a; behavioral := behavioral a;
          network := x; ml := ml a |}
     ∧ ∀ s, r = Ok s → R s) →
  (∀ r x,
     MLAlgorithm.analyze ml_enable_training ml_anomaly_score (ml a)
       transaction rule = (r, x) →
     P {| velocity := velocity a; amount := amount a;
          location := location a; device := device a; time := time a;
          merchant := merchant a; behavioral := behavioral a;
          network := network a; ml := x |}
     ∧ ∀ s, r = Ok s → R s) →
  P (algorithm clock transaction rule a).2 ∧
  ∀ s, (algorithm clock transaction rule a).1 = Ok s → R s.
Proof.
  intros E Hv Ha Hl Hd Ht Hm Hb Hn Hml.
  apply algorithms_get_cases in E
    as [[_ ->]|[[_ ->]|[[_ ->]|[[_ ->]|[[_ ->]|[[_ ->]|[[_ ->]|[[_ ->]|
        [_ ->]]]]]]]]].
  - unfold velocity_signal.
    destruct (VelocityAlgorithm.analyze _ _ _ _) as [r x] eqn:Er.
    by apply Hv.
  - unfold amount_signal. cbn [fst snd]. done.
  - unfold location_signal.
    destruct (LocationAlgorithm.analyze _ _ _ _ _ _) as [r x] eqn:Er.
    by apply Hl.
  - unfold device_signal.
    destruct (DeviceAlgorithm.analyze _ _ _ _ _) as [r x] eqn:Er.
    by apply Hd.
  - unfold time_signal.
    destruct (TimeAlgorithm.analyze _ _ _) as [r x] eqn:Er. by apply Ht.
  - unfold merchant_signal.
    destruct (MerchantAlgorithm.analyze _ _ _ _) as [r x] eqn:Er.
    by apply Hm.
  - unfold behavioral_signal.
    destruct (BehavioralAlgorithm.analyze _ _ _ _) as [r x] eqn:Er.
    by apply Hb.
  - unfold network_signal.
    destruct (NetworkAlgorithm.analyze _ _ _ _) as [r x] eqn:Er.
    by apply Hn.
  - unfold ml_signal.
    destruct (MLAlgorithm.analyze _ _ _ _ _) as [r x] eqn:Er.
    by apply Hml.
Qed.

(** The same for a rule of the registry. *)
Lemma call_cases (P : Algs → Prop) (R : Q → Prop) clock transaction a item :
  P a →
  (∀ algorithm,
     algorithms_get item.1 = Some algorithm →
     P (algorithm clock transaction item.2 a).2 ∧
     ∀ s, (algorithm clock transaction item.2 a).1 = Ok s → R s) →
  P (call clock transaction a item).2 ∧
  ∀ s, (call clock transaction a item).1 = Scored s → R s.
Proof.
  intros Ha H. unfold FraudDetector.call.
  destruct (rule_enabled item.2); cbn [negb]; [|by split].
  destruct (algorithms_get item.1) as [alg|]; [|by split].
  destruct (H alg eq_refl) as [HP HR].
  destruct (alg clock transaction item.2 a) as [[s|e] a']; cbn [fst snd] in *.
  - split; [done|]. intros s' [= <-]. by apply HR.
  - by split.
Qed.

(** *** Scores are at most [1] *)

Lemma call_upper clock transaction (a : Algs) item :
  initialized a →
  initialized (call clock transaction a item).2 ∧
  ∀ s, (call clock transaction a item).1 = Scored s → s <= 1.
Proof.
  intros Hi. apply (call_cases initialized (fun s => s <= 1)); [done|].
  intros alg E. destruct Hi as (Hv & Ha & Ht).
  apply (signal_cases initialized (fun s => s <= 1) _ _ _ _ _ _ E).
  - intros r x Er. split.
    + split_and!; cbn [velocity amount time]; [|done..].
      rewrite <- Hv.
      change x with (r, x).2. rewrite <- Er.
      apply analyze_config.
    + intros s ->. eapply analyze_upper. by rewrite Er.
  - split; [done|]. intros s. rewrite Ha. unfold AmountAlgorithm.analyze.
    intros Hs. eapply band_upper; [| |by apply score_band, Hs]; done.
  - intros r x Er. split; [done|].
    intros s ->.
    assert (s = 0.0) as ->; [|lra].
    eapply location_analyze_score. by rewrite Er.
  - intros r x Er. split; [done|].
    intros s ->. eapply device_analyze_bounds. by rewrite Er.
  - intros r x Er. split.
    + split_and!; cbn [velocity amount time]; [done..|].
      rewrite <- Ht. change x with (r, x).2. by rewrite <- Er.
    + intros s ->. eapply time_analyze_bounds; [..|by rewrite Er];
        rewrite Ht; cbn; lra.
  - intros r x Er. split; [done|]. intros s ->.
    eapply merchant_analyze_bounds. by rewrite Er.
  - intros r x Er. split; [done|]. intros s ->.
    eapply behavioral_analyze_upper. by rewrite Er.
  - intros r x Er. split; [done|]. intros s ->.
    eapply network_analyze_upper. by rewrite Er.
  - intros r x Er. split; [done|]. intros s ->.
    eapply ml_analyze_bounds. by rewrite Er.
Qed.

Lemma outcomes_upper clock transaction rules (a : Algs) item s :
  initialized a →
  In (item, Scored s) (outcomes clock transaction rules a) → s <= 1.
Proof.
  intros Hi Hin.
  destruct (outcomes_invariant initialized clock transaction rules a)
    with (item := item) (o := Scored s) as (a0 & H0 & E); [|done..|].
  - intros a' it Ha'. by apply call_upper.
  - eapply call_upper; [exact H0|]. by rewrite <- E.
Qed.


(** *** Scores are not negative *)

Lemma default_multiplier_nonneg currency :
  0 <= default 1.0
         (AmountAlgorithm.config_currency_multipliers
            (AmountAlgorithm.init amount_config) !! currency).
Proof.
  cbn [AmountAlgorithm.init AmountAlgorithm.config_currency_multipliers
       AmountAlgorithm.currency_multipliers amount_config list_to_map foldr
       fst snd uncurry].
  destruct (_ !! currency) as [m|] eqn:E; cbn [from_option id]; [|lra].
  repeat (apply lookup_insert_Some in E as [[_ <-]|[_ E]]; [lra|]).
  by rewrite lookup_empty in E.
Qed.

Lemma amount_analyze_lower transaction rule s :
  0 <= tx_amount transaction →
  AmountAlgorithm.analyze (AmountAlgorithm.init amount_config) transaction
    rule = Ok s →
  0 <= s.
Proof.
  intros Hamt Hs. unfold AmountAlgorithm.analyze in Hs.
  eapply band_lower; [| | |by apply score_band, Hs]; [done..|].
  unfold AmountAlgorithm.normalized_amount.
  pose proof (default_multiplier_nonneg
                (str_or (Some (tx_currency transaction)) "USD")). nra.
Qed.

Section Lower.
Hypothesis behavioral_lower : not_negative behavioral_risk.
Hypothesis network_lower : not_negative network_risk.

Lemma call_lower clock transaction (a : Algs) item :
  0 <= tx_amount transaction →
  ready a →
  ready (call clock transaction a item).2 ∧
  ∀ s, (call clock transaction a item).1 = Scored s → 0 <= s.
Proof.
  intros Hamt Hr. apply (call_cases (@ready _ _ _ _) (fun s => 0 <= s)); [done|].
  intros alg E. destruct Hr as [(Hv & Ha & Ht) Hh].
  apply (signal_cases (@ready _ _ _ _) (fun s => 0 <= s) _ _ _ _ _ _ E).
  - intros r x Er.
    assert (Ex : x = (VelocityAlgorithm.analyze (velocity a)
                        (velocity_time clock) transaction item.2).2)
      by by rewrite Er.
    split; [split|].
    + split_and!; cbn [velocity amount time]; [|done..].
      rewrite <- Hv, Ex. apply analyze_config.
    + intros u h tx. cbn [velocity]. rewrite Ex. intros Hu Hin.
      destruct (analyze_history _ _ _ _ _ _ _ Hu Hin)
        as [->|(h0 & Hh0 & Hin0)]; [done|].
      by apply (Hh u h0).
    + intros s ->. eapply analyze_lower; [..|by rewrite Er].
      * by rewrite Hv.
      * by rewrite Hv.
      * done.
      * intros h tx. apply Hh.
  - split; [done|]. intros s. rewrite Ha. by apply amount_analyze_lower.
  - intros r x Er. split; [done|].
    intros s ->. assert (s = 0.0) as ->; [|lra].
    eapply location_analyze_score. by rewrite Er.
  - intros r x Er. split; [done|].
    intros s ->. eapply device_analyze_bounds. by rewrite Er.
  - intros r x Er. split; [split|].
    + split_and!; cbn [velocity amount time]; [done..|].
      rewrite <- Ht. change x with (r, x).2. by rewrite <- Er.
    + done.
    + intros s ->. eapply time_analyze_bounds; [..|by rewrite Er];
        rewrite Ht; cbn; lra.
  - intros r x Er. split; [done|]. intros s ->.
    eapply merchant_analyze_bounds. by rewrite Er.
  - intros r x Er. split; [done|]. intros s ->.
    eapply behavioral_analyze_lower; [exact behavioral_lower|].
    by rewrite Er.
  - intros r x Er. split; [done|]. intros s ->.
    eapply network_analyze_lower; [exact network_lower|]. by rewrite Er.
  - intros r x Er. split; [done|]. intros s ->.
    eapply ml_analyze_bounds. by rewrite Er.
Qed.

Lemma outcomes_lower clock transaction rules (a : Algs) item s :
  0 <= tx_amount transaction →
  ready a →
  In (item, Scored s) (outcomes clock transaction rules a) → 0 <= s.
Proof.
  intros Hamt Hr Hin.
  destruct (outcomes_invariant (@ready _ _ _ _) clock transaction rules a)
    with (item := item) (o := Scored s) as (a0 & H0 & E); [|done..|].
  - intros a' it Ha'. by apply call_lower.
  - eapply call_lower; [done|exact H0|]. by rewrite <- E.
Qed.

(** The two invariants hold of a new detector and after every call on
    a transaction whose amount is not negative. *)
Lemma init_ready config current_year (merchant0 : Merchant)
    (behavioral0 : Behavioral) (network0 : Network)
    (ml0 : ML) :
  ready (algorithms (init config current_year merchant0 behavioral0
                       network0 ml0)).
Proof. split; [by split_and!|]. intros u h tx Hu. by cbn in Hu. Qed.

Lemma analyze_ready (self : Detector) clock transaction :
  0 <= tx_amount transaction →
  ready (algorithms self) →
  ready (algorithms (analyze self clock transaction).2).
Proof.
  intros Hamt Hr.
  destruct (analyze_returns self clock transaction) as (res & -> & _).
  cbn [snd algorithms]. apply (final_invariant (@ready _ _ _ _)); [|done].
  intros a item Ha. by apply call_lower.
Qed.
End Lower.

(** *** The statements about [analyze] *)

Lemma scored_enabled clock transaction rules (a : Algs) item s :
  In (item, Scored s) (outcomes clock transaction rules a) →
  rule_enabled item.2 = true.
Proof.
  intros Hin.
  destruct (outcomes_invariant (fun _ => True) clock transaction rules a)
    with (item := item) (o := Scored s) as (a0 & _ & E); [done..|].
  destruct (call clock transaction a0 item) as [o a'] eqn:Ec.
  cbn [fst] in E. subst o. by apply call_scored in Ec as [? _].
Qed.

Lemma outcomes_In clock transaction rules (a : Algs) item o :
  In (item, o) (outcomes clock transaction rules a) → In item rules.
Proof.
  intros Hin. rewrite <- (outcomes_rules clock transaction rules a).
  apply in_map_iff. by exists (item, o).
Qed.

Lemma contributions_bounds (P : Q → Prop) clock transaction (self : Detector)
    c :
  Forall (fun item => 0 <= rule_weight item.2) (rules self) →
  (∀ item s,
     In (item, Scored s)
        (outcomes clock transaction (rules self) (algorithms self)) → P s) →
  In c (contributions
          (outcomes clock transaction (rules self) (algorithms self))) →
  P c.1 ∧ 0 <= c.2.
Proof.
  intros Hw HP Hc.
  apply contributions_In in Hc as (name & rule & s & Hin & ->).
  cbn [fst snd]. split; [by apply (HP (name, rule))|].
  rewrite Forall_forall in Hw.
  apply (Hw (name, rule)), list_elem_of_In. by eapply outcomes_In.
Qed.


(** C1.  For a detector whose weights are not negative and whose
    amount signal is configured as the constructor configures it, the
    risk score that [analyze] returns is [Σ(score·weight) / Σ(weight)]
    over the rules that scored, which are enabled rules whose signal
    returned, when that sum of weights is positive; it is [0] when the
    sum of weights is not positive.  (Every signal returns at most [1],
    so the final_algorithms [min(risk_score, 1.0)] changes nothing.) *)
Theorem aggregate_is_weighted_average (self : Detector) (clock : Clock)
    (transaction : Transaction) :
  initialized (algorithms self) →
  Forall (fun item => 0 <= rule_weight item.2) (rules self) →
  let os := outcomes clock transaction (rules self) (algorithms self) in
  let cs := contributions os in
  map fst os = rules self ∧
  (∀ item score, In (item, Scored score) os → rule_enabled item.2 = true) ∧
  ∃ result,
    (analyze self clock transaction).1 = Ok result ∧
    (0 < weight_sum cs →
     risk_score result == weighted_sum cs / weight_sum cs) ∧
    (weight_sum cs <= 0 → risk_score result == 0).
Proof.
  intros Hi Hw os cs. split_and!.
  - apply outcomes_rules.
  - intros item s. apply scored_enabled.
  - destruct (analyze_returns self clock transaction)
      as (res & E & _ & Hrisk & _).
    exists res. rewrite E. split; [done|]. rewrite Hrisk. fold os cs.
    assert (Hle : aggregate cs <= 1).
    { apply aggregate_le_1. intros c Hc.
      apply (contributions_bounds (fun s => s <= 1) clock transaction self);
        [done| |done].
      intros item s. by apply outcomes_upper. }
    split.
    + intros Hpos. rewrite <- (aggregate_weight cs Hpos).
      apply Qmin_id. lra.
    + intros Hzero. rewrite Qmin_id by lra. by apply aggregate_no_weight.
Qed.

(** C2.  [analyze] returns a result for every detector, clock and
    transaction: the result carries the transaction's identifier, a risk
    score that is the aggregate over the rules that scored, capped at
    [1], a confidence in [0, 1], the rules that triggered, and
    recommendations.  An iteration of the loop whose signal raises
    leaves the sums and the triggered rules as they were, and a rule
    that failed can be taken out of the outcomes without changing the
    contributions. *)
Theorem analyze_never_raises (self : Detector) (clock : Clock)
    (transaction : Transaction) :
  let os := outcomes clock transaction (rules self) (algorithms self) in
  (∃ result,
     (analyze self clock transaction).1 = Ok result ∧
     transaction_id result = tx_id transaction ∧
     risk_score result = Qmin (aggregate (contributions os)) 1.0 ∧
     risk_score result <= 1 ∧
     0 <= confidence result ∧ confidence result <= 1 ∧
     triggered_rules result = triggered_of os ∧
     is_Some (recommendations result)) ∧
  (∀ acc rule_name rule algorithm error a,
     rule_enabled rule = true →
     algorithms_get rule_name = Some algorithm →
     algorithm clock transaction rule (loop_algorithms acc)
     = (Raise error, a) →
     let acc' := loop_body clock transaction acc (rule_name, rule) in
     total_weighted_score acc' = total_weighted_score acc ∧
     total_weight acc' = total_weight acc ∧
     loop_triggered_rules acc' = loop_triggered_rules acc ∧
     loop_algorithms acc' = a) ∧
  (∀ os1 item error os2,
     os = os1 ++ (item, Failed error) :: os2 →
     contributions os = contributions (os1 ++ os2) ∧
     triggered_of os = triggered_of (os1 ++ os2)).
Proof.
  intros os. split_and!.
  - destruct (analyze_returns self clock transaction)
      as (res & E & Hid & Hrisk & _ & Hconf & Htr & Hrec).
    exists res. rewrite E. split_and!; try done.
    + rewrite Hrisk. apply Qmin_le_one.
    + rewrite Hconf. apply confidence_of_bounds.
    + rewrite Hconf. apply confidence_of_bounds.
  - intros acc name rule alg e a He Hg Ha. unfold FraudDetector.loop_body.
    by rewrite He, Hg, Ha.
  - intros os1 [name rule] e os2 ->.
    by rewrite !contributions_app, !triggered_of_app.
Qed.

(** Where the lower bound of the risk score holds.  For a detector in the
    state its constructor and its calls leave it in, a transaction whose
    amount is not negative, weights that are not negative and risk sums
    of the behavioral and network signals that are not negative, the risk
    score of the result lies in [0, 1].  The
    confidence lies in [0, 1] and is
    [min(triggered_count / configured_rule_count, 1.0)], where the
    triggered rules are the rules whose score met or exceeded their
    threshold; it is [0] when no rule name is configured. *)
Theorem score_and_confidence_bounds (self : Detector) (clock : Clock)
    (transaction : Transaction) :
  ready (algorithms self) →
  0 <= tx_amount transaction →
  Forall (fun item => 0 <= rule_weight item.2) (rules self) →
  not_negative behavioral_risk →
  not_negative network_risk →
  let os := outcomes clock transaction (rules self) (algorithms self) in
  ∃ result,
    (analyze self clock transaction).1 = Ok result ∧
    0 <= risk_score result ∧ risk_score result <= 1 ∧
    0 <= confidence result ∧ confidence result <= 1 ∧
    triggered_rules result = triggered_of os ∧
    (cfg_rules (config self) ≠ [] →
     confidence result
     = Qmin (inject_Z (Z.of_nat (length (triggered_rules result)))
             / inject_Z (Z.of_nat (length (cfg_rules (config self)))))
         1.0) ∧
    (cfg_rules (config self) = [] → confidence result = 0.0).
Proof.
  intros Hr Hamt Hw Hb Hn os.
  destruct (analyze_returns self clock transaction)
    as (res & E & _ & Hrisk & _ & Hconf & Htr & _).
  exists res. rewrite E. fold os in Hrisk, Hconf, Htr.
  split_and!; try done.
  - rewrite Hrisk. apply Qmin_nonneg; [|lra].
    apply aggregate_nonneg. intros c Hc.
    apply (contributions_bounds (fun s => 0 <= s) clock transaction self);
      [done| |done].
    intros item s. by apply outcomes_lower.
  - rewrite Hrisk. apply Qmin_le_one.
  - rewrite Hconf. apply confidence_of_bounds.
  - rewrite Hconf. apply confidence_of_bounds.
  - intros Hne. rewrite Hconf, Htr. unfold confidence_of.
    by destruct (cfg_rules (config self)).
  - intros Hnil. rewrite Hconf. unfold confidence_of. by rewrite Hnil.
Qed.

(** The velocity signal in the scenario of a burst, with [max_amount > 0]
    and a next transaction of amount [a >= 0]: the count risk is [1], so
    the signal returns [(1 + min((1000 + a) / max_amount, 1)) / 2], which
    is at least [0.5], and at least [0.6] under the detector's
    [max_amount = 5000].  In a detector whose velocity rule is enabled, the
    rule is triggered whenever its threshold is at most that score. *)
Theorem burst_contribution (self : VelocityAlgorithm.t)
    (transaction : Transaction) :
  VelocityAlgorithm.burst self transaction →
  0 < VelocityAlgorithm.max_amount (VelocityAlgorithm.config self) →
  0 <= tx_amount transaction →
  ∃ r,
    (∀ time_now rule,
       (VelocityAlgorithm.analyze self time_now transaction rule).1 = Ok r)
    ∧
    r == (1 + Qmin ((1000 + tx_amount transaction)
                    / VelocityAlgorithm.max_amount
                        (VelocityAlgorithm.config self)) 1.0) / 2 ∧
    0.5 <= r ∧
    (VelocityAlgorithm.max_amount (VelocityAlgorithm.config self) == 5000 →
     0.6 <= r) ∧
    (∀ (detector : Detector) clock rule,
       velocity (algorithms detector) = self →
       dict_get "velocity" (rules detector) = Some rule →
       rule_enabled rule = true →
       rule_threshold rule <= r →
       ∃ result,
         (analyze detector clock transaction).1 = Ok result ∧
         In "velocity" (triggered_rules result)).
Proof.
  intros (Hwin & Hmax & h & Hh & Hlen & Hall) HM Hamt.
  set (M := VelocityAlgorithm.max_amount (VelocityAlgorithm.config self))
    in *.
  assert (Hrecent : VelocityAlgorithm.recent_transactions self
                      (tx_user_id transaction) (tx_timestamp transaction)
                    = Ok h).
  { rewrite recent_transactions_same_kind; rewrite Hh; cbn [from_option id].
    - f_equal. apply forallb_filter_id.
      apply forallb_forall. intros tx Htx. apply Qle_bool_iff.
      destruct (Hall tx Htx) as (_ & _ & _ & Hage). rewrite Hwin.
      change (inject_Z (60 * 60 * 1000)) with 3600000. lra.
    - apply Forall_forall. intros tx Htx. apply Hall.
      by apply list_elem_of_In. }
  assert (Hsum : VelocityAlgorithm.sum_amounts h == 1000).
  { unfold VelocityAlgorithm.sum_amounts.
    rewrite (fold_Qplus_const _ 100).
    - rewrite length_map, Hlen. reflexivity.
    - intros x Hx. apply in_map_iff in Hx as (tx & <- & Htx).
      by apply Hall. }
  assert (Hcount : Qmin (inject_Z (Z.of_nat (length h) + 1)
                         / inject_Z (VelocityAlgorithm.max_transactions
                                       (VelocityAlgorithm.config self))) 1.0
                   == 1).
  { rewrite Hlen, Hmax. reflexivity. }
  set (q := (1000 + tx_amount transaction) / M).
  assert (Hq : (VelocityAlgorithm.sum_amounts h + tx_amount transaction)
               / M == q).
  { subst q. by rewrite Hsum. }
  assert (Hq0 : 0 <= q).
  { subst q. apply Qdiv_lower_le; [done|]. lra. }
  destruct (analyze_score self 0 transaction
              (Sample.rule "velocity" 0.15 0.8) h Hrecent)
    as (r & Er & Hr).
  { rewrite Hmax. lia. }
  { fold M. lra. }
  fold M in Hr. rewrite Hcount, Hq in Hr.
  assert (Eall : ∀ time_now rule,
            (VelocityAlgorithm.analyze self time_now transaction rule).1
            = Ok r).
  { intros time_now rule. rewrite <- Er.
    unfold VelocityAlgorithm.analyze, mbind, result_bind.
    destruct (VelocityAlgorithm.recent_transactions _ _ _); [|done].
    destruct (fdiv _ _); [|done]. by destruct (fdiv _ _). }
  exists r. split_and!.
  - done.
  - done.
  - rewrite Hr, Qhalf. pose proof (Qmin_nonneg q 1.0 Hq0 ltac:(lra)). lra.
  - intros HM5. rewrite Hr, Qhalf.
    assert (0.2 <= q).
    { subst q. apply Qdiv_lower_le; [done|]. rewrite HM5. lra. }
    assert (0.2 <= Qmin q 1.0) by (apply Q.min_glb; lra). lra.
  - intros detector clock rule Hvel Hget Hen Hthr.
    destruct (analyze_returns detector clock transaction)
      as (res & E & _ & _ & _ & _ & Htr & _).
    exists res. rewrite E. split; [done|]. rewrite Htr.
    apply dict_get_split in Hget as (l1 & l2 & -> & Hl1).
    rewrite outcomes_app, triggered_of_app. apply in_or_app. right.
    cbn [FraudDetector.outcomes].
    set (a1 := final_algorithms clock transaction l1 (algorithms detector)).
    assert (Hv1 : velocity a1 = self).
    { subst a1. by rewrite final_velocity. }
    assert (Ec : (call clock transaction a1 ("velocity", rule)).1
                 = Scored r).
    { unfold FraudDetector.call. cbn [fst snd]. rewrite Hen. cbn [negb].
      rewrite algorithms_get_velocity. unfold velocity_signal.
      rewrite Hv1.
      pose proof (Er2 := Eall (velocity_time clock) rule).
      destruct (VelocityAlgorithm.analyze self _ transaction rule)
        as [r0 x]. cbn [fst] in Er2. by subst r0. }
    destruct (call clock transaction a1 ("velocity", rule)) as [o a2].
    cbn [fst] in Ec. subst o. cbn [triggered_of].
    apply Qgeb_true in Hthr. rewrite Hthr. by left.
Qed.

End OrchestratorFacts.

(** ** The statements at the sample data *)

Lemma constant_signal_not_negative score :
  0 <= score → FraudDetector.not_negative (Sample.constant_signal score).
Proof. intros H self transaction rule s self' [= <- _]. exact H. Defined.

Lemma sample_weights :
  Forall (fun item : string * DetectionRule => 0 <= rule_weight item.2)
    (FraudDetector.rules Sample.detector).
Proof. repeat constructor; vm_compute; discriminate. Defined.

Lemma sample_burst :
  VelocityAlgorithm.burst Sample.velocity_after_ten
    Sample.eleventh_transaction.
Proof.
  split; [reflexivity|]. split; [reflexivity|].
  eexists. split; [vm_compute; reflexivity|]. split; [reflexivity|].
  intros tx Hin.
  repeat (destruct Hin as [<-|Hin];
          [split_and!; vm_compute; (reflexivity || discriminate)|]).
  destruct Hin.
Defined.

Lemma aggregate_is_weighted_average_witness :
  let os :=
    FraudDetector.outcomes (Sample.constant_signal 0.5)
      (Sample.constant_signal 0.5) (Sample.constant_signal 0.5)
      (Sample.constant_signal 0.5) (fun _ _ => 0) (fun _ => 0%Z)
      (Sample.clock 0) Sample.high_amount_transaction
      (FraudDetector.rules Sample.detector)
      (FraudDetector.algorithms Sample.detector) in
  let cs := FraudDetector.contributions os in
  ∃ result,
    (FraudDetector.analyze (Sample.constant_signal 0.5)
       (Sample.constant_signal 0.5) (Sample.constant_signal 0.5)
       (Sample.constant_signal 0.5) (fun _ _ => 0) (fun _ => 0%Z)
       Sample.detector (Sample.clock 0) Sample.high_amount_transaction).1
    = Ok result ∧
    (0 < FraudDetector.weight_sum cs →
     risk_score result
     == FraudDetector.weighted_sum cs / FraudDetector.weight_sum cs) ∧
    (FraudDetector.weight_sum cs <= 0 → risk_score result == 0).
Proof.
  refine (proj2 (proj2 (aggregate_is_weighted_average
    (Sample.constant_signal 0.5) (Sample.constant_signal 0.5)
    (Sample.constant_signal 0.5) (Sample.constant_signal 0.5)
    (fun _ _ => 0) (fun _ => 0%Z) Sample.detector (Sample.clock 0)
    Sample.high_amount_transaction _ _))).
  - split_and!; reflexivity.
  - exact sample_weights.
Defined.

Lemma score_and_confidence_bounds_witness :
  ∃ result,
    (FraudDetector.analyze (Sample.constant_signal 0.5)
       (Sample.constant_signal 0.5) (Sample.constant_signal 0.5)
       (Sample.constant_signal 0.5) (fun _ _ => 0) (fun _ => 0%Z)
       Sample.detector (Sample.clock 0) Sample.high_amount_transaction).1
    = Ok result ∧
    0 <= risk_score result ∧ risk_score result <= 1 ∧
    0 <= confidence result ∧ confidence result <= 1.
Proof.
  destruct (score_and_confidence_bounds
    (Sample.constant_signal 0.5) (Sample.constant_signal 0.5)
    (Sample.constant_signal 0.5) (Sample.constant_signal 0.5)
    (fun _ _ => 0) (fun _ => 0%Z) Sample.detector (Sample.clock 0)
    Sample.high_amount_transaction)
    as (result & E & H1 & H2 & H3 & H4 & _).
  - split; [split_and!; reflexivity|]. intros u h tx Hu.
    vm_compute in Hu. discriminate.
  - vm_compute. discriminate.
  - exact sample_weights.
  - apply constant_signal_not_negative. vm_compute. discriminate.
  - apply constant_signal_not_negative. vm_compute. discriminate.
  - exists result. by split_and!.
Defined.

(** The scenario of a burst at the sample data: with the detector's
    [max_amount = 5000] the eleventh transaction of $100 scores [0.61], and
    the velocity rule is triggered once its threshold is lowered to
    [0.6]. *)
Lemma burst_contribution_witness :
  ∃ r,
    (∀ time_now rule,
       (VelocityAlgorithm.analyze Sample.velocity_after_ten time_now
          Sample.eleventh_transaction rule).1 = Ok r) ∧
    r == 0.61 ∧
    ∃ result,
      (FraudDetector.analyze (Sample.constant_signal 0.5)
         (Sample.constant_signal 0.5) (Sample.constant_signal 0.5)
         (Sample.constant_signal 0.5) (fun _ _ => 0) (fun _ => 0%Z)
         (FraudDetector.update_threshold Sample.detector_after_ten
            "velocity" 0.6)
         (Sample.clock 600) Sample.eleventh_transaction).1 = Ok result ∧
      In "velocity" (triggered_rules result).
Proof.
  destruct (burst_contribution
    (Sample.constant_signal 0.5) (Sample.constant_signal 0.5)
    (Sample.constant_signal 0.5) (Sample.constant_signal 0.5)
    (fun _ _ => 0) (fun _ => 0%Z) Sample.velocity_after_ten
    Sample.eleventh_transaction)
    as (r & Hall & Hr & _ & _ & Htrig).
  - exact sample_burst.
  - vm_compute. reflexivity.
  - vm_compute. discriminate.
  - assert (Er : r == 0.61).
    { rewrite Hr. vm_compute. reflexivity. }
    exists r. split; [exact Hall|]. split; [exact Er|].
    apply (Htrig
      (FraudDetector.update_threshold Sample.detector_after_ten
         "velocity" 0.6)
      (Sample.clock 600)
      (set_threshold (Sample.rule "velocity" 0.15 0.8) 0.6)).
    + reflexivity.
    + vm_compute. reflexivity.
    + reflexivity.
    + rewrite Er. vm_compute. discriminate.
Defined.

(** C5.  The code at the scenario of the specification and at the test
    of the repository for it.  After ten transactions of $100 within the hour, in
    the detector of the tests ([max_transactions = 10], [max_amount = 5000],
    threshold [0.8] for the velocity rule), the eleventh transaction of
    $100 gets the velocity score [(1 + 1100/5000) / 2 = 0.61], below
    [0.95] and below the threshold, and no rule is triggered.  In
    [test_velocity_detection], fifteen such transactions and then
    [tx_final], the score of [tx_final] is [(1 + 1600/5000) / 2 = 0.66] and
    the list of triggered rules is empty, where the test asserts that
    'velocity' is in it. *)
Theorem burst_rule_not_triggered :
  let analyze :=
    FraudDetector.analyze (Sample.constant_signal 0.5)
      (Sample.constant_signal 0.5) (Sample.constant_signal 0.5)
      (Sample.constant_signal 0.5) (fun _ _ => 0) (fun _ => 0%Z) in
  let velocity_of (detector : @FraudDetector.t unit unit unit unit) :=
    FraudDetector.velocity (FraudDetector.algorithms detector) in
  (VelocityAlgorithm.burst Sample.velocity_after_ten
     Sample.eleventh_transaction ∧
   ∃ r result,
     (VelocityAlgorithm.analyze Sample.velocity_after_ten
        (FraudDetector.velocity_time (Sample.clock 600))
        Sample.eleventh_transaction (Sample.rule "velocity" 0.15 0.8)).1
     = Ok r ∧
     r == 0.61 ∧ r < 0.95 ∧ r < 0.8 ∧
     (analyze Sample.detector_after_ten (Sample.clock 600)
        Sample.eleventh_transaction).1 = Ok result ∧
     triggered_rules result = []) ∧
  let detector := Sample.after Sample.detector (Sample.burst_transactions 15) in
  ∃ r result,
    (VelocityAlgorithm.analyze (velocity_of detector)
       (FraudDetector.velocity_time (Sample.clock 15))
       (Sample.last_transaction 15) (Sample.rule "velocity" 0.15 0.8)).1
    = Ok r ∧
    r == 0.66 ∧ r < 0.8 ∧
    (analyze detector (Sample.clock 15) (Sample.last_transaction 15)).1
    = Ok result ∧
    triggered_rules result = [] ∧
    ¬ In "velocity" (triggered_rules result).
Proof.
  cbv zeta. split; [split; [exact sample_burst|]|].
  - eexists _, _. split; [vm_compute; reflexivity|].
    split_and!; [reflexivity..|vm_compute; reflexivity|reflexivity].
  - eexists _, _. split; [vm_compute; reflexivity|].
    split_and!; [reflexivity..|vm_compute; reflexivity|reflexivity|].
    intros [].
Qed.

(** C8.  The code on a transaction with a negative amount, which the
    [float] field of [Transaction] accepts.  For the amount [-1000] the
    amount signal returns [(-1000 / 1000) * 0.5 = -0.5], and [analyze]
    clamps the weighted average from above only, [min(risk_score, 1.0)]:
    a detector with the amount rule alone returns the risk score [-0.5],
    and the detector of the tests returns a negative risk score too,
    whatever the four parameter signals are.  Both confidences are in
    range. *)
Theorem negative_amount_negative_score
    {Merchant Behavioral Network ML : Type}
    (merchant_risk : Merchant → Transaction → DetectionRule
                     → result Q * Merchant)
    (behavioral_risk : Behavioral → Transaction → DetectionRule
                       → result Q * Behavioral)
    (network_risk : Network → Transaction → DetectionRule
                    → result Q * Network)
    (ml_anomaly_score : ML → Transaction → DetectionRule → result Q * ML)
    (_calculate_distance : Location → Location → Q) (hash : string → Z)
    (merchant0 : Merchant) (behavioral0 : Behavioral) (network0 : Network)
    (ml0 : ML) :
  let analyze :=
    FraudDetector.analyze merchant_risk behavioral_risk network_risk
      ml_anomaly_score _calculate_distance hash in
  let amount_only :=
    FraudDetector.init (Sample.config ["amount"]) "2024"
      merchant0 behavioral0 network0 ml0 in
  let three_rules :=
    FraudDetector.init (Sample.config ["velocity"; "amount"; "location"])
      "2024" merchant0 behavioral0 network0 ml0 in
  (∃ r,
     AmountAlgorithm.analyze (AmountAlgorithm.init FraudDetector.amount_config)
       Sample.negative_amount_transaction (Sample.rule "amount" 0.15 0.9)
     = Ok r ∧
     r == -0.5) ∧
  (∃ result,
     (analyze amount_only (Sample.clock 0)
        Sample.negative_amount_transaction).1 = Ok result ∧
     risk_score result == -0.5 ∧ risk_score result < 0 ∧
     0 <= confidence result ∧ confidence result <= 1) ∧
  (∃ result,
     (analyze three_rules (Sample.clock 0)
        Sample.negative_amount_transaction).1 = Ok result ∧
     risk_score result < 0 ∧
     0 <= confidence result ∧ confidence result <= 1).
Proof.
  cbv zeta. split_and!.
  - eexists. split; [vm_compute; reflexivity|]. reflexivity.
  - eexists. split; [reflexivity|]. split_and!; vm_compute;
      (reflexivity || discriminate).
  - eexists. split; [reflexivity|]. split_and!; vm_compute;
      (reflexivity || discriminate).
Qed.

(** A transaction with a location and a merchant, on a detector whose
    merchant signal is out of order: the velocity and the amount rules
    score, the location and the merchant rules fail and contribute neither
    score nor weight, and the risk score is the average of the two scores
    that remain. *)
Example failed_rules_are_left_out :
  let detector : @FraudDetector.t unit unit unit unit :=
    FraudDetector.init
      (Sample.config ["velocity"; "amount"; "location"; "merchant"])
      "2024" tt tt tt tt in
  let transaction :=
    Sample.with_merchant
      (Sample.with_location Sample.high_amount_transaction Sample.new_york)
      "merchant_001" in
  let os :=
    FraudDetector.outcomes Sample.failing_signal (Sample.constant_signal 0.5)
      (Sample.constant_signal 0.5) (Sample.constant_signal 0.5)
      (fun _ _ => 0) (fun _ => 0%Z) (Sample.clock 0) transaction
      (FraudDetector.rules detector) (FraudDetector.algorithms detector) in
  (∃ velocity_score,
     velocity_score == 0.55 ∧
     map (fun o => (o.1.1, o.2)) os
     = [("velocity", FraudDetector.Scored velocity_score);
        ("amount", FraudDetector.Scored 1.0);
        ("location", FraudDetector.Failed TypeError);
        ("device", FraudDetector.Skipped);
        ("time", FraudDetector.Skipped);
        ("merchant", FraudDetector.Failed (SignalError "unavailable"));
        ("behavioral", FraudDetector.Skipped);
        ("network", FraudDetector.Skipped);
        ("ml", FraudDetector.Skipped)]) ∧
  ∃ result,
    (FraudDetector.analyze Sample.failing_signal (Sample.constant_signal 0.5)
       (Sample.constant_signal 0.5) (Sample.constant_signal 0.5)
       (fun _ _ => 0) (fun _ => 0%Z) detector (Sample.clock 0)
       transaction).1 = Ok result ∧
    risk_score result == (0.55 + 1) / 2 ∧
    triggered_rules result = ["amount"] ∧
    confidence result == 1 / 4.
Proof.
  cbv zeta. split.
  - eexists. split; [|reflexivity]. reflexivity.
  - eexists. split; [reflexivity|]. split_and!; reflexivity.
Qed.

(** * Further properties of the signals

    What the code of the signals shows beyond the statements above: the
    inputs on which a signal raises, what a call stores, and how the
    queries of a signal agree with its score. *)

(** ** The amount signal and its queries *)

Lemma fdiv_zero x y : y == 0 → fdiv x y = Raise ZeroDivisionError.
Proof. intros H. unfold fdiv. apply Qeq_bool_iff in H. by rewrite H. Qed.

Lemma fdiv_cases x y :
  (y == 0 ∧ fdiv x y = Raise ZeroDivisionError) ∨
  (¬ y == 0 ∧ fdiv x y = Ok (x / y)).
Proof.
  destruct (Qeq_dec y 0) as [H|H].
  - left. split; [done|]. by apply fdiv_zero.
  - right. split; [done|]. by apply fdiv_ok.
Qed.

(** An equivalence between a comparison of strings or booleans and one of
    scores, once the band of the score is known. *)
Ltac solve_level :=
  split; intros ?H;
  first [ done | lra | exfalso; lra
        | destruct_and?; first [lra | exfalso; lra]
        | split; lra ].

Ltac solve_bands :=
  first
    [ solve_level
    | intros ?H; first [ done | lra | exfalso; lra | split; lra ]
    | split; intros ?H; destruct_or?;
      first [ done | lra | exfalso; lra | by left | by right ] ].

(** The amount signal raises on one kind of input only: a suspicious
    threshold of zero together with a negative normalized amount below the
    high-risk threshold, where the lowest band divides by the threshold;
    the exception is [ZeroDivisionError].  On every other input it returns
    a score, also when the two thresholds are equal or in the wrong
    order. *)
Theorem amount_analyze_raises (self : AmountAlgorithm.t)
    (transaction : Transaction) (rule : DetectionRule) :
  let x := AmountAlgorithm.normalized_amount self transaction in
  let zero_divisor :=
    AmountAlgorithm.config_suspicious_threshold self == 0 ∧
    x < 0 ∧ x < AmountAlgorithm.config_high_risk_threshold self in
  (AmountAlgorithm.analyze self transaction rule = Raise ZeroDivisionError
   ↔ zero_divisor) ∧
  ((∃ r, AmountAlgorithm.analyze self transaction rule = Ok r)
   ↔ ¬ zero_divisor).
Proof.
  intros x zero_divisor. subst zero_divisor.
  unfold AmountAlgorithm.analyze, AmountAlgorithm.risk_of_normalized.
  fold x. clearbody x.
  set (s := AmountAlgorithm.config_suspicious_threshold self).
  set (h := AmountAlgorithm.config_high_risk_threshold self).
  clearbody s h.
  destruct (Qgeb x h) eqn:E1.
  { apply Qgeb_true in E1. split; split.
    - done.
    - intros (_ & _ & H). lra.
    - intros _ (_ & _ & H). lra.
    - intros _. by eexists. }
  apply Qgeb_false in E1.
  destruct (Qgeb x s) eqn:E2.
  { apply Qgeb_true in E2. rewrite fdiv_ok by lra.
    unfold mbind, result_bind. split; split.
    - done.
    - intros (H0 & H & _). lra.
    - intros _ (H0 & H & _). lra.
    - intros _. by eexists. }
  apply Qgeb_false in E2.
  destruct (fdiv_cases x s) as [[H0 ->]|[H0 ->]];
    unfold mbind, result_bind; split; split.
  - intros _. split_and!; [done | lra | done].
  - done.
  - by intros [r ?].
  - intros H. destruct H. split_and!; [done | lra | done].
  - done.
  - by intros (H & _).
  - by intros _ (H & _).
  - intros _. by eexists.
Qed.

(** With a positive suspicious threshold the amount signal returns a score
    between 0 and 1 for every transaction whose normalized amount is not
    negative, wherever the high-risk threshold lies. *)
Theorem amount_score_bounds (self : AmountAlgorithm.t)
    (transaction : Transaction) (rule : DetectionRule) :
  0 < AmountAlgorithm.config_suspicious_threshold self →
  0 <= AmountAlgorithm.normalized_amount self transaction →
  ∃ r, AmountAlgorithm.analyze self transaction rule = Ok r ∧
       0 <= r ∧ r <= 1.
Proof.
  intros Hs Hx.
  unfold AmountAlgorithm.analyze, AmountAlgorithm.risk_of_normalized.
  set (x := AmountAlgorithm.normalized_amount self transaction) in *.
  set (s := AmountAlgorithm.config_suspicious_threshold self) in *.
  set (h := AmountAlgorithm.config_high_risk_threshold self).
  clearbody x s h.
  destruct (Qgeb x h) eqn:E1.
  { eexists. split; [done|]. lra. }
  apply Qgeb_false in E1.
  destruct (Qgeb x s) eqn:E2.
  - apply Qgeb_true in E2. rewrite fdiv_ok by lra.
    eexists. split; [done|].
    assert (Hd : 0 < h - s) by lra.
    pose proof (Qdiv_lower_le (x - s) (h - s) 0 Hd ltac:(lra)).
    pose proof (Qdiv_upper_le (x - s) (h - s) 1 Hd ltac:(lra)).
    lra.
  - apply Qgeb_false in E2. rewrite fdiv_ok by lra.
    eexists. split; [done|].
    pose proof (Qdiv_lower_le x s 0 Hs ltac:(lra)).
    pose proof (Qdiv_upper_le x s 1 Hs ltac:(lra)).
    lra.
Qed.

Lemma amount_score_bounds_witness :
  ∃ r,
    AmountAlgorithm.analyze (AmountAlgorithm.init FraudDetector.amount_config)
      Sample.high_amount_transaction (Sample.rule "amount" 0.15 0.9) = Ok r ∧
    0 <= r ∧ r <= 1.
Proof.
  apply (amount_score_bounds
           (AmountAlgorithm.init FraudDetector.amount_config)
           Sample.high_amount_transaction (Sample.rule "amount" 0.15 0.9));
    vm_compute; [reflexivity | discriminate].
Defined.

(** For thresholds [0 < suspicious < high_risk] and a transaction that
    names its currency, the three queries of the amount signal agree with
    its score.  The level is ['low'] exactly when the score is below 0.5,
    and [is_suspicious_amount] holds exactly from 0.5 on, where the level
    is ['medium'] or ['high'].  The level is ['high'] exactly when
    [is_high_risk_amount] holds, and the score is then 1; at the level
    ['medium'] the score is between 0.5 and 1.  The converse of the step
    to 1 is not stated: on the upper ramp the quotient of two floats can
    round to 1 just below the high-risk threshold, where the level is
    still ['medium']. *)
Theorem amount_queries_match_score (self : AmountAlgorithm.t)
    (transaction : Transaction) (rule : DetectionRule) (r : Q) :
  0 < AmountAlgorithm.config_suspicious_threshold self →
  AmountAlgorithm.config_suspicious_threshold self
  < AmountAlgorithm.config_high_risk_threshold self →
  tx_currency transaction ≠ "" →
  AmountAlgorithm.analyze self transaction rule = Ok r →
  let amount := tx_amount transaction in
  let currency := tx_currency transaction in
  let level := AmountAlgorithm.get_risk_level self amount currency in
  (level = "low" ↔ r < 0.5) ∧
  (AmountAlgorithm.is_suspicious_amount self amount currency = true
   ↔ 0.5 <= r) ∧
  (level = "medium" ∨ level = "high" ↔ 0.5 <= r) ∧
  (level = "medium" → 0.5 <= r ∧ r <= 1) ∧
  (level = "high"
   ↔ AmountAlgorithm.is_high_risk_amount self amount currency = true) ∧
  (level = "high" → r == 1) ∧
  (r < 1 → level ≠ "high").
Proof.
  intros Hs Hsh Hc Hr amount currency level. subst amount currency level.
  pose proof (normalized_amount_multiplier self transaction Hc) as Hn.
  unfold AmountAlgorithm.get_risk_level, AmountAlgorithm.is_suspicious_amount,
    AmountAlgorithm.is_high_risk_amount.
  assert (E : tx_amount transaction
              * default 1.0 (AmountAlgorithm.config_currency_multipliers self
                               !! tx_currency transaction)
              = AmountAlgorithm.normalized_amount self transaction).
  { rewrite Hn.
    by destruct (AmountAlgorithm.config_currency_multipliers self
                   !! tx_currency transaction). }
  cbn zeta. rewrite E. clear E Hn.
  apply (score_band self _ r Hs Hsh) in Hr.
  set (x := AmountAlgorithm.normalized_amount self transaction) in *.
  set (s := AmountAlgorithm.config_suspicious_threshold self) in *.
  set (h := AmountAlgorithm.config_high_risk_threshold self) in *.
  clearbody x s h.
  assert (Hd : 0 < h - s) by lra.
  destruct Hr as [H1 Er | H1 H2 Er | H1 Er].
  - assert (E1 : Qgeb x h = true) by by apply Qgeb_true.
    assert (E2 : Qgeb x s = true) by (apply Qgeb_true; lra).
    rewrite E1, E2. split_and!; solve_bands.
  - assert (E1 : Qgeb x h = false) by by apply Qgeb_false.
    assert (E2 : Qgeb x s = true) by by apply Qgeb_true.
    rewrite E1, E2.
    pose proof (Qdiv_upper (x - s) (h - s) 1 Hd ltac:(lra)).
    pose proof (Qdiv_lower_le (x - s) (h - s) 0 Hd ltac:(lra)).
    split_and!; solve_bands.
  - assert (E1 : Qgeb x h = false) by (apply Qgeb_false; lra).
    assert (E2 : Qgeb x s = false) by by apply Qgeb_false.
    rewrite E1, E2.
    pose proof (Qdiv_upper x s 1 Hs ltac:(lra)).
    split_and!; solve_bands.
Qed.

Lemma amount_queries_match_score_witness :
  AmountAlgorithm.get_risk_level
    (AmountAlgorithm.init FraudDetector.amount_config) 10000.0 "USD" = "low"
  ↔ 1.0 < 0.5.
Proof.
  refine (proj1
    (amount_queries_match_score
       (AmountAlgorithm.init FraudDetector.amount_config)
       Sample.high_amount_transaction (Sample.rule "amount" 0.15 0.9) 1.0
       _ _ _ _)); vm_compute; (reflexivity || discriminate).
Defined.

(** ** The velocity signal: what a call stores *)

Lemma filter_filter_same {A} (p : A → bool) (l : list A) :
  List.filter p (List.filter p l) = List.filter p l.
Proof.
  induction l as [|x l IH]; [done|]. cbn [List.filter].
  destruct (p x) eqn:E; [|done]. cbn [List.filter]. by rewrite E, IH.
Qed.

Lemma filter_length_le {A} (p q : A → bool) (l : list A) :
  (∀ x, p x = true → q x = true) →
  (length (List.filter p l) <= length (List.filter q l))%nat.
Proof.
  intros H. induction l as [|x l IH]; [done|]. cbn [List.filter].
  destruct (p x) eqn:E.
  - rewrite (H x E). cbn [length]. lia.
  - destruct (q x); cbn [length]; lia.
Qed.


Section VelocityRaises.
Import VelocityAlgorithm.
Variables (self : t) (time_now : Q) (transaction : Transaction)
  (rule : DetectionRule).

Local Abbreviation same_kind :=
  (Forall
     (fun tx => dt_aware (tx_timestamp tx)
                = dt_aware (tx_timestamp transaction))
     (default [] (transaction_history self !! tx_user_id transaction))).





End VelocityRaises.


(** After a call of the velocity signal that returns, the history of the
    transaction's user holds the events it held before and the new
    transaction, each only if its timestamp is later than the reading of the
    clock minus the window: older events are dropped, and a transaction
    that is itself older is scored but not stored.  The histories of the
    other users are not touched. *)
Theorem velocity_stores_within_window (self : VelocityAlgorithm.t)
    (time_now : Q) (transaction : Transaction) (rule : DetectionRule)
    (score : Q) :
  (VelocityAlgorithm.analyze self time_now transaction rule).1 = Ok score →
  let self' := (VelocityAlgorithm.analyze self time_now transaction rule).2 in
  let cutoff_time :=
    time_now
    - inject_Z (VelocityAlgorithm.time_window (VelocityAlgorithm.config self)
                * 60) in
  (∀ tx,
     In tx (default [] (VelocityAlgorithm.transaction_history self'
                          !! tx_user_id transaction)) ↔
     (In tx (default [] (VelocityAlgorithm.transaction_history self
                           !! tx_user_id transaction)) ∨
      tx = transaction) ∧
     cutoff_time < posix (tx_timestamp tx)) ∧
  (∀ user_id,
     user_id ≠ tx_user_id transaction →
     VelocityAlgorithm.transaction_history self' !! user_id
     = VelocityAlgorithm.transaction_history self !! user_id).
Proof.
  unfold VelocityAlgorithm.analyze.
  destruct (_ ≫= _) as [[c a]|e]; [|done]. cbn [fst snd]. intros _.
  unfold VelocityAlgorithm._add_transaction.
  cbn [VelocityAlgorithm.transaction_history]. split.
  - intros tx. rewrite lookup_insert_eq. cbn [from_option id].
    rewrite filter_In, in_app_iff, Qgtb_true. cbn [In].
    split; intros [[H|H] Hc]; (split; [|done]).
    + by left.
    + right. by destruct H as [<-|[]].
    + by left.
    + right. by left.
  - intros user_id Hne. by rewrite lookup_insert_ne.
Qed.

Lemma velocity_stores_within_window_witness :
  let self' :=
    (VelocityAlgorithm.analyze Sample.velocity_after_ten 1705313400
       Sample.eleventh_transaction (Sample.rule "velocity" 0.15 0.8)).2 in
  VelocityAlgorithm.transaction_history self' !! "user_001"
  = VelocityAlgorithm.transaction_history Sample.velocity_after_ten
      !! "user_001".
Proof.
  refine (proj2 (velocity_stores_within_window Sample.velocity_after_ten
                   1705313400 Sample.eleventh_transaction
                   (Sample.rule "velocity" 0.15 0.8) _ _) "user_001" _).
  - vm_compute. reflexivity.
  - discriminate.
Defined.

(** Right after a call that returns, the two statistics of the velocity
    signal, asked for the signal's own window at the same reading of the
    clock, cover the whole stored history of the user: the count is its
    length and the total the sum of its amounts. *)
Theorem velocity_stats_after_write (self : VelocityAlgorithm.t)
    (time_now : Q) (transaction : Transaction) (rule : DetectionRule)
    (score : Q) :
  (VelocityAlgorithm.analyze self time_now transaction rule).1 = Ok score →
  let self' := (VelocityAlgorithm.analyze self time_now transaction rule).2 in
  let user_id := tx_user_id transaction in
  let window := VelocityAlgorithm.time_window (VelocityAlgorithm.config self) in
  let stored :=
    default [] (VelocityAlgorithm.transaction_history self' !! user_id) in
  VelocityAlgorithm.get_transaction_count self' time_now user_id window
  = Z.of_nat (length stored) ∧
  VelocityAlgorithm.get_total_amount self' time_now user_id window
  = VelocityAlgorithm.sum_amounts stored.
Proof.
  unfold VelocityAlgorithm.analyze.
  destruct (_ ≫= _) as [[c a]|e]; [|done]. cbn [fst snd]. intros _.
  unfold VelocityAlgorithm.get_transaction_count,
    VelocityAlgorithm.get_total_amount, VelocityAlgorithm._add_transaction.
  cbn [VelocityAlgorithm.transaction_history VelocityAlgorithm.config].
  rewrite lookup_insert_eq. cbn [from_option id].
  by rewrite filter_filter_same.
Qed.

Lemma velocity_stats_after_write_witness :
  let self' :=
    (VelocityAlgorithm.analyze Sample.velocity_after_ten 1705313400
       Sample.eleventh_transaction (Sample.rule "velocity" 0.15 0.8)).2 in
  VelocityAlgorithm.get_transaction_count self' 1705313400 "user_003" 60
  = Z.of_nat
      (length (default [] (VelocityAlgorithm.transaction_history self'
                             !! "user_003"))).
Proof.
  refine (proj1 (velocity_stats_after_write Sample.velocity_after_ten
                   1705313400 Sample.eleventh_transaction
                   (Sample.rule "velocity" 0.15 0.8) _ _)).
  vm_compute. reflexivity.
Defined.

(** The number of transactions that [get_transaction_count] reports never
    decreases when the window is widened, is never negative and never
    exceeds the number of events stored for the user. *)
Theorem transaction_count_window (self : VelocityAlgorithm.t) (time_now : Q)
    (user_id : string) (w1 w2 : Z) :
  (w1 <= w2)%Z →
  (0 <= VelocityAlgorithm.get_transaction_count self time_now user_id w1
   <= VelocityAlgorithm.get_transaction_count self time_now user_id w2)%Z ∧
  (VelocityAlgorithm.get_transaction_count self time_now user_id w2
   <= Z.of_nat
        (length (default [] (VelocityAlgorithm.transaction_history self
                               !! user_id))))%Z.
Proof.
  intros Hw. unfold VelocityAlgorithm.get_transaction_count.
  split_and!.
  - lia.
  - apply Nat2Z.inj_le, filter_length_le. intros tx.
    rewrite !Qgtb_true. intros H.
    assert (inject_Z (w1 * 60) <= inject_Z (w2 * 60))
      by (rewrite <- Zle_Qle; lia).
    lra.
  - apply Nat2Z.inj_le, List.filter_length_le.
Qed.

Lemma transaction_count_window_witness :
  (VelocityAlgorithm.get_transaction_count Sample.velocity_after_ten
     1705313400 "user_003" 5
   <= VelocityAlgorithm.get_transaction_count Sample.velocity_after_ten
        1705313400 "user_003" 60)%Z.
Proof.
  refine (proj2 (proj1 (transaction_count_window Sample.velocity_after_ten
                          1705313400 "user_003" 5 60 _))).
  lia.
Defined.

(** The velocity score does not decrease with the amount: of two
    transactions of one user with the same timestamp, the one with the
    larger amount scores at least as much (for a positive amount cap). *)
Theorem velocity_score_monotone_amount (self : VelocityAlgorithm.t)
    (time_now : Q) (tx1 tx2 : Transaction) (rule : DetectionRule)
    (s1 s2 : Q) :
  tx_user_id tx1 = tx_user_id tx2 →
  tx_timestamp tx1 = tx_timestamp tx2 →
  0 < VelocityAlgorithm.max_amount (VelocityAlgorithm.config self) →
  tx_amount tx1 <= tx_amount tx2 →
  (VelocityAlgorithm.analyze self time_now tx1 rule).1 = Ok s1 →
  (VelocityAlgorithm.analyze self time_now tx2 rule).1 = Ok s2 →
  s1 <= s2.
Proof.
  intros Hu Ht Ha Hamt. unfold VelocityAlgorithm.analyze.
  rewrite Hu, Ht.
  destruct (VelocityAlgorithm.recent_transactions _ _ _) as [recent|e];
    [|done].
  assert (Ha' : ¬ VelocityAlgorithm.max_amount (VelocityAlgorithm.config self)
                  == 0) by lra.
  unfold mbind, result_bind. cbn beta iota zeta.
  destruct (fdiv _ (inject_Z _)) as [c|e]; [|done].
  rewrite !(fdiv_ok _ _ Ha'). cbn [fst].
  intros [= <-] [= <-].
  apply Q.min_le_compat_r. rewrite !Qhalf.
  assert (Qmin ((VelocityAlgorithm.sum_amounts recent + tx_amount tx1)
                / VelocityAlgorithm.max_amount (VelocityAlgorithm.config self))
               1.0
          <= Qmin ((VelocityAlgorithm.sum_amounts recent + tx_amount tx2)
                   / VelocityAlgorithm.max_amount
                       (VelocityAlgorithm.config self)) 1.0).
  { apply Q.min_le_compat_r. apply Qdiv_le_mono; [done|lra]. }
  lra.
Qed.

Lemma velocity_score_monotone_amount_witness :
  ∃ s1 s2,
    (VelocityAlgorithm.analyze Sample.velocity_after_ten 1705313400
       Sample.eleventh_transaction (Sample.rule "velocity" 0.15 0.8)).1
    = Ok s1 ∧
    (VelocityAlgorithm.analyze Sample.velocity_after_ten 1705313400
       (Sample.transaction "tx_final" "user_003" 4000.0 (Sample.at_second 600))
       (Sample.rule "velocity" 0.15 0.8)).1 = Ok s2 ∧
    s1 <= s2.
Proof.
  eexists _, _. split; [vm_compute; reflexivity|].
  split; [vm_compute; reflexivity|].
  apply (velocity_score_monotone_amount Sample.velocity_after_ten 1705313400
           Sample.eleventh_transaction
           (Sample.transaction "tx_final" "user_003" 4000.0
              (Sample.at_second 600))
           (Sample.rule "velocity" 0.15 0.8));
    vm_compute; (reflexivity || discriminate).
Defined.

(** ** The time signal: the stored patterns and the queries *)

Section TimeQueries.
Import TimeAlgorithm.

Lemma py_int_comp x y : x == y → py_int x = py_int y.
Proof.
  intros E. unfold py_int.
  destruct (Qle_bool 0 x) eqn:E1; destruct (Qle_bool 0 y) eqn:E2.
  - by apply Qfloor_comp.
  - apply Qle_bool_iff in E1. apply Qle_bool_false in E2. lra.
  - apply Qle_bool_iff in E2. apply Qle_bool_false in E1. lra.
  - by apply Qceiling_comp.
Qed.

Lemma py_int_opp x : py_int (- x) = (- py_int x)%Z.
Proof.
  unfold py_int.
  destruct (Qle_bool 0 x) eqn:E1; destruct (Qle_bool 0 (- x)) eqn:E2.
  - apply Qle_bool_iff in E1, E2.
    assert (E : x == 0) by lra.
    rewrite (Qfloor_comp _ _ E).
    assert (E' : - x == 0) by lra.
    by rewrite (Qfloor_comp _ _ E').
  - unfold Qceiling. rewrite Qopp_involutive. reflexivity.
  - unfold Qceiling. lia.
  - apply Qle_bool_false in E1, E2. lra.
Qed.

Lemma user_pattern_upper self user_id pattern :
  _analyze_user_time_pattern self user_id pattern <= 0.3.
Proof.
  unfold _analyze_user_time_pattern.
  destruct (default [] _); [lra|]. case_ifs; lra.
Qed.

Lemma timezone_anomaly_upper self transaction pattern :
  _analyze_timezone_anomaly self transaction pattern <= 0.4.
Proof.
  unfold _analyze_timezone_anomaly.
  destruct (tx_location transaction); [|lra]. case_ifs; lra.
Qed.

End TimeQueries.

(** A call of the time signal appends the pattern of the transaction to the
    patterns of its user and keeps the last hundred: the stored list is a
    suffix of the old list with the new pattern, it ends with the new
    pattern, and its length is the old length plus one, capped at 100.  The
    patterns of the other users are not touched. *)
Theorem time_patterns_keep_last_hundred (self : TimeAlgorithm.t)
    (transaction : Transaction) (rule : DetectionRule) :
  let user_id := tx_user_id transaction in
  let self' := (TimeAlgorithm.analyze self transaction rule).2 in
  let pattern :=
    TimeAlgorithm._analyze_time_pattern self (tx_timestamp transaction)
      transaction in
  let before := TimeAlgorithm.get_user_time_patterns self user_id in
  let after := TimeAlgorithm.get_user_time_patterns self' user_id in
  after `suffix_of` (before ++ [pattern]) ∧
  last after = Some pattern ∧
  length after = Nat.min (S (length before)) 100 ∧
  (∀ other,
     other ≠ user_id →
     TimeAlgorithm.get_user_time_patterns self' other
     = TimeAlgorithm.get_user_time_patterns self other).
Proof.
  intros user_id self' pattern before after.
  subst after self'. unfold TimeAlgorithm.get_user_time_patterns.
  unfold TimeAlgorithm.analyze. cbn [snd].
  unfold TimeAlgorithm._store_user_time_pattern.
  cbn [TimeAlgorithm.user_time_patterns].
  fold user_id. fold pattern.
  change (default [] (TimeAlgorithm.user_time_patterns self !! user_id))
    with before.
  rewrite lookup_insert_eq. cbn [from_option id].
  assert (Hlen : length (before ++ [pattern]) = S (length before)).
  { rewrite length_app. cbn [length]. lia. }
  rewrite Hlen. clearbody before pattern.
  split_and!.
  - destruct (100 <? S (length before))%nat; [|done]. apply suffix_drop.
  - destruct (100 <? S (length before))%nat eqn:E.
    + apply Nat.ltb_lt in E.
      rewrite drop_app_le by lia. apply last_snoc.
    + apply last_snoc.
  - destruct (100 <? S (length before))%nat eqn:E.
    + apply Nat.ltb_lt in E. rewrite length_drop, Hlen. lia.
    + apply Nat.ltb_ge in E. rewrite Hlen. lia.
  - intros other Hne. by rewrite lookup_insert_ne.
Qed.

(** The difference in hours between two time zones does not depend on their
    order, and it is zero between a zone and itself. *)
Theorem timezone_difference_symmetric (tz1 tz2 : string) :
  TimeAlgorithm._calculate_timezone_difference tz1 tz2
  = TimeAlgorithm._calculate_timezone_difference tz2 tz1 ∧
  TimeAlgorithm._calculate_timezone_difference tz1 tz1 = 0%Z.
Proof.
  unfold TimeAlgorithm._calculate_timezone_difference.
  set (offsets := list_to_map _).
  set (o1 := default 0 (offsets !! tz1)).
  set (o2 := default 0 (offsets !! tz2)). clearbody o1 o2. split.
  - assert (E : o2 - o1 == - (o1 - o2)) by lra.
    rewrite (py_int_comp _ _ E), py_int_opp. lia.
  - assert (E : o1 - o1 == 0) by lra.
    by rewrite (py_int_comp _ _ E).
Qed.

(** The rarity of a transaction's hour and weekday among the stored patterns
    of its user, in whole numbers: with [similar] of [total] stored patterns
    at the same hour and weekday, the component is 0.3 when fewer than one
    in ten are similar, 0.1 when fewer than three in ten are, and 0
    otherwise. *)
Theorem user_time_pattern_by_frequency (self : TimeAlgorithm.t)
    (user_id : string) (current : TimeAlgorithm.TimePattern)
    (patterns : list TimeAlgorithm.TimePattern) :
  TimeAlgorithm.user_time_patterns self !! user_id = Some patterns →
  patterns ≠ [] →
  let similar :=
    Z.of_nat
      (length
         (List.filter
            (fun pattern =>
               Z.eqb (TimeAlgorithm.hour pattern) (TimeAlgorithm.hour current)
               && Z.eqb (TimeAlgorithm.day_of_week pattern)
                        (TimeAlgorithm.day_of_week current))
            patterns)) in
  let total := Z.of_nat (length patterns) in
  let risk := TimeAlgorithm._analyze_user_time_pattern self user_id current in
  ((10 * similar < total)%Z → risk = 0.3) ∧
  ((total <= 10 * similar)%Z ∧ (10 * similar < 3 * total)%Z → risk = 0.1) ∧
  ((3 * total <= 10 * similar)%Z → risk = 0.0).
Proof.
  intros Hp Hne similar total risk. subst risk.
  unfold TimeAlgorithm._analyze_user_time_pattern.
  rewrite Hp. cbn [from_option id].
  assert (Ht : (0 < total)%Z).
  { subst total. destruct patterns; [done|]. cbn [length]. lia. }
  destruct patterns as [|p0 ps]; [done|]. cbv match.
  set (patterns := p0 :: ps) in *.
  fold similar. fold total.
  assert (E0 : (0 <? total)%Z = true) by by apply Z.ltb_lt.
  rewrite E0. clearbody similar total.
  assert (HtQ : 0 < inject_Z total) by by apply inject_Z_pos.
  assert (Hz : ∀ a b : Z,
             (a * similar < b * total)%Z ↔
             inject_Z a * inject_Z similar < inject_Z b * inject_Z total).
  { intros a b. by rewrite <- !inject_Z_mult, Zlt_Qlt. }
  set (f := inject_Z similar / inject_Z total).
  assert (Hf : f * inject_Z total == inject_Z similar).
  { subst f. field. lra. }
  clearbody f.
  assert (H1 : Qltb f 0.1 = true ↔ (10 * similar < total)%Z).
  { unfold Qltb. rewrite negb_true_iff, Qle_bool_false.
    specialize (Hz 10%Z 1%Z). rewrite Z.mul_1_l in Hz. rewrite Hz.
    change (inject_Z 10) with 10. change (inject_Z 1) with 1.
    rewrite <- Hf. split; intros; nra. }
  assert (H3 : Qltb f 0.3 = true ↔ (10 * similar < 3 * total)%Z).
  { unfold Qltb. rewrite negb_true_iff, Qle_bool_false.
    rewrite (Hz 10%Z 3%Z).
    change (inject_Z 10) with 10. change (inject_Z 3) with 3.
    rewrite <- Hf. split; intros; nra. }
  destruct (Qltb f 0.1) eqn:E1; destruct (Qltb f 0.3) eqn:E3;
    split_and!; intros; try done;
    try (destruct H1 as [H1 H1']); try (destruct H3 as [H3 H3']);
    repeat match goal with
           | H : true = true → _ |- _ => specialize (H eq_refl)
           | H : _ → false = true |- _ =>
               assert (false = true) by (apply H; lia); discriminate
           end; lia.
Qed.

Lemma user_time_pattern_by_frequency_witness :
  let self :=
    (TimeAlgorithm.analyze
       (TimeAlgorithm.init FraudDetector.time_config "2024")
       Sample.high_amount_transaction (Sample.rule "time" 0.1 0.6)).2 in
  let pattern :=
    TimeAlgorithm._analyze_time_pattern
      (TimeAlgorithm.init FraudDetector.time_config "2024")
      (Sample.at_second 0) Sample.high_amount_transaction in
  TimeAlgorithm._analyze_user_time_pattern self "user_002" pattern = 0.0.
Proof.
  refine (proj2 (proj2
    (user_time_pattern_by_frequency _ "user_002" _ [_] _ _)) _).
  - vm_compute. reflexivity.
  - discriminate.
  - vm_compute. discriminate.
Defined.

(** When [get_time_risk_level] calls the hour and weekday of a transaction
    ['low'] and its date is no holiday, [is_suspicious_time] is false for
    them and the time signal scores the transaction with the two behavioural
    components only, the rarity of the time for the user and the time-zone
    anomaly: at most 0.7. *)
Theorem time_low_level_score (self : TimeAlgorithm.t)
    (transaction : Transaction) (rule : DetectionRule) :
  let timestamp := tx_timestamp transaction in
  let hour := dt_hour timestamp in
  let day_of_week := (dt_weekday timestamp + 1)%Z in
  let pattern :=
    TimeAlgorithm._analyze_time_pattern self timestamp transaction in
  TimeAlgorithm.get_time_risk_level self hour day_of_week = "low" →
  TimeAlgorithm._is_holiday self timestamp = false →
  TimeAlgorithm.is_suspicious_time self hour day_of_week = false ∧
  ∃ score,
    (TimeAlgorithm.analyze self transaction rule).1 = Ok score ∧
    score
    == TimeAlgorithm._analyze_user_time_pattern self
         (tx_user_id transaction) pattern
       + TimeAlgorithm._analyze_timezone_anomaly self transaction pattern ∧
    0 <= score ∧ score <= 0.7.
Proof.
  intros timestamp hour day_of_week pattern.
  unfold TimeAlgorithm.get_time_risk_level, TimeAlgorithm.is_suspicious_time.
  destruct (TimeAlgorithm.Z_in hour _) eqn:E1; [done|].
  destruct (TimeAlgorithm.Z_in day_of_week _) eqn:E2; [done|].
  intros _ Hh. split; [done|].
  unfold TimeAlgorithm.analyze. fold timestamp. fold pattern.
  assert (P1 : TimeAlgorithm.hour pattern = hour) by done.
  assert (P2 : TimeAlgorithm.is_weekend pattern = false) by exact E2.
  assert (P3 : TimeAlgorithm.is_holiday pattern = false) by exact Hh.
  rewrite P1, E1, P2, P3. cbn [fst].
  pose proof (user_pattern_nonneg self (tx_user_id transaction) pattern).
  pose proof (user_pattern_upper self (tx_user_id transaction) pattern).
  pose proof (timezone_anomaly_nonneg self transaction pattern).
  pose proof (timezone_anomaly_upper self transaction pattern).
  set (u := TimeAlgorithm._analyze_user_time_pattern _ _ _) in *.
  set (z := TimeAlgorithm._analyze_timezone_anomaly _ _ _) in *.
  clearbody u z.
  eexists. split; [reflexivity|].
  assert (E : Qmin (0.0 + u + z) 1.0 == u + z).
  { rewrite Qmin_id; lra. }
  rewrite E. split_and!; lra.
Qed.

Lemma time_low_level_score_witness :
  TimeAlgorithm.is_suspicious_time
    (TimeAlgorithm.init FraudDetector.time_config "2024") 10 1 = false.
Proof.
  refine (proj1 (time_low_level_score
                   (TimeAlgorithm.init FraudDetector.time_config "2024")
                   Sample.high_amount_transaction
                   (Sample.rule "time" 0.1 0.6) _ _));
    vm_compute; reflexivity.
Defined.

(** ** The location signal: the two travel queries *)



(** ** The device signal: failures, new devices and the store *)

Section DeviceStore.
Import DeviceAlgorithm.

Lemma truthy_Some s : s ≠ "" → truthy (Some s) = true.
Proof. intros H. cbn. by apply negb_true_iff, String.eqb_neq. Qed.

Lemma forget_trust_fields fp1 fp2 :
  forget_trust fp1 = forget_trust fp2 →
  DeviceAlgorithm.device_id fp1 = DeviceAlgorithm.device_id fp2 ∧
  user_agent fp1 = user_agent fp2 ∧
  ip_address fp1 = ip_address fp2 ∧
  screen_resolution fp1 = screen_resolution fp2 ∧
  timezone fp1 = timezone fp2 ∧
  language fp1 = language fp2 ∧
  platform fp1 = platform fp2 ∧
  first_seen fp1 = first_seen fp2 ∧
  last_seen fp1 = last_seen fp2 ∧
  transaction_count fp1 = transaction_count fp2 ∧
  total_amount fp1 = total_amount fp2.
Proof. unfold forget_trust. intros [=]. by split_and!. Qed.

Lemma same_but_trust_refl self : same_but_trust self self.
Proof. by split_and!. Qed.

Lemma mark_same_but_trust self device_id :
  same_but_trust (mark_device_as_trusted self device_id) self.
Proof.
  unfold mark_device_as_trusted.
  destruct (device_fingerprints self !! device_id) as [fp|] eqn:E;
    [|apply same_but_trust_refl].
  split_and!; [done..|]. intros d. cbn [device_fingerprints].
  destruct (decide (device_id = d)) as [<-|Hne].
  - by rewrite lookup_insert_eq, E.
  - by rewrite lookup_insert_ne.
Qed.

Lemma device_risk_same_but_trust fp1 fp2 current :
  forget_trust fp1 = forget_trust fp2 →
  _calculate_device_risk fp1 current = _calculate_device_risk fp2 current.
Proof.
  intros H. apply forget_trust_fields in H
    as (_ & H1 & H2 & H3 & H4 & _ & _ & _ & H6 & _).
  unfold _calculate_device_risk. by rewrite H1, H2, H3, H4, H6.
Qed.

Lemma device_velocity_same_but_trust self1 self2 now device_id :
  same_but_trust self1 self2 →
  _calculate_device_velocity self1 now device_id
  = _calculate_device_velocity self2 now device_id.
Proof.
  intros (Hc & _ & Hf). unfold _calculate_device_velocity.
  specialize (Hf device_id). rewrite Hc.
  destruct (device_fingerprints self1 !! device_id) as [fp1|],
    (device_fingerprints self2 !! device_id) as [fp2|];
    cbn [fmap option_fmap option_map] in Hf; try done.
  assert (Hf' : forget_trust fp1 = forget_trust fp2) by congruence.
  apply forget_trust_fields in Hf'
    as (_ & _ & _ & _ & _ & _ & _ & H5 & _ & H7 & _).
  by rewrite H5, H7.
Qed.

Lemma device_branch_same_but_trust self1 self2 clock transaction device_id :
  same_but_trust self1 self2 →
  (device_branch self1 clock transaction device_id).1
  = (device_branch self2 clock transaction device_id).1 ∧
  same_but_trust (device_branch self1 clock transaction device_id).2
    (device_branch self2 clock transaction device_id).2.
Proof.
  intros (Hc & Hu & Hf). unfold device_branch.
  pose proof (Hf device_id) as Hd.
  destruct (device_fingerprints self1 !! device_id) as [fp1|] eqn:E1,
    (device_fingerprints self2 !! device_id) as [fp2|] eqn:E2;
    cbn [fmap option_fmap option_map] in Hd; try done.
  - assert (Hd' : forget_trust fp1 = forget_trust fp2) by congruence.
    clear Hd. rename Hd' into Hd.
    cbn [fst snd]. split.
    + by rewrite (device_risk_same_but_trust fp1 fp2).
    + unfold _update_device_fingerprint. rewrite E1, E2.
      split_and!; [done..|]. intros d. cbn [device_fingerprints].
      destruct (decide (device_id = d)) as [<-|Hne].
      * rewrite !lookup_insert_eq.
        cbn [fmap option_fmap option_map]. f_equal.
        apply forget_trust_fields in Hd
          as (H0 & H1 & H2 & H3 & H4 & H5 & H6 & H7 & H8 & H9 & H10).
        unfold forget_trust.
        cbn [DeviceAlgorithm.device_id user_agent ip_address
             screen_resolution timezone language platform first_seen
             last_seen transaction_count total_amount].
        by rewrite H0, H1, H2, H3, H4, H5, H6, H7, H9, H10.
      * rewrite !lookup_insert_ne by done. apply Hf.
  - cbn [fst snd]. unfold _get_user_device_count. rewrite Hu, Hc.
    split; [done|]. unfold _add_user_device.
    cbn [config device_fingerprints user_devices].
    split_and!; [done..|]. intros d. cbn [device_fingerprints].
    destruct (decide (device_id = d)) as [<-|Hne].
    + by rewrite !lookup_insert_eq.
    + rewrite !lookup_insert_ne by done. apply Hf.
Qed.

Lemma sharing_risk_same_but_trust self1 self2 device_id user_id :
  same_but_trust self1 self2 →
  _calculate_device_sharing_risk self1 device_id user_id
  = _calculate_device_sharing_risk self2 device_id user_id.
Proof.
  intros (_ & Hu & _).
  unfold _calculate_device_sharing_risk, _get_device_users.
  by rewrite Hu.
Qed.

Variable hash : string → Z.

Lemma analyze_same_but_trust self1 self2 clock transaction rule :
  same_but_trust self1 self2 →
  (analyze hash self1 clock transaction rule).1
  = (analyze hash self2 clock transaction rule).1 ∧
  same_but_trust (analyze hash self1 clock transaction rule).2
    (analyze hash self2 clock transaction rule).2.
Proof.
  intros H. unfold analyze. destruct (_ && _); [done|].
  destruct (if truthy _ then _ else _) as [d|e]; [|done].
  destruct (device_branch_same_but_trust self1 self2 clock transaction d H)
    as [Hr Hs].
  destruct (device_branch self1 clock transaction d) as [r1 s1],
    (device_branch self2 clock transaction d) as [r2 s2].
  cbn [fst snd] in Hr, Hs. subst r2.
  rewrite (device_velocity_same_but_trust s1 s2 _ d Hs).
  destruct (_calculate_device_velocity s2 _ d) as [v|e]; [|done].
  cbn [fst snd]. split; [|done].
  rewrite (sharing_risk_same_but_trust s1 s2 d _ Hs).
  destruct Hs as (-> & _). done.
Qed.

(** [analyze] on a transaction that names a device without a
    fingerprint. *)
Lemma analyze_new_device self clock transaction rule device_id :
  tx_device_id transaction = Some device_id →
  device_id ≠ "" →
  device_fingerprints self !! device_id = None →
  let self' := (device_branch self clock transaction device_id).2 in
  let base :=
    if (_get_user_device_count self (tx_user_id transaction)
        >=? max_devices_per_user (config self))%Z
    then 0.0 + 0.6 else 0.0 + 0.3 in
  let sharing_risk :=
    _calculate_device_sharing_risk self' device_id (tx_user_id transaction) in
  device_fingerprints self' !! device_id
  = Some (_create_fingerprint (now_create clock) transaction device_id) ∧
  config self' = config self ∧
  analyze hash self clock transaction rule =
  match _calculate_device_velocity self' (now_velocity clock) device_id with
  | Raise e => (Raise e, self')
  | Ok device_velocity =>
      (Ok (Qmin
             ((if Qgtb device_velocity
                    (inject_Z (suspicious_device_threshold (config self)))
               then base + 0.4 else base)
              + sharing_risk) 1.0),
       self')
  end.
Proof.
  intros Hd Hne Hfp self' base sharing_risk. subst self' base sharing_risk.
  unfold analyze. rewrite Hd, (truthy_Some _ Hne). cbn [negb andb].
  cbn [from_option id]. unfold device_branch. rewrite Hfp. cbn [fst snd].
  split_and!.
  - unfold _add_user_device. cbn [device_fingerprints].
    by rewrite lookup_insert_eq.
  - done.
  - by destruct (_calculate_device_velocity _ _ device_id).
Qed.

Lemma analyze_new_device_state self clock transaction rule device_id :
  tx_device_id transaction = Some device_id →
  device_id ≠ "" →
  device_fingerprints self !! device_id = None →
  (analyze hash self clock transaction rule).2
  = (device_branch self clock transaction device_id).2.
Proof.
  intros Hd Hne Hfp.
  destruct (analyze_new_device self clock transaction rule device_id
              Hd Hne Hfp) as (_ & _ & ->).
  by destruct (_calculate_device_velocity _ _ device_id).
Qed.

Lemma analyze_known_device_state self clock transaction rule device_id fp :
  tx_device_id transaction = Some device_id →
  device_id ≠ "" →
  device_fingerprints self !! device_id = Some fp →
  (analyze hash self clock transaction rule).2
  = _update_device_fingerprint self (now_update clock) device_id
      transaction.
Proof.
  intros Hd Hne Hfp.
  rewrite (analyze_known_device hash self clock transaction rule device_id
             fp Hd Hne Hfp). cbv zeta.
  by destruct (_calculate_device_velocity _ _ device_id).
Qed.

End DeviceStore.

(** A transaction without a device id, but with a user agent or an address,
    gets an id computed from them and from the screen resolution of its
    metadata.  When the metadata is not empty and has no screen resolution
    the signal raises [TypeError] (the join of a missing value) and stores
    nothing. *)
Theorem device_id_without_resolution_raises (hash : string → Z)
    (self : DeviceAlgorithm.t) (clock : DeviceAlgorithm.Clock)
    (transaction : Transaction) (rule : DetectionRule)
    (metadata : gmap string string) :
  truthy (tx_device_id transaction) = false →
  truthy (tx_user_agent transaction) || truthy (tx_ip_address transaction)
  = true →
  tx_metadata transaction = Some metadata →
  metadata ≠ ∅ →
  metadata !! "screen_resolution" = None →
  DeviceAlgorithm.analyze hash self clock transaction rule
  = (Raise TypeError, self).
Proof.
  intros Hd Hua Hm Hne Hsr. unfold DeviceAlgorithm.analyze.
  rewrite Hd. cbn [negb andb].
  assert (E : negb (truthy (tx_user_agent transaction))
              && negb (truthy (tx_ip_address transaction)) = false).
  { rewrite <- negb_orb, Hua. done. }
  rewrite E. unfold DeviceAlgorithm._generate_device_id,
    DeviceAlgorithm.metadata_get.
  rewrite Hm, bool_decide_eq_false_2 by done. by rewrite Hsr.
Qed.

Lemma device_id_without_resolution_raises_witness :
  let transaction :=
    {| tx_id := "tx_001"; tx_user_id := "user_001"; tx_amount := 100.0;
       tx_currency := "USD"; tx_timestamp := Sample.at_second 0;
       tx_location := None; tx_merchant_id := None;
       tx_merchant_category := None; tx_payment_method := None;
       tx_device_id := None; tx_ip_address := Some "192.168.1.1";
       tx_user_agent := Some "Mozilla/5.0...";
       tx_metadata := Some {[ "timezone" := "UTC" ]} |} in
  DeviceAlgorithm.analyze (fun _ => 0%Z)
    (DeviceAlgorithm.init FraudDetector.device_config)
    (Sample.device_clock 0 0 1) transaction (Sample.rule "device" 0.15 0.8)
  = (Raise TypeError, DeviceAlgorithm.init FraudDetector.device_config).
Proof.
  apply (device_id_without_resolution_raises (fun _ => 0%Z) _ _ _ _
           {[ "timezone" := "UTC" ]}).
  - reflexivity.
  - reflexivity.
  - reflexivity.
  - vm_compute. discriminate.
  - vm_compute. reflexivity.
Defined.

(** The first transaction on a device fails when the two readings of the
    clock in the call, at the creation of the fingerprint and in the
    velocity check, are the same instant: the elapsed time, the divisor of
    the velocity, is zero.  The signal raises [ZeroDivisionError] after it
    has stored the fingerprint and linked the device to the user. *)
Theorem new_device_same_instant_raises (hash : string → Z)
    (self : DeviceAlgorithm.t) (clock : DeviceAlgorithm.Clock)
    (transaction : Transaction) (rule : DetectionRule) (device_id : string) :
  tx_device_id transaction = Some device_id →
  device_id ≠ "" →
  DeviceAlgorithm.device_fingerprints self !! device_id = None →
  dt_micros (DeviceAlgorithm.now_velocity clock)
  = dt_micros (DeviceAlgorithm.now_create clock) →
  (0 < DeviceAlgorithm.device_velocity_window (DeviceAlgorithm.config self))%Z →
  let outcome := DeviceAlgorithm.analyze hash self clock transaction rule in
  outcome.1 = Raise ZeroDivisionError ∧
  DeviceAlgorithm.get_device_fingerprint outcome.2 device_id
  = Some (DeviceAlgorithm._create_fingerprint
            (DeviceAlgorithm.now_create clock) transaction device_id) ∧
  DeviceAlgorithm.linked outcome.2 (tx_user_id transaction) device_id.
Proof.
  intros Hd Hne Hfp Hclock Hw outcome. subst outcome.
  destruct (analyze_new_device hash self clock transaction rule device_id
              Hd Hne Hfp) as (Hfp' & Hc & ->).
  set (self' := (DeviceAlgorithm.device_branch self clock transaction
                   device_id).2) in *.
  assert (Hl : DeviceAlgorithm.linked self' (tx_user_id transaction)
                 device_id).
  { subst self'. apply device_branch_linked. right. done. }
  unfold DeviceAlgorithm._calculate_device_velocity.
  rewrite Hfp', Hc. cbn [DeviceAlgorithm.first_seen
    DeviceAlgorithm._create_fingerprint DeviceAlgorithm.transaction_count].
  assert (E0 : total_seconds (DeviceAlgorithm.now_velocity clock)
                 (DeviceAlgorithm.now_create clock) == 0).
  { unfold total_seconds. rewrite Hclock, Z.sub_diag. reflexivity. }
  assert (E1 : Qltb (total_seconds (DeviceAlgorithm.now_velocity clock)
                       (DeviceAlgorithm.now_create clock))
                 (inject_Z (DeviceAlgorithm.device_velocity_window
                              (DeviceAlgorithm.config self) * 60)) = true).
  { unfold Qltb. apply negb_true_iff, Qle_bool_false. rewrite E0.
    apply inject_Z_pos. lia. }
  rewrite E1, fdiv_zero by (rewrite E0; reflexivity).
  cbn [fst snd]. by split_and!.
Qed.

Lemma new_device_same_instant_raises_witness :
  (DeviceAlgorithm.analyze (fun _ => 0%Z)
     (DeviceAlgorithm.init FraudDetector.device_config)
     (Sample.device_clock 0 0 0) (Sample.first_user_transaction
                                    (Sample.at_second 0))
     (Sample.rule "device" 0.15 0.8)).1
  = Raise ZeroDivisionError.
Proof.
  refine (proj1 (new_device_same_instant_raises (fun _ => 0%Z)
                   (DeviceAlgorithm.init FraudDetector.device_config)
                   (Sample.device_clock 0 0 0)
                   (Sample.first_user_transaction (Sample.at_second 0))
                   (Sample.rule "device" 0.15 0.8) "shared_device"
                   _ _ _ _ _)).
  - reflexivity.
  - discriminate.
  - reflexivity.
  - reflexivity.
  - vm_compute. reflexivity.
Defined.

(** The first transaction on a device always carries the velocity penalty
    when the two readings of the clock are close: with [elapsed] seconds
    between the creation of the fingerprint and the velocity check, inside
    the velocity window, the device has made one transaction in [elapsed]
    seconds, which is above the threshold as soon as
    [threshold * elapsed < 60].  The score is then at least 0.7, the 0.3 of
    a new device and the 0.4 of the penalty. *)
Theorem new_device_velocity_penalty (hash : string → Z)
    (self : DeviceAlgorithm.t) (clock : DeviceAlgorithm.Clock)
    (transaction : Transaction) (rule : DetectionRule) (device_id : string) :
  tx_device_id transaction = Some device_id →
  device_id ≠ "" →
  DeviceAlgorithm.device_fingerprints self !! device_id = None →
  let elapsed :=
    total_seconds (DeviceAlgorithm.now_velocity clock)
      (DeviceAlgorithm.now_create clock) in
  0 < elapsed →
  elapsed
  < inject_Z (DeviceAlgorithm.device_velocity_window
                (DeviceAlgorithm.config self) * 60) →
  inject_Z (DeviceAlgorithm.suspicious_device_threshold
              (DeviceAlgorithm.config self)) * elapsed < 60 →
  ∃ score,
    (DeviceAlgorithm.analyze hash self clock transaction rule).1 = Ok score ∧
    0.7 <= score ∧ score <= 1.
Proof.
  intros Hd Hne Hfp elapsed Hpos Hwin Hthr.
  destruct (analyze_new_device hash self clock transaction rule device_id
              Hd Hne Hfp) as (Hfp' & Hc & ->).
  set (self' := (DeviceAlgorithm.device_branch self clock transaction
                   device_id).2) in *.
  unfold DeviceAlgorithm._calculate_device_velocity.
  rewrite Hfp', Hc. cbn [DeviceAlgorithm.first_seen
    DeviceAlgorithm._create_fingerprint DeviceAlgorithm.transaction_count].
  fold elapsed.
  assert (E1 : Qltb elapsed
                 (inject_Z (DeviceAlgorithm.device_velocity_window
                              (DeviceAlgorithm.config self) * 60)) = true).
  { unfold Qltb. by apply negb_true_iff, Qle_bool_false. }
  assert (Hm : 0 < elapsed / 60) by (apply Qdiv_lower; lra).
  rewrite E1, fdiv_ok by lra.
  set (threshold := inject_Z (DeviceAlgorithm.suspicious_device_threshold _))
    in *.
  assert (E2 : Qgtb (inject_Z 1 / (elapsed / 60)) threshold = true).
  { apply Qgtb_true. apply Qdiv_lower; [done|].
    change (inject_Z 1) with 1. clearbody elapsed threshold.
    assert (threshold * (elapsed / 60) == threshold * elapsed / 60)
      by (field; lra).
    assert (threshold * elapsed / 60 < 1) by (apply Qdiv_upper; lra).
    lra. }
  rewrite E2. cbn [fst]. eexists. split; [reflexivity|].
  pose proof (sharing_risk_nonneg self' device_id (tx_user_id transaction))
    as Hs.
  set (sharing := DeviceAlgorithm._calculate_device_sharing_risk _ _ _) in *.
  clearbody sharing. split; [|apply Qmin_le_one].
  apply Q.min_glb; [|lra]. case_ifs; lra.
Qed.

Lemma new_device_velocity_penalty_witness :
  ∃ score,
    (DeviceAlgorithm.analyze (fun _ => 0%Z)
       (DeviceAlgorithm.init FraudDetector.device_config)
       (Sample.device_clock 0 0 1) (Sample.first_user_transaction
                                      (Sample.at_second 0))
       (Sample.rule "device" 0.15 0.8)).1 = Ok score ∧
    0.7 <= score ∧ score <= 1.
Proof.
  apply (new_device_velocity_penalty (fun _ => 0%Z)
           (DeviceAlgorithm.init FraudDetector.device_config)
           (Sample.device_clock 0 0 1)
           (Sample.first_user_transaction (Sample.at_second 0))
           (Sample.rule "device" 0.15 0.8) "shared_device").
  - reflexivity.
  - discriminate.
  - reflexivity.
  - vm_compute. reflexivity.
  - vm_compute. reflexivity.
  - vm_compute. reflexivity.
Defined.

(** A transaction on a known device updates its fingerprint in three fields
    only: the count goes up by one, the amount is added to the total and
    [last_seen] becomes the reading of the clock.  [first_seen], the trust
    flag and the attributes the device was first seen with (user agent,
    address, screen resolution, time zone) are kept, so a device whose
    attributes have changed is compared with the first ones on every later
    call.  No other fingerprint is touched. *)
Theorem known_device_update (hash : string → Z) (self : DeviceAlgorithm.t)
    (clock : DeviceAlgorithm.Clock) (transaction : Transaction)
    (rule : DetectionRule) (device_id : string)
    (fingerprint : DeviceAlgorithm.DeviceFingerprint) :
  tx_device_id transaction = Some device_id →
  device_id ≠ "" →
  DeviceAlgorithm.device_fingerprints self !! device_id = Some fingerprint →
  let self' := (DeviceAlgorithm.analyze hash self clock transaction rule).2 in
  (∃ updated,
     DeviceAlgorithm.get_device_fingerprint self' device_id = Some updated ∧
     DeviceAlgorithm.transaction_count updated
     = (DeviceAlgorithm.transaction_count fingerprint + 1)%Z ∧
     DeviceAlgorithm.total_amount updated
     = DeviceAlgorithm.total_amount fingerprint + tx_amount transaction ∧
     DeviceAlgorithm.last_seen updated
     = Some (DeviceAlgorithm.now_update clock) ∧
     DeviceAlgorithm.first_seen updated
     = DeviceAlgorithm.first_seen fingerprint ∧
     DeviceAlgorithm.user_agent updated
     = DeviceAlgorithm.user_agent fingerprint ∧
     DeviceAlgorithm.ip_address updated
     = DeviceAlgorithm.ip_address fingerprint ∧
     DeviceAlgorithm.screen_resolution updated
     = DeviceAlgorithm.screen_resolution fingerprint ∧
     DeviceAlgorithm.timezone updated
     = DeviceAlgorithm.timezone fingerprint ∧
     DeviceAlgorithm.is_trusted updated
     = DeviceAlgorithm.is_trusted fingerprint) ∧
  (∀ other,
     other ≠ device_id →
     DeviceAlgorithm.get_device_fingerprint self' other
     = DeviceAlgorithm.get_device_fingerprint self other).
Proof.
  intros Hd Hne Hfp self'. subst self'.
  rewrite (analyze_known_device_state hash self clock transaction rule
             device_id fingerprint Hd Hne Hfp).
  unfold DeviceAlgorithm._update_device_fingerprint,
    DeviceAlgorithm.get_device_fingerprint.
  rewrite Hfp. cbn [DeviceAlgorithm.device_fingerprints]. split.
  - rewrite lookup_insert_eq. eexists. split; [reflexivity|].
    by split_and!.
  - intros other Ho. by rewrite lookup_insert_ne.
Qed.

Lemma known_device_update_witness :
  let self := Sample.device_after_first_user (fun _ => 0%Z) in
  let self' :=
    (DeviceAlgorithm.analyze (fun _ => 0%Z) self
       (Sample.device_clock 1000 1000 1001)
       (Sample.second_user_transaction "user_002" (Sample.at_second 1))
       (Sample.rule "device" 0.15 0.8)).2 in
  DeviceAlgorithm.get_device_fingerprint self' "other_device"
  = DeviceAlgorithm.get_device_fingerprint self "other_device".
Proof.
  refine (proj2 (known_device_update (fun _ => 0%Z)
                   (Sample.device_after_first_user (fun _ => 0%Z))
                   (Sample.device_clock 1000 1000 1001)
                   (Sample.second_user_transaction "user_002"
                      (Sample.at_second 1))
                   (Sample.rule "device" 0.15 0.8) "shared_device" _ _ _ _)
            "other_device" _).
  - reflexivity.
  - discriminate.
  - vm_compute. reflexivity.
  - discriminate.
Defined.

(** The trust flag is never read: marking a device as trusted changes the
    score of no later transaction.  The signal returns the same outcome on
    the object with the mark and on the object without it, and the two
    objects after the call still differ in trust flags only. *)
Theorem trust_flag_never_read (hash : string → Z) (self : DeviceAlgorithm.t)
    (device_id : string) (clock : DeviceAlgorithm.Clock)
    (transaction : Transaction) (rule : DetectionRule) :
  let trusted := DeviceAlgorithm.mark_device_as_trusted self device_id in
  (DeviceAlgorithm.analyze hash trusted clock transaction rule).1
  = (DeviceAlgorithm.analyze hash self clock transaction rule).1 ∧
  DeviceAlgorithm.same_but_trust
    (DeviceAlgorithm.analyze hash trusted clock transaction rule).2
    (DeviceAlgorithm.analyze hash self clock transaction rule).2.
Proof.
  intros trusted. apply analyze_same_but_trust, mark_same_but_trust.
Qed.

(** The signal never forgets: a call removes no link between a user and a
    device and no fingerprint, so the number of devices counted for a user
    never goes down. *)
Theorem device_store_only_grows (hash : string → Z)
    (self : DeviceAlgorithm.t) (clock : DeviceAlgorithm.Clock)
    (transaction : Transaction) (rule : DetectionRule) :
  let self' := (DeviceAlgorithm.analyze hash self clock transaction rule).2 in
  (∀ user_id device_id,
     DeviceAlgorithm.linked self user_id device_id →
     DeviceAlgorithm.linked self' user_id device_id) ∧
  (∀ device_id,
     is_Some (DeviceAlgorithm.get_device_fingerprint self device_id) →
     is_Some (DeviceAlgorithm.get_device_fingerprint self' device_id)) ∧
  (∀ user_id,
     (DeviceAlgorithm._get_user_device_count self user_id
      <= DeviceAlgorithm._get_user_device_count self' user_id)%Z).
Proof.
  intros self'.
  assert (Hl : ∀ user_id device_id,
             DeviceAlgorithm.linked self user_id device_id →
             DeviceAlgorithm.linked self' user_id device_id).
  { intros u d H. subst self'.
    destruct (analyze_state hash self clock transaction rule)
      as [->|(d' & ->)]; [done|].
    apply device_branch_linked. by left. }
  split_and!.
  - exact Hl.
  - intros d H. subst self'. unfold DeviceAlgorithm.get_device_fingerprint.
    destruct (analyze_state hash self clock transaction rule)
      as [->|(d' & ->)]; [done|].
    apply device_branch_fingerprints. by left.
  - intros u. unfold DeviceAlgorithm._get_user_device_count.
    apply Nat2Z.inj_le, subseteq_size. intros d. apply Hl.
Qed.

(** The queries after the first transaction on a device: the statistics of
    an unknown device are zero; after the call, whatever its outcome, they
    are one transaction of the transaction's amount, not trusted, and the
    device is among the devices of the user; after
    [mark_device_as_trusted] they are the same with the trust flag set. *)
Theorem new_device_queries (hash : string → Z) (self : DeviceAlgorithm.t)
    (clock : DeviceAlgorithm.Clock) (transaction : Transaction)
    (rule : DetectionRule) (device_id : string) :
  tx_device_id transaction = Some device_id →
  device_id ≠ "" →
  DeviceAlgorithm.device_fingerprints self !! device_id = None →
  let self' := (DeviceAlgorithm.analyze hash self clock transaction rule).2 in
  DeviceAlgorithm.get_device_stats self device_id
  = {| DeviceAlgorithm.stats_transaction_count := 0;
       DeviceAlgorithm.stats_total_amount := 0.0;
       DeviceAlgorithm.stats_is_trusted := false |} ∧
  DeviceAlgorithm.get_device_stats self' device_id
  = {| DeviceAlgorithm.stats_transaction_count := 1;
       DeviceAlgorithm.stats_total_amount := tx_amount transaction;
       DeviceAlgorithm.stats_is_trusted := false |} ∧
  device_id ∈ DeviceAlgorithm.get_user_devices self' (tx_user_id transaction) ∧
  DeviceAlgorithm.get_device_stats
    (DeviceAlgorithm.mark_device_as_trusted self' device_id) device_id
  = {| DeviceAlgorithm.stats_transaction_count := 1;
       DeviceAlgorithm.stats_total_amount := tx_amount transaction;
       DeviceAlgorithm.stats_is_trusted := true |}.
Proof.
  intros Hd Hne Hfp self'. subst self'.
  destruct (analyze_new_device hash self clock transaction rule device_id
              Hd Hne Hfp) as (Hfp' & _ & _).
  rewrite (analyze_new_device_state hash self clock transaction rule
             device_id Hd Hne Hfp).
  set (self' := (DeviceAlgorithm.device_branch self clock transaction
                   device_id).2) in *.
  assert (Hl : DeviceAlgorithm.linked self' (tx_user_id transaction)
                 device_id).
  { subst self'. apply device_branch_linked. right. done. }
  clearbody self'.
  unfold DeviceAlgorithm.get_device_stats, DeviceAlgorithm.get_user_devices,
    DeviceAlgorithm.mark_device_as_trusted.
  rewrite Hfp, Hfp'. cbn [DeviceAlgorithm.device_fingerprints].
  rewrite lookup_insert_eq. split_and!; [done | done | | done].
  apply elem_of_elements. exact Hl.
Qed.

Lemma new_device_queries_witness :
  DeviceAlgorithm.get_device_stats
    (Sample.device_after_first_user (fun _ => 0%Z)) "shared_device"
  = {| DeviceAlgorithm.stats_transaction_count := 1;
       DeviceAlgorithm.stats_total_amount := 100.0;
       DeviceAlgorithm.stats_is_trusted := false |}.
Proof.
  refine (proj1 (proj2 (new_device_queries (fun _ => 0%Z)
                   (DeviceAlgorithm.init FraudDetector.device_config)
                   (Sample.device_clock 0 0 1)
                   (Sample.first_user_transaction (Sample.at_second 0))
                   (Sample.rule "device" 0.15 0.8) "shared_device" _ _ _))).
  - reflexivity.
  - discriminate.
  - reflexivity.
Defined.

(** * Further properties of the orchestrator *)

(** ** The rule registry *)

Section Registry.
Import FraudDetector.

Lemma dict_get_set_eq k v d : dict_get k (dict_set k v d) = Some v.
Proof.
  induction d as [|[k' v'] d IH]; cbn [dict_set dict_get].
  - by rewrite String.eqb_refl.
  - destruct (String.eqb k' k) eqn:E; cbn [dict_get]; by rewrite E.
Qed.

Lemma dict_get_set_ne k k' v d :
  k' ≠ k → dict_get k' (dict_set k v d) = dict_get k' d.
Proof.
  intros Hne. induction d as [|[k0 v0] d IH]; cbn [dict_set dict_get].
  - apply String.eqb_neq in Hne. rewrite String.eqb_sym in Hne.
    by rewrite Hne.
  - destruct (String.eqb k0 k) eqn:E; cbn [dict_get]; [|by rewrite IH].
    apply String.eqb_eq in E as ->.
    apply String.eqb_neq in Hne. rewrite String.eqb_sym in Hne.
    by rewrite Hne.
Qed.

Lemma dict_get_None k d : dict_get k d = None ↔ ¬ In k (map fst d).
Proof.
  induction d as [|[k' v'] d IH]; cbn [dict_get map fst In]; [tauto|].
  destruct (String.eqb k' k) eqn:E.
  - apply String.eqb_eq in E. split; [done|]. intros H. destruct H. by left.
  - apply String.eqb_neq in E. rewrite IH. tauto.
Qed.

Lemma dict_get_In k v d : dict_get k d = Some v → In (k, v) d.
Proof.
  induction d as [|[k' v'] d IH]; cbn [dict_get]; [done|].
  destruct (String.eqb k' k) eqn:E.
  - apply String.eqb_eq in E as ->. intros [= ->]. by left.
  - intros H. right. by apply IH.
Qed.

Lemma dict_get_NoDup k v d :
  NoDup (map fst d) → In (k, v) d → dict_get k d = Some v.
Proof.
  induction d as [|[k' v'] d IH]; cbn [map fst]; [done|].
  rewrite NoDup_cons. intros [Hk Hd] [[= -> ->]|Hin]; cbn [dict_get].
  - by rewrite String.eqb_refl.
  - destruct (String.eqb k' k) eqn:E; [|by apply IH].
    apply String.eqb_eq in E as ->. destruct Hk.
    apply list_elem_of_In, in_map_iff. by exists (k, v).
Qed.

(** An assignment to a key of the dictionary keeps the order of the keys,
    an assignment to a new key appends it. *)
Lemma dict_set_keys k v d :
  map fst (dict_set k v d)
  = match dict_get k d with
    | Some _ => map fst d
    | None => map fst d ++ [k]
    end.
Proof.
  induction d as [|[k' v'] d IH]; cbn [dict_set dict_get map fst app];
    [done|].
  destruct (String.eqb k' k) eqn:E; cbn [map fst]; [done|].
  rewrite IH. by destruct (dict_get k d).
Qed.

Lemma dict_set_NoDup k v d :
  NoDup (map fst d) → NoDup (map fst (dict_set k v d)).
Proof.
  intros H. rewrite dict_set_keys.
  destruct (dict_get k d) eqn:E; [done|].
  apply NoDup_app. split_and!; [done | | apply NoDup_singleton].
  intros x Hx ->%list_elem_of_singleton.
  apply dict_get_None in E. apply E. by apply list_elem_of_In.
Qed.

Lemma dict_set_names k v d :
  rule_name v = k →
  (∀ item, In item d → rule_name item.2 = item.1) →
  ∀ item, In item (dict_set k v d) → rule_name item.2 = item.1.
Proof.
  intros Hv. induction d as [|[k' v'] d IH]; cbn [dict_set]; intros Hd item.
  - by intros [<-|[]].
  - destruct (String.eqb k' k) eqn:E.
    + apply String.eqb_eq in E as ->.
      intros [<-|Hin]; [done|]. apply Hd. by right.
    + intros [<-|Hin]; [apply (Hd (k', v')); by left|].
      apply IH; [|done]. intros it Hit. apply Hd. by right.
Qed.

(** The registry after the custom rules. *)
Lemma fold_dict_set (crs : list DetectionRule) d :
  let rules :=
    fold_left (fun rules rule => dict_set (rule_name rule) rule rules)
      crs d in
  (NoDup (map fst d) → NoDup (map fst rules)) ∧
  ((∀ item, In item d → rule_name item.2 = item.1) →
   ∀ item, In item rules → rule_name item.2 = item.1) ∧
  take (length d) (map fst rules) = map fst d ∧
  (∀ name,
     (∀ rule, In rule crs → rule_name rule ≠ name) →
     dict_get name rules = dict_get name d) ∧
  (∀ rule,
     In rule crs →
     ∃ rule', In rule' crs ∧ rule_name rule' = rule_name rule ∧
              dict_get (rule_name rule) rules = Some rule').
Proof.
  revert d. induction crs as [|c crs IH]; intros d rules; subst rules;
    cbn [fold_left].
  { split_and!; try done.
    rewrite <- (length_map fst). apply firstn_all. }
  specialize (IH (dict_set (rule_name c) c d)). cbv zeta in IH.
  destruct IH as (IH1 & IH2 & IH3 & IH4 & IH5).
  set (rules := fold_left _ crs _) in *. split_and!.
  - intros H. by apply IH1, dict_set_NoDup.
  - intros H. apply IH2. by apply dict_set_names.
  - apply (f_equal (take (length d))) in IH3.
    rewrite take_take in IH3.
    assert (Hlen : (length d <= length (dict_set (rule_name c) c d))%nat).
    { rewrite <- !(length_map fst), dict_set_keys.
      destruct (dict_get _ d); [done|]. rewrite length_app. lia. }
    rewrite Nat.min_l in IH3 by done. rewrite IH3, dict_set_keys.
    destruct (dict_get _ d).
    + rewrite <- (length_map fst). apply firstn_all.
    + rewrite take_app_length'; [done|]. by rewrite length_map.
  - intros name Hn. rewrite IH4 by (intros; apply Hn; by right).
    apply dict_get_set_ne. intros ->. by apply (Hn c); [left|].
  - intros rule Hin.
    destruct (decide (Exists (fun r => rule_name r = rule_name rule) crs))
      as [Hex|Hnex].
    + apply Exists_exists in Hex as (r & Hr & Hname).
      apply list_elem_of_In in Hr.
      destruct (IH5 r Hr) as (r' & Hr' & Hn' & Hget).
      exists r'. split_and!; [by right | congruence | congruence].
    + assert (Hnone : ∀ r, In r crs → rule_name r ≠ rule_name rule).
      { intros r Hr Hn. apply Hnex, Exists_exists. exists r.
        split; [by apply list_elem_of_In | done]. }
      destruct Hin as [<-|Hin]; [|by destruct (Hnone rule Hin)].
      exists c. split_and!; [by left | done |].
      rewrite IH4 by done. apply dict_get_set_eq.
Qed.

(** Of the custom rules of one name, the last one is registered. *)
Lemma fold_dict_set_last (l1 l2 : list DetectionRule) rule d :
  (∀ r, In r l2 → rule_name r ≠ rule_name rule) →
  dict_get (rule_name rule)
    (fold_left (fun rules rule => dict_set (rule_name rule) rule rules)
       (l1 ++ rule :: l2) d)
  = Some rule.
Proof.
  intros Hl2. rewrite fold_left_app. cbn [fold_left].
  destruct (fold_dict_set l2
              (dict_set (rule_name rule) rule
                 (fold_left
                    (fun rules rule => dict_set (rule_name rule) rule rules)
                    l1 d)))
    as (_ & _ & _ & H4 & _).
  cbv zeta in H4. rewrite H4 by done. apply dict_get_set_eq.
Qed.

Lemma algorithms_get_None {Merchant Behavioral Network ML : Type}
    (merchant_risk :
       Merchant → Transaction → DetectionRule → result Q * Merchant)
    (behavioral_risk :
       Behavioral → Transaction → DetectionRule → result Q * Behavioral)
    (network_risk :
       Network → Transaction → DetectionRule → result Q * Network)
    (ml_anomaly_score : ML → Transaction → DetectionRule → result Q * ML)
    (_calculate_distance : Location → Location → Q) (hash : string → Z)
    (name : string) :
  str_in name signal_names = false →
  algorithms_get merchant_risk behavioral_risk network_risk
    ml_anomaly_score _calculate_distance hash name = None.
Proof.
  intros H. destruct (algorithms_get _ _ _ _ _ _ name) as [alg|] eqn:E;
    [|done].
  apply algorithms_get_cases in E.
  destruct_or!; destruct_and!; subst; discriminate.
Qed.

End Registry.

(** The registry that [_initialize_rules] builds holds every name once, each
    rule under its own name; the nine default names come first, in the
    order of the source, whatever the custom rules are.  A custom rule is
    registered under its name unless a later custom rule has the same
    name, so that of the custom rules of one name the last one wins; a
    name that no custom rule has keeps its default rule. *)
Theorem initial_rules_registry (config : FraudDetectorConfig) :
  let rules := FraudDetector._initialize_rules config in
  let custom_rules := default [] (cfg_custom_rules config) in
  NoDup (map fst rules) ∧
  (∀ item, In item rules → rule_name item.2 = item.1) ∧
  take 9 (map fst rules) = FraudDetector.signal_names ∧
  (∀ earlier rule later,
     custom_rules = earlier ++ rule :: later →
     (∀ rule', In rule' later → rule_name rule' ≠ rule_name rule) →
     FraudDetector.dict_get (rule_name rule) rules = Some rule) ∧
  (∀ name weight threshold,
     In (name, weight, threshold)
        [("velocity", 0.15, 0.8); ("amount", 0.15, 0.9);
         ("location", 0.15, 0.7); ("device", 0.15, 0.8); ("time", 0.10, 0.6);
         ("merchant", 0.15, 0.7); ("behavioral", 0.10, 0.6);
         ("network", 0.10, 0.8); ("ml", 0.20, 0.5)] →
     (∀ rule, In rule custom_rules → rule_name rule ≠ name) →
     FraudDetector.dict_get name rules
     = Some (FraudDetector.default_rule config name weight threshold).2).
Proof.
  intros rules custom_rules. subst rules.
  unfold FraudDetector._initialize_rules. fold custom_rules.
  set (defaults := [_; _; _; _; _; _; _; _; _]).
  destruct (fold_dict_set custom_rules defaults) as (H1 & H2 & H3 & H4 & H5).
  cbv zeta in *. split_and!.
  - apply H1. subst defaults. cbn [map fst FraudDetector.default_rule].
    compute_done.
  - apply H2. subst defaults. intros item Hin.
    repeat (destruct Hin as [<-|Hin]; [done|]). destruct Hin.
  - exact H3.
  - intros earlier rule later E Hlater. rewrite E.
    by apply fold_dict_set_last.
  - intros name weight threshold Hin Hn. rewrite H4 by done.
    subst defaults.
    repeat (destruct Hin as [[= <- <- <-]|Hin]; [reflexivity|]).
    destruct Hin.
Qed.

Section RegistryUpdates.
Import FraudDetector.

Lemma dict_set_set k v v' d :
  dict_set k v (dict_set k v' d) = dict_set k v d.
Proof.
  induction d as [|[k0 v0] d IH]; cbn [dict_set].
  - by rewrite String.eqb_refl.
  - destruct (String.eqb k0 k) eqn:E; cbn [dict_set]; rewrite E; [done|].
    by rewrite IH.
Qed.

Lemma dict_set_get k v d : dict_get k d = Some v → dict_set k v d = d.
Proof.
  induction d as [|[k0 v0] d IH]; cbn [dict_set dict_get]; [done|].
  destruct (String.eqb k0 k) eqn:E.
  - by intros [= ->].
  - intros H. by rewrite IH.
Qed.

Lemma dict_set_known_keys k v v0 d :
  dict_get k d = Some v0 → map fst (dict_set k v d) = map fst d.
Proof. intros H. by rewrite dict_set_keys, H. Qed.

Lemma set_enabled_twice rule b b' :
  set_enabled (set_enabled rule b') b = set_enabled rule b.
Proof. done. Qed.

Lemma set_enabled_same rule :
  set_enabled rule (rule_enabled rule) = rule.
Proof. by destruct rule. Qed.

Context {Merchant Behavioral : Type}.
Context {Network ML : Type}.
Local Abbreviation Detector :=
  (@FraudDetector.t Merchant Behavioral Network ML).

Lemma set_rule_enabled_registry (self : Detector) name b :
  let self' := set_rule_enabled self name b in
  algorithms self' = algorithms self ∧
  map fst (rules self') = map fst (rules self) ∧
  dict_get name (rules self')
  = (fun rule => set_enabled rule b) <$> dict_get name (rules self) ∧
  (∀ other,
     other ≠ name →
     dict_get other (rules self') = dict_get other (rules self)).
Proof.
  intros self'. subst self'. unfold set_rule_enabled.
  destruct (dict_get name (rules self)) as [rule|] eqn:E.
  - cbn [config algorithms rules]. split_and!; [done | | |].
    + by apply dict_set_known_keys with rule.
    + by rewrite dict_get_set_eq.
    + intros other Hne. by apply dict_get_set_ne.
  - rewrite E. by split_and!.
Qed.

(** [disable_rule] clears the flag of the rule it names and touches no
    other rule nor the order of the registry; [enable_rule] after it sets
    the flag again, so that disabling and enabling a rule that was
    enabled gives the detector back as it was. *)
Theorem enable_undoes_disable (self : Detector) (name : string) :
  let disabled := disable_rule self name in
  map fst (rules disabled) = map fst (rules self) ∧
  dict_get name (rules disabled)
  = (fun rule => set_enabled rule false) <$> dict_get name (rules self) ∧
  (∀ other,
     other ≠ name →
     dict_get other (rules disabled) = dict_get other (rules self)) ∧
  enable_rule disabled name = enable_rule self name ∧
  (∀ rule,
     dict_get name (rules self) = Some rule →
     rule_enabled rule = true →
     enable_rule disabled name = self).
Proof.
  intros disabled. subst disabled. unfold disable_rule, enable_rule.
  destruct (set_rule_enabled_registry self name false)
    as (_ & H3 & H4 & H5). cbv zeta in *.
  assert (Hround : set_rule_enabled (set_rule_enabled self name false)
                     name true = set_rule_enabled self name true).
  { unfold set_rule_enabled at 1. rewrite H4.
    unfold set_rule_enabled.
    destruct (dict_get name (rules self)) as [rule|] eqn:E;
      cbn [fmap option_fmap option_map]; [|done].
    cbn [config algorithms rules].
    by rewrite dict_set_set, set_enabled_twice. }
  split_and!; [done..|].
  intros rule E Hen. rewrite Hround. unfold set_rule_enabled. rewrite E.
  rewrite <- Hen, set_enabled_same, (dict_set_get _ _ _ E).
  by destruct self.
Qed.

End RegistryUpdates.

Lemma enable_undoes_disable_witness :
  FraudDetector.enable_rule (FraudDetector.disable_rule Sample.detector "amount")
    "amount" = Sample.detector.
Proof.
  refine (proj2 (proj2 (proj2 (proj2
            (enable_undoes_disable Sample.detector "amount")))) _ _ _).
  - vm_compute. reflexivity.
  - reflexivity.
Defined.

(** ** The rules and the signals in [analyze] *)

Section RulesAndSignals.
Import FraudDetector.

Context {Merchant Behavioral : Type}.
Context {Network ML : Type}.
Variable merchant_risk :
  Merchant → Transaction → DetectionRule →
  result Q * Merchant.
Variable behavioral_risk :
  Behavioral → Transaction → DetectionRule →
  result Q * Behavioral.
Variable network_risk :
  Network → Transaction → DetectionRule →
  result Q * Network.
Variable ml_anomaly_score :
  ML → Transaction → DetectionRule → result Q * ML.
Variable _calculate_distance : Location → Location → Q.
Variable hash : string → Z.

Local Abbreviation Algs := (@Algorithms Merchant Behavioral Network ML).
Local Abbreviation Detector :=
  (@FraudDetector.t Merchant Behavioral Network ML).
Local Abbreviation algorithms_get :=
  (FraudDetector.algorithms_get merchant_risk behavioral_risk network_risk
     ml_anomaly_score _calculate_distance hash).
Local Abbreviation loop_body :=
  (FraudDetector.loop_body merchant_risk behavioral_risk network_risk
     ml_anomaly_score _calculate_distance hash).
Local Abbreviation call :=
  (FraudDetector.call merchant_risk behavioral_risk network_risk
     ml_anomaly_score _calculate_distance hash).
Local Abbreviation outcomes :=
  (FraudDetector.outcomes merchant_risk behavioral_risk network_risk
     ml_anomaly_score _calculate_distance hash).
Local Abbreviation final_algorithms :=
  (FraudDetector.final_algorithms merchant_risk behavioral_risk
     network_risk ml_anomaly_score _calculate_distance hash).
Local Abbreviation run_rules :=
  (FraudDetector.run_rules merchant_risk behavioral_risk network_risk
     ml_anomaly_score _calculate_distance hash).
Local Abbreviation analyze :=
  (FraudDetector.analyze merchant_risk behavioral_risk network_risk
     ml_anomaly_score _calculate_distance hash).
Local Abbreviation analyze_returns :=
  (analyze_returns merchant_risk behavioral_risk network_risk
     ml_anomaly_score _calculate_distance hash).

(** *** One signal, one object *)

Lemma same_object_refl name (a : Algs) : same_object name a a.
Proof. by split_and!. Qed.

Lemma same_object_sym name (a b : Algs) :
  same_object name a b → same_object name b a.
Proof.
  intros H. unfold same_object in *. destruct_and!.
  split_and!; intros Hn; symmetry; auto.
Qed.

Lemma same_object_trans name (a b c : Algs) :
  same_object name a b → same_object name b c → same_object name a c.
Proof.
  intros H1 H2. unfold same_object in *. destruct_and!.
  split_and!; intros Hn; etrans; auto.
Qed.

Lemma same_object_all (a b : Algs) :
  (∀ name, same_object name a b) → a = b.
Proof.
  intros H. destruct a, b.
  pose proof (H "velocity") as (E1 & _).
  pose proof (H "amount") as (_ & E2 & _).
  pose proof (H "location") as (_ & _ & E3 & _).
  pose proof (H "device") as (_ & _ & _ & E4 & _).
  pose proof (H "time") as (_ & _ & _ & _ & E5 & _).
  pose proof (H "merchant") as (_ & _ & _ & _ & _ & E6 & _).
  pose proof (H "behavioral") as (_ & _ & _ & _ & _ & _ & E7 & _).
  pose proof (H "network") as (_ & _ & _ & _ & _ & _ & _ & E8 & _).
  pose proof (H "ml") as (_ & _ & _ & _ & _ & _ & _ & _ & E9).
  cbn in *. f_equal; auto.
Qed.

Lemma call_disabled clock transaction (a : Algs) item :
  rule_enabled item.2 = false →
  call clock transaction a item = (Skipped, a).
Proof. intros H. unfold FraudDetector.call. by rewrite H. Qed.

(** A call changes no object but the one registered under the name of
    its rule. *)
Lemma call_other_objects clock transaction (a : Algs) item name :
  name ≠ item.1 → same_object name (call clock transaction a item).2 a.
Proof.
  intros Hne. unfold FraudDetector.call.
  destruct (rule_enabled item.2); cbn [negb]; [|apply same_object_refl].
  destruct (algorithms_get item.1) as [alg|] eqn:E;
    [|apply same_object_refl].
  apply algorithms_get_cases in E
    as [[Hn ->]|[[Hn ->]|[[Hn ->]|[[Hn ->]|[[Hn ->]|[[Hn ->]|[[Hn ->]|
        [[Hn ->]|[Hn ->]]]]]]]]].
  - unfold velocity_signal.
    destruct (VelocityAlgorithm.analyze _ _ _ _) as [[?|?] ?];
      cbn [snd]; split_and!; intros ->; first [done | congruence].
  - unfold amount_signal.
    destruct (AmountAlgorithm.analyze _ _ _);
      cbn [snd]; apply same_object_refl.
  - unfold location_signal.
    destruct (LocationAlgorithm.analyze _ _ _ _ _ _) as [[?|?] ?];
      cbn [snd]; split_and!; intros ->; first [done | congruence].
  - unfold device_signal.
    destruct (DeviceAlgorithm.analyze _ _ _ _ _) as [[?|?] ?];
      cbn [snd]; split_and!; intros ->; first [done | congruence].
  - unfold time_signal.
    destruct (TimeAlgorithm.analyze _ _ _) as [[?|?] ?];
      cbn [snd]; split_and!; intros ->; first [done | congruence].
  - unfold merchant_signal.
    destruct (MerchantAlgorithm.analyze _ _ _ _) as [[?|?] ?];
      cbn [snd]; split_and!; intros ->; first [done | congruence].
  - unfold behavioral_signal.
    destruct (BehavioralAlgorithm.analyze _ _ _ _) as [[?|?] ?];
      cbn [snd]; split_and!; intros ->; first [done | congruence].
  - unfold network_signal.
    destruct (NetworkAlgorithm.analyze _ _ _ _) as [[?|?] ?];
      cbn [snd]; split_and!; intros ->; first [done | congruence].
  - unfold ml_signal.
    destruct (MLAlgorithm.analyze _ _ _ _ _) as [[?|?] ?];
      cbn [snd]; split_and!; intros ->; first [done | congruence].
Qed.

(** The outcome of a call, and the object it leaves, depend on the object
    registered under the name of its rule only. *)
Lemma call_same_object clock transaction (a b : Algs) item :
  same_object item.1 a b →
  (call clock transaction a item).1 = (call clock transaction b item).1 ∧
  same_object item.1 (call clock transaction a item).2
    (call clock transaction b item).2.
Proof.
  intros H. unfold FraudDetector.call.
  destruct (rule_enabled item.2); cbn [negb]; [|done].
  destruct (algorithms_get item.1) as [alg|] eqn:E; [|done].
  destruct H as (H1 & H2 & H3 & H4 & H5 & H6 & H7 & H8 & H9).
  apply algorithms_get_cases in E
    as [[Hn ->]|[[Hn ->]|[[Hn ->]|[[Hn ->]|[[Hn ->]|[[Hn ->]|[[Hn ->]|
        [[Hn ->]|[Hn ->]]]]]]]]].
  - unfold velocity_signal. rewrite (H1 Hn).
    destruct (VelocityAlgorithm.analyze _ _ _ _) as [[?|?] ?];
      cbn [fst snd]; (split; [done|]);
      split_and!; intros Hm; first [done | congruence].
  - unfold amount_signal. rewrite (H2 Hn).
    destruct (AmountAlgorithm.analyze _ _ _);
      cbn [fst snd]; (split; [done|]);
      split_and!; intros Hm; first [done | congruence | auto].
  - unfold location_signal. rewrite (H3 Hn).
    destruct (LocationAlgorithm.analyze _ _ _ _ _ _) as [[?|?] ?];
      cbn [fst snd]; (split; [done|]);
      split_and!; intros Hm; first [done | congruence].
  - unfold device_signal. rewrite (H4 Hn).
    destruct (DeviceAlgorithm.analyze _ _ _ _ _) as [[?|?] ?];
      cbn [fst snd]; (split; [done|]);
      split_and!; intros Hm; first [done | congruence].
  - unfold time_signal. rewrite (H5 Hn).
    destruct (TimeAlgorithm.analyze _ _ _) as [[?|?] ?];
      cbn [fst snd]; (split; [done|]);
      split_and!; intros Hm; first [done | congruence].
  - unfold merchant_signal. rewrite (H6 Hn).
    destruct (MerchantAlgorithm.analyze _ _ _ _) as [[?|?] ?];
      cbn [fst snd]; (split; [done|]);
      split_and!; intros Hm; first [done | congruence].
  - unfold behavioral_signal. rewrite (H7 Hn).
    destruct (BehavioralAlgorithm.analyze _ _ _ _) as [[?|?] ?];
      cbn [fst snd]; (split; [done|]);
      split_and!; intros Hm; first [done | congruence].
  - unfold network_signal. rewrite (H8 Hn).
    destruct (NetworkAlgorithm.analyze _ _ _ _) as [[?|?] ?];
      cbn [fst snd]; (split; [done|]);
      split_and!; intros Hm; first [done | congruence].
  - unfold ml_signal. rewrite (H9 Hn).
    destruct (MLAlgorithm.analyze _ _ _ _ _) as [[?|?] ?];
      cbn [fst snd]; (split; [done|]);
      split_and!; intros Hm; first [done | congruence].
Qed.

Lemma outcomes_independent clock transaction rules (a a0 : Algs) :
  NoDup (map fst rules) →
  (∀ item, In item rules → same_object item.1 a a0) →
  outcomes clock transaction rules a
  = map (fun item => (item, (call clock transaction a0 item).1)) rules ∧
  (∀ item,
     In item rules →
     same_object item.1 (final_algorithms clock transaction rules a)
       (call clock transaction a0 item).2) ∧
  (∀ name,
     ¬ In name (map fst rules) →
     same_object name (final_algorithms clock transaction rules a) a).
Proof.
  revert a. induction rules as [|it rules IH]; intros a Hnd Ha.
  { split_and!; [done | by intros ? [] | intros; apply same_object_refl]. }
  cbn [map fst] in Hnd. apply NoDup_cons in Hnd as [Hit Hnd].
  assert (Hit' : ¬ In it.1 (map fst rules))
    by (intros H; by apply Hit, list_elem_of_In).
  destruct (call_same_object clock transaction a a0 it) as [Ho Hs];
    [apply Ha; by left|].
  cbn [FraudDetector.outcomes FraudDetector.final_algorithms map].
  destruct (call clock transaction a it) as [o a1] eqn:Ec.
  cbn [fst snd] in *.
  destruct (IH a1 Hnd) as (IH1 & IH2 & IH3).
  { intros item Hin. apply same_object_trans with a; [|apply Ha; by right].
    change a1 with (o, a1).2. rewrite <- Ec. apply call_other_objects.
    intros E. apply Hit'. rewrite <- E. apply in_map_iff. by exists item. }
  split_and!.
  - by rewrite IH1, Ho.
  - intros item [<-|Hin].
    + apply same_object_trans with a1; [by apply IH3 | done].
    + by apply IH2.
  - intros name Hn. apply same_object_trans with a1.
    + apply IH3. intros H. apply Hn. by right.
    + change a1 with (o, a1).2. rewrite <- Ec. apply call_other_objects.
      intros E. apply Hn. by left.
Qed.

Lemma triggered_of_In name os :
  In name (triggered_of os) →
  ∃ rule score,
    In (name, rule, Scored score) os ∧ rule_threshold rule <= score.
Proof.
  induction os as [|[[n rule] [|s|e]] os IH]; cbn [triggered_of];
    [done| | |].
  - intros H. destruct (IH H) as (r & sc & Hin & Hs).
    exists r, sc. split; [by right|done].
  - destruct (Qgeb s (rule_threshold rule)) eqn:E.
    + intros [<-|H].
      * exists rule, s. split; [by left|]. by apply Qgeb_true.
      * destruct (IH H) as (r & sc & Hin & Hs).
        exists r, sc. split; [by right|done].
    + intros H. destruct (IH H) as (r & sc & Hin & Hs).
      exists r, sc. split; [by right|done].
  - intros H. destruct (IH H) as (r & sc & Hin & Hs).
    exists r, sc. split; [by right|done].
Qed.

Lemma final_skipped clock transaction rules (a : Algs) name :
  (∀ item, In item rules → item.1 = name → rule_enabled item.2 = false) →
  same_object name (final_algorithms clock transaction rules a) a.
Proof.
  revert a. induction rules as [|it rules IH]; intros a H;
    [apply same_object_refl|].
  cbn [FraudDetector.final_algorithms].
  apply same_object_trans with (call clock transaction a it).2.
  - apply IH. intros item Hin. apply H. by right.
  - destruct (decide (it.1 = name)) as [E|E].
    + rewrite call_disabled; [apply same_object_refl|].
      apply H; [by left|done].
    + by apply call_other_objects.
Qed.

(** *** The theorems *)

(** The signals do not interfere.  In a registry that holds every name
    once, the outcome of each rule is the outcome of its signal on the
    objects as they were before [analyze], whichever rules come before it:
    the list of outcomes is the registry with each rule called on the
    initial objects, and after the loop the object of each rule is the
    one its own call leaves. *)
Theorem rules_do_not_interfere (self : Detector) (clock : Clock)
    (transaction : Transaction) :
  NoDup (map fst (rules self)) →
  outcomes clock transaction (rules self) (algorithms self)
  = map (fun item =>
           (item, (call clock transaction (algorithms self) item).1))
      (rules self) ∧
  (∀ item,
     In item (rules self) →
     same_object item.1 (algorithms (analyze self clock transaction).2)
       (call clock transaction (algorithms self) item).2).
Proof.
  intros Hnd.
  destruct (outcomes_independent clock transaction (rules self)
              (algorithms self) (algorithms self) Hnd)
    as (H1 & H2 & _); [intros; apply same_object_refl|].
  split; [done|]. intros item Hin.
  destruct (analyze_returns self clock transaction) as (res & -> & _).
  cbn [snd algorithms]. by apply H2.
Qed.

(** A disabled rule is out of the analysis: after [disable_rule], in a
    registry that holds every name once, the rule is not among the
    triggered rules of any result, and [analyze] leaves the object of its
    signal as it was, so the signal learns nothing from the transactions
    analysed meanwhile. *)
Theorem disabled_rule_is_skipped (self : Detector) (clock : Clock)
    (transaction : Transaction) (name : string) :
  NoDup (map fst (rules self)) →
  let outcome := analyze (disable_rule self name) clock transaction in
  (∀ res, outcome.1 = Ok res → ¬ In name (triggered_rules res)) ∧
  same_object name (algorithms outcome.2) (algorithms self).
Proof.
  intros Hnd outcome. subst outcome.
  change (disable_rule self name) with (set_rule_enabled self name false).
  destruct (set_rule_enabled_registry self name false)
    as (Ha & Hk & Hg & _). cbv zeta in Ha, Hk, Hg.
  set (self' := set_rule_enabled self name false) in *.
  assert (Hdis : ∀ item,
             In item (rules self') → item.1 = name →
             rule_enabled item.2 = false).
  { intros [n rule] Hin E. cbn [fst snd] in *. subst n.
    apply dict_get_NoDup in Hin; [|by rewrite Hk].
    rewrite Hg in Hin.
    destruct (dict_get name (rules self)) as [r0|]; [|done].
    cbn [fmap option_fmap option_map] in Hin. by injection Hin as <-. }
  destruct (analyze_returns self' clock transaction)
    as (res & -> & _ & _ & _ & _ & Ht & _).
  cbn [fst snd algorithms]. split.
  - intros res' [= <-]. rewrite Ht. intros Hin.
    apply triggered_of_In in Hin as (rule & s & Hin & _).
    pose proof (scored_enabled _ _ _ _ _ _ _ _ _ _ _ _ Hin) as Hen.
    apply outcomes_In in Hin.
    rewrite (Hdis (name, rule) Hin eq_refl) in Hen. done.
  - rewrite <- Ha. by apply final_skipped.
Qed.

Lemma run_rules_registered clock transaction rules acc :
  fold_left (loop_body clock transaction)
    (List.filter (fun item => str_in item.1 signal_names) rules) acc
  = fold_left (loop_body clock transaction) rules acc.
Proof.
  revert acc. induction rules as [|[name rule] rules IH]; intros acc;
    [done|].
  cbn [List.filter fst]. destruct (str_in name signal_names) eqn:E;
    cbn [fold_left]; [apply IH|].
  rewrite IH. f_equal. unfold FraudDetector.loop_body.
  rewrite (algorithms_get_None merchant_risk behavioral_risk network_risk
             ml_anomaly_score _calculate_distance hash name E).
  by destruct (negb (rule_enabled rule)).
Qed.

(** A rule under a name that is none of the nine names of the signals is
    dead configuration: [analyze] returns the same outcome and leaves the
    same objects with and without the rules of the registry that have
    such a name, whatever their weight, threshold and flag. *)
Theorem unregistered_rules_are_ignored (self : Detector) (clock : Clock)
    (transaction : Transaction) :
  let registered :=
    List.filter (fun item => str_in item.1 signal_names) (rules self) in
  let outcome := analyze self clock transaction in
  let outcome' := analyze (set_rules self registered) clock transaction in
  outcome'.1 = outcome.1 ∧ algorithms outcome'.2 = algorithms outcome.2.
Proof.
  intros registered outcome outcome'. subst outcome outcome'.
  unfold FraudDetector.analyze, FraudDetector.run_rules.
  cbn [set_rules rules algorithms config fst snd]. subst registered.
  by rewrite run_rules_registered.
Qed.

Lemma outcomes_all_disabled clock transaction rules (a : Algs) :
  Forall (fun item => rule_enabled item.2 = false) rules →
  contributions (outcomes clock transaction rules a) = [] ∧
  triggered_of (outcomes clock transaction rules a) = [] ∧
  final_algorithms clock transaction rules a = a.
Proof.
  induction 1 as [|[name rule] rules Hd _ IH]; [done|].
  cbn [FraudDetector.outcomes FraudDetector.final_algorithms].
  rewrite (call_disabled clock transaction a (name, rule) Hd).
  cbn [snd contributions triggered_of]. exact IH.
Qed.

(** With no rule enabled, as in a detector built from a configuration that
    names no rule, [analyze] calls no signal and changes nothing: the risk
    score and the confidence are 0, no rule is triggered, and the
    transaction is flagged exactly when the global threshold is not
    positive. *)
Theorem no_enabled_rule_scores_zero (self : Detector) (clock : Clock)
    (transaction : Transaction) :
  Forall (fun item => rule_enabled item.2 = false) (rules self) →
  ∃ res,
    analyze self clock transaction = (Ok res, self) ∧
    risk_score res == 0 ∧
    confidence res == 0 ∧
    triggered_rules res = [] ∧
    (is_fraudulent res = true ↔ cfg_global_threshold (config self) <= 0).
Proof.
  intros Hd.
  destruct (outcomes_all_disabled clock transaction (rules self)
              (algorithms self) Hd) as (Hc & Ht & Hf).
  destruct (analyze_returns self clock transaction)
    as (res & E & _ & Hrisk & Hfraud & Hconf & Htrig & _).
  rewrite Hc in Hrisk, Hfraud. rewrite Ht in Hconf, Htrig.
  rewrite Hf in E. exists res. split_and!.
  - rewrite E. by destruct self.
  - rewrite Hrisk. reflexivity.
  - rewrite Hconf. unfold confidence_of.
    destruct (cfg_rules (config self)) as [|n ns]; [reflexivity|].
    cbn [length]. change (inject_Z (Z.of_nat 0)) with 0.
    rewrite Qmin_id; [|unfold Qdiv; lra]. unfold Qdiv. lra.
  - done.
  - rewrite Hfraud. change (aggregate []) with 0.0. rewrite Qgeb_true.
    split; intros; lra.
Qed.

(** For a global threshold of at most 1, the verdict agrees with the
    score of the result: a transaction is flagged exactly when its
    reported risk score is at or above the global threshold (the verdict
    is taken before the score is capped at 1). *)
Theorem verdict_matches_score (self : Detector) (clock : Clock)
    (transaction : Transaction) (res : FraudResult) :
  cfg_global_threshold (config self) <= 1 →
  (analyze self clock transaction).1 = Ok res →
  (is_fraudulent res = true
   ↔ cfg_global_threshold (config self) <= risk_score res).
Proof.
  intros Hθ.
  destruct (analyze_returns self clock transaction)
    as (res' & -> & _ & Hrisk & Hfraud & _).
  cbn [fst]. intros [= <-]. rewrite Hrisk, Hfraud, Qgeb_true.
  rewrite Q.min_glb_iff. split; [|tauto]. intros H. split; [done|lra].
Qed.

(** [update_global_threshold] changes the verdict and nothing else: the
    result of [analyze] has the same risk score, confidence, triggered
    rules and recommendations, the signals are left in the same state,
    and (for a threshold of at most 1) the transaction is flagged exactly
    when its risk score reaches the new threshold. *)
Theorem global_threshold_changes_the_verdict_only (self : Detector)
    (threshold : Q) (clock : Clock) (transaction : Transaction) :
  let outcome := analyze self clock transaction in
  let outcome' :=
    analyze (update_global_threshold self threshold) clock transaction in
  ∃ res res',
    outcome.1 = Ok res ∧ outcome'.1 = Ok res' ∧
    risk_score res' = risk_score res ∧
    confidence res' = confidence res ∧
    triggered_rules res' = triggered_rules res ∧
    recommendations res' = recommendations res ∧
    algorithms outcome'.2 = algorithms outcome.2 ∧
    cfg_global_threshold (get_config outcome'.2) = threshold ∧
    (threshold <= 1 →
     (is_fraudulent res' = true ↔ threshold <= risk_score res)).
Proof.
  intros outcome outcome'. subst outcome outcome'.
  unfold FraudDetector.analyze.
  change (run_rules clock transaction
            (update_global_threshold self threshold))
    with (run_rules clock transaction self).
  set (acc := run_rules clock transaction self). clearbody acc.
  cbn [config update_global_threshold cfg_rules cfg_global_threshold
       fst snd algorithms get_config].
  assert (Hrisk : ∃ r,
    (if Qgtb (total_weight acc) 0
     then fdiv (total_weighted_score acc) (total_weight acc)
     else Ok 0.0) = Ok r).
  { destruct (Qgtb (total_weight acc) 0) eqn:E; [|by eexists].
    apply Qgtb_true in E. rewrite fdiv_ok by lra. by eexists. }
  destruct Hrisk as [r ->].
  assert (Hconf : ∃ c,
    match cfg_rules (config self) with
    | [] => Ok 0.0
    | _ :: _ =>
        fdiv (inject_Z (Z.of_nat (length (loop_triggered_rules acc))))
             (inject_Z (Z.of_nat (length (cfg_rules (config self)))))
        ≫= λ c : Q, Ok (Qmin c 1.0)
    end = Ok c).
  { destruct (cfg_rules (config self)) as [|n ns]; [by eexists|].
    rewrite fdiv_ok; [by eexists|].
    apply inject_Z_nonzero. cbn [length]. lia. }
  destruct Hconf as [c ->].
  unfold mbind, result_bind. cbn beta iota.
  eexists _, _. split_and!; try reflexivity.
  intros Hθ. cbn [is_fraudulent risk_score set_recommendations].
  rewrite Qgeb_true, Q.min_glb_iff. split; [|tauto].
  intros H. split; [done|lra].
Qed.

Lemma contributions_Permutation os1 os2 :
  Permutation os1 os2 →
  Permutation (contributions os1) (contributions os2).
Proof.
  induction 1 as [|[[n r] [|s|e]] l1 l2 _ IH
                 |[[n1 r1] [|s1|e1]] [[n2 r2] [|s2|e2]] l
                 |l1 l2 l3 _ IH1 _ IH2];
    cbn [contributions]; try done; try by constructor.
  by etrans.
Qed.

Lemma triggered_of_Permutation os1 os2 :
  Permutation os1 os2 →
  Permutation (triggered_of os1) (triggered_of os2).
Proof.
  induction 1 as [|[[n r] [|s|e]] l1 l2 _ IH
                 |[[n1 r1] [|s1|e1]] [[n2 r2] [|s2|e2]] l
                 |l1 l2 l3 _ IH1 _ IH2];
    cbn [triggered_of]; try done; case_ifs; try done;
    try by constructor.
  by etrans.
Qed.

(** What the order of the rules can change.  With the rules of the
    registry (each name once) in another order, every rule has the
    outcome it had, so the contributions are the same pairs of score and
    weight in another order, the same rules are triggered, listed in the
    order of the registry, the confidence is the same, and the signals
    are left in the same state.  The risk score is the weighted average
    of these contributions, summed in the order of the registry: the two
    scores are sums of the same terms in two orders, which in floating
    point can differ in the last place, and are not stated to be
    equal. *)
Theorem rule_order_permutes_contributions (self : Detector)
    (rules' : list (string * DetectionRule)) (clock : Clock)
    (transaction : Transaction) :
  NoDup (map fst (rules self)) →
  Permutation (rules self) rules' →
  let outcome := analyze self clock transaction in
  let outcome' := analyze (set_rules self rules') clock transaction in
  let os := outcomes clock transaction (rules self) (algorithms self) in
  let os' := outcomes clock transaction rules' (algorithms self) in
  ∃ res res',
    outcome.1 = Ok res ∧ outcome'.1 = Ok res' ∧
    Permutation os' os ∧
    Permutation (contributions os') (contributions os) ∧
    risk_score res = Qmin (aggregate (contributions os)) 1.0 ∧
    risk_score res' = Qmin (aggregate (contributions os')) 1.0 ∧
    confidence res' = confidence res ∧
    Permutation (triggered_rules res') (triggered_rules res) ∧
    algorithms outcome'.2 = algorithms outcome.2.
Proof.
  intros Hnd Hp outcome outcome' os os'. subst outcome outcome' os os'.
  assert (Hnd' : NoDup (map fst rules')).
  { by rewrite <- (Permutation_map fst Hp). }
  destruct (outcomes_independent clock transaction (rules self) (algorithms self) (algorithms self) Hnd)
    as (H1 & H2 & H3); [intros; apply same_object_refl|].
  destruct (outcomes_independent clock transaction rules' (algorithms self) (algorithms self) Hnd')
    as (H1' & H2' & H3'); [intros; apply same_object_refl|].
  assert (Hos : Permutation
                  (outcomes clock transaction rules' (algorithms self))
                  (outcomes clock transaction (rules self) (algorithms self))).
  { rewrite H1, H1'. by apply Permutation_map. }
  destruct (analyze_returns self clock transaction)
    as (res & -> & _ & Hrisk & Hfraud & Hconf & Htrig & _).
  destruct (analyze_returns (set_rules self rules') clock transaction)
    as (res' & -> & _ & Hrisk' & Hfraud' & Hconf' & Htrig' & _).
  cbn [set_rules rules algorithms config fst snd] in *.
  pose proof (triggered_of_Permutation _ _ Hos) as Htr.
  exists res, res'. split_and!; [done | done | done | | done | done | | |].
  - by apply contributions_Permutation.
  - rewrite Hconf, Hconf'. unfold confidence_of.
    by rewrite (Permutation_length Htr).
  - by rewrite Htrig, Htrig'.
  - apply same_object_all. intros name.
    destruct (decide (name ∈ map fst (rules self))) as [Hin|Hnin].
    + apply list_elem_of_In, in_map_iff in Hin as (item & <- & Hin).
      apply same_object_trans
        with (call clock transaction (algorithms self) item).2.
      * apply H2'. apply list_elem_of_In.
        rewrite <- Hp. by apply list_elem_of_In.
      * apply same_object_sym. by apply H2.
    + apply same_object_trans with (algorithms self).
      * apply H3'. intros Hin. apply Hnin.
        rewrite (Permutation_map fst Hp). by apply list_elem_of_In.
      * apply same_object_sym, H3. intros Hin. apply Hnin.
        by apply list_elem_of_In.
Qed.

End RulesAndSignals.

(** The recommendations follow the result: the advice on velocity, amount
    and location is given exactly for the triggered rules of those names,
    the manual review exactly above a risk score of 0.8, and the request for
    more data exactly below a confidence of 0.5.  Every recommendation is
    one of these five sentences: no rule of another name adds one.  They
    come in this order, each once at most, so there are five at most. *)
Theorem recommendations_follow_result (result : FraudResult)
    (transaction : Transaction) :
  let recommendations :=
    FraudDetector._generate_recommendations result transaction in
  (In "Consider implementing velocity-based transaction limits"
      recommendations
   ↔ In "velocity" (triggered_rules result)) ∧
  (In "Review transaction amount thresholds and user spending patterns"
      recommendations
   ↔ In "amount" (triggered_rules result)) ∧
  (In "Verify transaction location and check for unusual travel patterns"
      recommendations
   ↔ In "location" (triggered_rules result)) ∧
  (In "High risk transaction - consider manual review or additional verification"
      recommendations
   ↔ 0.8 < risk_score result) ∧
  (In "Low confidence score - consider gathering additional transaction data"
      recommendations
   ↔ confidence result < 0.5) ∧
  (length recommendations <= 5)%nat ∧
  (∀ recommendation,
     In recommendation recommendations →
     In recommendation
       ["Consider implementing velocity-based transaction limits";
        "Review transaction amount thresholds and user spending patterns";
        "Verify transaction location and check for unusual travel patterns";
        "High risk transaction - consider manual review or additional verification";
        "Low confidence score - consider gathering additional transaction data"])
  ∧
  sublist recommendations
    ["Consider implementing velocity-based transaction limits";
     "Review transaction amount thresholds and user spending patterns";
     "Verify transaction location and check for unusual travel patterns";
     "High risk transaction - consider manual review or additional verification";
     "Low confidence score - consider gathering additional transaction data"].
Proof.
  intros recommendations. subst recommendations.
  unfold FraudDetector._generate_recommendations.
  assert (Hin : ∀ name names,
            FraudDetector.str_in name names = true ↔ In name names).
  { intros name names. unfold FraudDetector.str_in.
    rewrite existsb_exists. split.
    - intros (x & Hx & ->%String.eqb_eq). done.
    - intros H. exists name. split; [done|apply String.eqb_refl]. }
  pose proof (Hin "velocity" (triggered_rules result)) as H1.
  pose proof (Hin "amount" (triggered_rules result)) as H2.
  pose proof (Hin "location" (triggered_rules result)) as H3.
  pose proof (Qgtb_true (risk_score result) 0.8) as H4.
  assert (H5 : Qltb (confidence result) 0.5 = true ↔ confidence result < 0.5).
  { unfold Qltb. by rewrite negb_true_iff, Qle_bool_false. }
  clear Hin.
  set (s1 := "Consider implementing velocity-based transaction limits").
  set (s2 :=
    "Review transaction amount thresholds and user spending patterns").
  set (s3 :=
    "Verify transaction location and check for unusual travel patterns").
  set (s4 :=
    "High risk transaction - consider manual review or additional verification").
  set (s5 :=
    "Low confidence score - consider gathering additional transaction data").
  assert (D : s1 ≠ s2 ∧ s1 ≠ s3 ∧ s1 ≠ s4 ∧ s1 ≠ s5 ∧ s2 ≠ s3 ∧ s2 ≠ s4 ∧
              s2 ≠ s5 ∧ s3 ≠ s4 ∧ s3 ≠ s5 ∧ s4 ≠ s5)
    by (split_and!; discriminate).
  clearbody s1 s2 s3 s4 s5. destruct_and!.
  set (P1 := In "velocity" (triggered_rules result)) in *.
  set (P2 := In "amount" (triggered_rules result)) in *.
  set (P3 := In "location" (triggered_rules result)) in *.
  set (P4 := 0.8 < risk_score result) in *.
  set (P5 := confidence result < 0.5) in *.
  clearbody P1 P2 P3 P4 P5.
  destruct (FraudDetector.str_in "velocity" _),
    (FraudDetector.str_in "amount" _),
    (FraudDetector.str_in "location" _),
    (Qgtb (risk_score result) 0.8), (Qltb (confidence result) 0.5);
    cbn [app length In];
    (split_and!;
     [intuition congruence | intuition congruence | intuition congruence
     | intuition congruence | intuition congruence | lia
     | intros s Hs; tauto
     | repeat first [ apply sublist_nil | apply sublist_skip
                    | apply sublist_cons ] ]).
Qed.

(** ** The statements about [analyze] at the sample data *)

Lemma sample_names_once : NoDup (map fst (FraudDetector.rules Sample.detector)).
Proof. compute_done. Defined.

Lemma rules_do_not_interfere_witness :
  FraudDetector.outcomes (Sample.constant_signal 0.5)
    (Sample.constant_signal 0.5) (Sample.constant_signal 0.5)
    (Sample.constant_signal 0.5) (fun _ _ => 0) (fun _ => 0%Z)
    (Sample.clock 0) Sample.high_amount_transaction
    (FraudDetector.rules Sample.detector)
    (FraudDetector.algorithms Sample.detector)
  = map (fun item =>
           (item,
            (FraudDetector.call (Sample.constant_signal 0.5)
               (Sample.constant_signal 0.5) (Sample.constant_signal 0.5)
               (Sample.constant_signal 0.5) (fun _ _ => 0) (fun _ => 0%Z)
               (Sample.clock 0) Sample.high_amount_transaction
               (FraudDetector.algorithms Sample.detector) item).1))
      (FraudDetector.rules Sample.detector).
Proof.
  exact (proj1 (rules_do_not_interfere (Sample.constant_signal 0.5)
    (Sample.constant_signal 0.5) (Sample.constant_signal 0.5)
    (Sample.constant_signal 0.5) (fun _ _ => 0) (fun _ => 0%Z)
    Sample.detector (Sample.clock 0) Sample.high_amount_transaction
    sample_names_once)).
Defined.

Lemma disabled_rule_is_skipped_witness :
  FraudDetector.same_object "velocity"
    (FraudDetector.algorithms
       (FraudDetector.analyze (Sample.constant_signal 0.5)
          (Sample.constant_signal 0.5) (Sample.constant_signal 0.5)
          (Sample.constant_signal 0.5) (fun _ _ => 0) (fun _ => 0%Z)
          (FraudDetector.disable_rule Sample.detector "velocity")
          (Sample.clock 0) Sample.high_amount_transaction).2)
    (FraudDetector.algorithms Sample.detector).
Proof.
  exact (proj2 (disabled_rule_is_skipped (Sample.constant_signal 0.5)
    (Sample.constant_signal 0.5) (Sample.constant_signal 0.5)
    (Sample.constant_signal 0.5) (fun _ _ => 0) (fun _ => 0%Z)
    Sample.detector (Sample.clock 0) Sample.high_amount_transaction
    "velocity" sample_names_once)).
Defined.

Lemma no_enabled_rule_scores_zero_witness :
  let detector : @FraudDetector.t unit unit unit unit :=
    FraudDetector.init (Sample.config []) "2024" tt tt tt tt in
  ∃ res,
    FraudDetector.analyze (Sample.constant_signal 0.5)
      (Sample.constant_signal 0.5) (Sample.constant_signal 0.5)
      (Sample.constant_signal 0.5) (fun _ _ => 0) (fun _ => 0%Z)
      detector (Sample.clock 0) Sample.high_amount_transaction
    = (Ok res, detector) ∧
    risk_score res == 0 ∧
    confidence res == 0 ∧
    triggered_rules res = [] ∧
    (is_fraudulent res = true
     ↔ cfg_global_threshold (FraudDetector.config detector) <= 0).
Proof.
  apply (no_enabled_rule_scores_zero (Sample.constant_signal 0.5)
    (Sample.constant_signal 0.5) (Sample.constant_signal 0.5)
    (Sample.constant_signal 0.5) (fun _ _ => 0) (fun _ => 0%Z)
    (FraudDetector.init (Sample.config []) "2024" tt tt tt tt)
    (Sample.clock 0) Sample.high_amount_transaction).
  repeat constructor.
Defined.

Lemma verdict_matches_score_witness :
  ∃ res,
    (FraudDetector.analyze (Sample.constant_signal 0.5)
       (Sample.constant_signal 0.5) (Sample.constant_signal 0.5)
       (Sample.constant_signal 0.5) (fun _ _ => 0) (fun _ => 0%Z)
       Sample.detector (Sample.clock 0) Sample.high_amount_transaction).1
    = Ok res ∧
    (is_fraudulent res = true ↔ 0.7 <= risk_score res).
Proof.
  eexists. split; [vm_compute; reflexivity|].
  apply (verdict_matches_score (Sample.constant_signal 0.5)
    (Sample.constant_signal 0.5) (Sample.constant_signal 0.5)
    (Sample.constant_signal 0.5) (fun _ _ => 0) (fun _ => 0%Z)
    Sample.detector (Sample.clock 0) Sample.high_amount_transaction).
  - vm_compute. discriminate.
  - vm_compute. reflexivity.
Defined.

Lemma rule_order_permutes_contributions_witness :
  let reversed := rev (FraudDetector.rules Sample.detector) in
  ∃ res res',
    (FraudDetector.analyze (Sample.constant_signal 0.5)
       (Sample.constant_signal 0.5) (Sample.constant_signal 0.5)
       (Sample.constant_signal 0.5) (fun _ _ => 0) (fun _ => 0%Z)
       Sample.detector (Sample.clock 0) Sample.high_amount_transaction).1
    = Ok res ∧
    (FraudDetector.analyze (Sample.constant_signal 0.5)
       (Sample.constant_signal 0.5) (Sample.constant_signal 0.5)
       (Sample.constant_signal 0.5) (fun _ _ => 0) (fun _ => 0%Z)
       (FraudDetector.set_rules Sample.detector reversed)
       (Sample.clock 0) Sample.high_amount_transaction).1
    = Ok res' ∧
    confidence res' = confidence res ∧
    Permutation (triggered_rules res') (triggered_rules res).
Proof.
  destruct (rule_order_permutes_contributions (Sample.constant_signal 0.5)
    (Sample.constant_signal 0.5) (Sample.constant_signal 0.5)
    (Sample.constant_signal 0.5) (fun _ _ => 0) (fun _ => 0%Z)
    Sample.detector (rev (FraudDetector.rules Sample.detector))
    (Sample.clock 0) Sample.high_amount_transaction sample_names_once
    (Permutation_rev _))
    as (res & res' & H1 & H2 & _ & _ & _ & _ & H3 & H4 & _).
  exists res, res'. by split_and!.
Defined.
